(** * galenxing/utilities: the batch launcher and the demultiplexing runner

    A shallow embedding of [utilities/aegea_launcher.py] and
    [utilities/demux/bcl2fastq.py].

    Conventions of the model.
    - Python [str] values are [string]s (sequences of 8-bit characters);
      file names are taken to be ASCII.  The [bytes] that
      [subprocess.check_output] returns are kept apart from [str] where
      the runner puts them into a command or a log call.
    - Python exceptions are values of [exn]; a computation is a function
      from the world to an outcome ([Ok] or [Raise]) and the next world, so
      what happened before an exception was raised stays observable.
    - Everything outside the two scripts (the shell, S3, the dynamic import
      of the target script, the order in which a directory is listed) is an
      oracle field of the environment record; nothing is assumed about it
      unless a theorem says so. *)

From Stdlib Require Import ZArith Ascii String DecimalString DecimalZ
  DecimalPos.
From stdpp Require Import base list strings gmap fin_maps.

Local Open Scope string_scope.
Local Open Scope list_scope.

(** ** Python exceptions and outcomes *)

Inductive exn : Type :=
| ValueError (msg : string)
| RuntimeError (msg : string)
| ArgumentTypeError (msg : string)
| CalledProcessError (cmd : string)
| SystemExit (msg : string)
| FileExistsError (path : string)
| FileNotFoundError (path : string)
| NotADirectoryError (path : string)
| IsADirectoryError (path : string)
| ClientError (msg : string)
| TypeError (msg : string)
| OtherError (what : string).

Inductive outcome (A : Type) : Type :=
| Ok (a : A)
| Raise (e : exn).
Arguments Ok {A} a.
Arguments Raise {A} e.

(** ** String helpers: the [str] methods and [os.path] functions used *)

Module PyStr.

Definition slash : ascii := "/"%char.
Definition newline : ascii := "010"%char.
Definition dquote : ascii := "034"%char.

(** [s] between double quotes *)
Definition quoted (s : string) : string :=
  String dquote (s +:+ String dquote EmptyString).

Definition ascii_eqb (a b : ascii) : bool := Ascii.eqb a b.

(** [sep.join(l)] *)
Fixpoint join (sep : string) (l : list string) : string :=
  match l with
  | [] => EmptyString
  | [x] => x
  | x :: rest => x +:+ sep +:+ join sep rest
  end.

(** [s.startswith(p)] *)
Fixpoint startswith (p s : string) : bool :=
  match p with
  | EmptyString => true
  | String a p' =>
      match s with
      | EmptyString => false
      | String b s' => ascii_eqb a b && startswith p' s'
      end
  end.

Definition rev_string (s : string) : string :=
  string_of_list_ascii (List.rev (list_ascii_of_string s)).

(** [s.endswith(p)] *)
Definition endswith (p s : string) : bool :=
  startswith (rev_string p) (rev_string s).

(** [p in s] *)
Fixpoint contains (p s : string) : bool :=
  startswith p s ||
  match s with
  | EmptyString => false
  | String _ s' => contains p s'
  end.

(** Does the character [c] occur in [s]? *)
Fixpoint has_char (c : ascii) (s : string) : bool :=
  match s with
  | EmptyString => false
  | String a s' => ascii_eqb a c || has_char c s'
  end.

(** [s[s.rfind(c)+1:]]: what follows the last [c] (all of [s] when
    there is none). *)
Fixpoint after_last (c : ascii) (s : string) : string :=
  match s with
  | EmptyString => EmptyString
  | String a s' =>
      if has_char c s' then after_last c s'
      else if ascii_eqb a c then s' else s
  end.

(** [s[:s.rfind(c)+1]]: up to and including the last [c]. *)
Fixpoint upto_last (c : ascii) (s : string) : string :=
  match s with
  | EmptyString => EmptyString
  | String a s' =>
      if has_char c s' then String a (upto_last c s')
      else if ascii_eqb a c then String a EmptyString else EmptyString
  end.

Fixpoint all_char (c : ascii) (s : string) : bool :=
  match s with
  | EmptyString => true
  | String a s' => ascii_eqb a c && all_char c s'
  end.

Fixpoint lstrip_char (c : ascii) (s : string) : string :=
  match s with
  | EmptyString => EmptyString
  | String a s' => if ascii_eqb a c then lstrip_char c s' else s
  end.

(** [s.rstrip(c)] *)
Definition rstrip_char (c : ascii) (s : string) : string :=
  rev_string (lstrip_char c (rev_string s)).

(** Python's white space for [str.split()] and [int()]. *)
Definition is_space (a : ascii) : bool :=
  let n := nat_of_ascii a in
  (n =? 32)%nat || ((9 <=? n)%nat && (n <=? 13)%nat).

Fixpoint lstrip (s : string) : string :=
  match s with
  | EmptyString => EmptyString
  | String a s' => if is_space a then lstrip s' else s
  end.

(** [s.strip()] *)
Definition strip (s : string) : string :=
  rev_string (lstrip (rev_string (lstrip s))).

(** [s.split()]: the maximal runs of characters that are not white
    space.  [cur] is the run being read, reversed. *)
Fixpoint split_aux (cur : list ascii) (s : string) : list string :=
  let flush (k : list string) :=
    match cur with
    | [] => k
    | _ => string_of_list_ascii (List.rev cur) :: k
    end in
  match s with
  | EmptyString => flush []
  | String a s' =>
      if is_space a then flush (split_aux [] s')
      else split_aux (a :: cur) s'
  end.

Definition split (s : string) : list string := split_aux [] s.

(** [str(n)] for an [int] *)
Definition str_of_Z (n : Z) : string := NilZero.string_of_int (Z.to_int n).

End PyStr.

Module OsPath.
Import PyStr.

(** [posixpath.join(a, b)] *)
Definition join (a b : string) : string :=
  if startswith "/" b then b
  else if (String.eqb a EmptyString || endswith "/" a)%bool then a +:+ b
  else a +:+ "/" +:+ b.

Definition join3 (a b c : string) : string := join (join a b) c.

(** [posixpath.basename(p)] *)
Definition basename (p : string) : string := after_last slash p.

(** [posixpath.split(p)]: the head loses its trailing slashes unless it
    consists of slashes only. *)
Definition split (p : string) : string * string :=
  let head := upto_last slash p in
  let tail := after_last slash p in
  let head' :=
    if (negb (String.eqb head EmptyString) && negb (all_char slash head))%bool
    then rstrip_char slash head else head in
  (head', tail).

(** [posixpath.dirname(p)] *)
Definition dirname (p : string) : string := fst (split p).

(** [posixpath.splitext(p)[0]] for a [p] without a slash: the part
    before the last dot, unless only dots come before it. *)
Definition splitext_root (p : string) : string :=
  let dot := "."%char in
  if has_char dot p then
    let before := String.substring 0 (String.length (upto_last dot p) - 1) p in
    if all_char dot before then p else before
  else p.

End OsPath.

(** [int(s)] on a [str]: optional surrounding white space, an optional sign
    and decimal digits, where single underscores may separate digits. *)
Module PyInt.
Import PyStr.

Definition is_digit (a : ascii) : bool :=
  let n := nat_of_ascii a in ((48 <=? n)%nat && (n <=? 57)%nat).

Definition underscore : ascii := "_"%char.

(** Drop the underscores of a digit string; [None] when one of them is
    not between two digits.  [prev] tells whether the previous character
    was a digit. *)
Fixpoint drop_underscores (prev : bool) (s : string) : option string :=
  match s with
  | EmptyString => if prev then Some EmptyString else None
  | String a s' =>
      if ascii_eqb a underscore then
        if prev then
          match s' with
          | EmptyString => None
          | String b _ => if is_digit b then drop_underscores false s' else None
          end
        else None
      else
        option_map (String a) (drop_underscores true s')
  end.

Definition digits (s : string) : option Z :=
  match s with
  | EmptyString => None
  | String a _ =>
      if is_digit a then
        match drop_underscores false s with
        | Some d => option_map Z.of_uint (NilZero.uint_of_string d)
        | None => None
        end
      else None
  end.

Definition int (s : string) : option Z :=
  match strip s with
  | String "+" r => digits r
  | String "-" r => option_map Z.opp (digits r)
  | t => digits t
  end.

End PyInt.
(** ** Computations: world passing with exceptions *)

Section Monad.
Context {W : Type}.

Definition M (A : Type) : Type := W -> outcome A * W.

Definition ret {A} (a : A) : M A := fun w => (Ok a, w).

Definition raise {A} (e : exn) : M A := fun w => (Raise e, w).

Definition bind {A B} (c : M A) (k : A -> M B) : M B :=
  fun w =>
    match c w with
    | (Ok a, w') => k a w'
    | (Raise e, w') => (Raise e, w')
    end.

(** [try: c finally: f].  An exception of [f] replaces that of [c]. *)
Definition try_finally {A} (c : M A) (f : M unit) : M A :=
  fun w =>
    let (r, w') := c w in
    match f w' with
    | (Ok _, w'') => (r, w'')
    | (Raise e, w'') => (Raise e, w'')
    end.

(** [try: c except: h; raise] *)
Definition try_except_reraise {A} (c : M A) (h : M unit) : M A :=
  fun w =>
    match c w with
    | (Ok a, w') => (Ok a, w')
    | (Raise e, w') =>
        match h w' with
        | (Ok _, w'') => (Raise e, w'')
        | (Raise e', w'') => (Raise e', w'')
        end
    end.

Definition when (b : bool) (c : M unit) : M unit :=
  if b then c else ret tt.

(** [for x in l: body x] *)
Fixpoint for_each {A} (l : list A) (body : A -> M unit) : M unit :=
  match l with
  | [] => ret tt
  | x :: rest => bind (body x) (fun _ => for_each rest body)
  end.

End Monad.
Arguments M W A : clear implicits.

Declare Scope py_scope.
Delimit Scope py_scope with py.
Notation "'let!' x ':=' c 'in' k" := (bind c (fun x => k))
  (at level 10, x name, c at level 100, k at level 200) : py_scope.
Notation "c '>>' k" := (bind c (fun _ => k))
  (at level 100, k at level 200, right associativity) : py_scope.
Local Open Scope py_scope.

(** [c] only appends events to the trace [tr] of the world, and each of
    them satisfies [P]. *)
Definition extends {W Ev : Type} (tr : W -> list Ev) (P : Ev -> Prop)
    {A} (c : M W A) : Prop :=
  forall w, exists t, tr (snd (c w)) = tr w ++ t /\ Forall P t.

Definition run_outcome {W A} (r : outcome A * W) : outcome A := fst r.
Definition run_world {W A} (r : outcome A * W) : W := snd r.

Inductive level : Type := DEBUG | INFO | WARNING | ERROR.

(** ** The local file system *)

(** A file system is a finite map from path strings to nodes.  Paths are
    compared as strings, the way the scripts build them with
    [os.path.join]; as the parent of a path, the current directory and the root are
    directories that always exist. *)
Module Fs.
Import PyStr.

Inductive node : Type := File | Dir.

#[global] Instance node_eq_dec : EqDecision node.
Proof. solve_decision. Defined.

Definition exists_ (fs : gmap string node) (p : string) : bool :=
  match fs !! p with
  | Some _ => true
  | None => (negb (String.eqb p EmptyString) && all_char slash p)%bool
  end.

Definition isdir (fs : gmap string node) (p : string) : bool :=
  match fs !! p with
  | Some Dir => true
  | Some File => false
  | None => all_char slash p
  end.

(** The exception of a system call whose parent directory [d] is not a
    directory, [None] when it is one. *)
Definition parent_error (fs : gmap string node) (d : string) : option exn :=
  match fs !! d with
  | Some Dir => None
  | Some File => Some (NotADirectoryError d)
  | None => if all_char slash d then None else Some (FileNotFoundError d)
  end.

(** [os.mkdir(p)] *)
Definition mkdir (p : string) (fs : gmap string node)
  : outcome (gmap string node) :=
  if exists_ fs p then Raise (FileExistsError p)
  else match parent_error fs (OsPath.dirname p) with
       | Some e => Raise e
       | None => Ok (<[p := Dir]> fs)
       end.

(** [os.makedirs(p)] with [exist_ok=False]: the missing ancestors are
    made first; an ancestor made in the meantime is tolerated, the leaf
    is not. *)
Fixpoint makedirs_fuel (fuel : nat) (p : string) (fs : gmap string node)
  : outcome (gmap string node) :=
  match fuel with
  | O => Raise (OtherError "RecursionError")
  | S fuel' =>
      let (head, tail) :=
        let (h, t) := OsPath.split p in
        if String.eqb t EmptyString then OsPath.split h else (h, t) in
      let fs1 :=
        if (negb (String.eqb head EmptyString) && negb (String.eqb tail EmptyString)
            && negb (exists_ fs head))%bool
        then match makedirs_fuel fuel' head fs with
             | Ok fs' => Ok fs'
             | Raise (FileExistsError _) => Ok fs
             | Raise e => Raise e
             end
        else Ok fs in
      match fs1 with
      | Ok fs' => mkdir p fs'
      | Raise e => Raise e
      end
  end.

Definition makedirs (p : string) (fs : gmap string node)
  : outcome (gmap string node) :=
  makedirs_fuel (S (String.length p)) p fs.

(** [os.remove(p)] *)
Definition remove (p : string) (fs : gmap string node)
  : outcome (gmap string node) :=
  match fs !! p with
  | Some File => Ok (delete p fs)
  | Some Dir => Raise (IsADirectoryError p)
  | None => Raise (FileNotFoundError p)
  end.

(** The paths strictly below the directory [d]. *)
Definition below (d p : string) : bool := startswith (d +:+ "/") p.

Definition has_entries (fs : gmap string node) (d : string) : bool :=
  existsb (fun kv => below d (fst kv)) (map_to_list fs).

(** Move the node at [src], and what is below it, to [dst]. *)
Definition rekey (src dst : string) (fs : gmap string node)
  : gmap string node :=
  list_to_map
    (List.map
       (fun kv : string * node =>
          let (p, n) := kv in
          if String.eqb p src then (dst, n)
          else if below src p
               then (dst +:+ String.substring (String.length src)
                                (String.length p - String.length src) p, n)
               else (p, n))
       (List.filter
          (fun kv : string * node =>
             negb (String.eqb (fst kv) dst || below dst (fst kv)))
          (map_to_list fs))).

(** [os.rename(src, dst)] on POSIX: a file replaces a file, a directory
    replaces an empty directory. *)
Definition rename (src dst : string) (fs : gmap string node)
  : outcome (gmap string node) :=
  match fs !! src with
  | None => Raise (FileNotFoundError src)
  | Some n =>
      match parent_error fs (OsPath.dirname dst) with
      | Some e => Raise e
      | None =>
          if String.eqb src dst then Ok fs
          else
            match n, fs !! dst with
            | File, Some Dir => Raise (IsADirectoryError dst)
            | Dir, Some File => Raise (NotADirectoryError dst)
            | Dir, Some Dir =>
                if has_entries fs dst
                then Raise (OtherError "OSError: directory not empty")
                else Ok (rekey src dst fs)
            | _, _ => Ok (rekey src dst fs)
            end
      end
  end.

(** The names in the directory [d]. *)
Definition listdir (fs : gmap string node) (d : string) : list string :=
  List.map (fun kv => OsPath.basename (fst kv))
    (List.filter
       (fun kv : string * node =>
          String.eqb (OsPath.dirname (fst kv)) d
          && negb (String.eqb (OsPath.basename (fst kv)) EmptyString))%bool
       (map_to_list fs)).

End Fs.

(** ** The regular expression of the runner *)

(** [re.match("(.+)(_R[12]_001.fastq.gz)", s)]: the match is anchored at the
    start only; [.] is any character but a newline; [.+] is greedy, so
    group 1 is the longest prefix that the second group can follow. *)
Module Re.
Import PyStr.

Inductive atom : Type :=
| Lit (a : ascii)
| OneOf (l : list ascii)
| AnyChar.

Definition atom_matches (p : atom) (c : ascii) : bool :=
  match p with
  | Lit a => ascii_eqb a c
  | OneOf l => existsb (ascii_eqb c) l
  | AnyChar => negb (ascii_eqb c newline)
  end.

(** Does [s] start with a match of the atoms? *)
Fixpoint match_atoms (ps : list atom) (s : string) : bool :=
  match ps with
  | [] => true
  | p :: ps' =>
      match s with
      | EmptyString => false
      | String c s' => atom_matches p c && match_atoms ps' s'
      end
  end.

(** [_R[12]_001.fastq.gz] *)
Definition read_suffix : list atom :=
  [Lit "_"; Lit "R"; OneOf ["1"; "2"]; Lit "_"; Lit "0"; Lit "0"; Lit "1";
   AnyChar; Lit "f"; Lit "a"; Lit "s"; Lit "t"; Lit "q"; AnyChar;
   Lit "g"; Lit "z"]%char.

(** Group 1 of [(.+)] followed by [ps]: longer prefixes are tried
    first. *)
Fixpoint greedy_plus (ps : list atom) (s : string) : option string :=
  match s with
  | EmptyString => None
  | String c s' =>
      if atom_matches AnyChar c then
        match greedy_plus ps s' with
        | Some g => Some (String c g)
        | None => if match_atoms ps s' then Some (String c EmptyString)
                  else None
        end
      else None
  end.

(** [m.group(1)], or [None] when there is no match. *)
Definition match_sample (s : string) : option string :=
  greedy_plus read_suffix s.

End Re.

(** ** The demultiplexing runner, [demux/bcl2fastq.py] *)

Module Demux.
Import PyStr.

Definition BCL2FASTQ : string := "bcl2fastq".
Definition S3_RETRY : nat := 5.
Definition S3_LOG_DIR : string := "s3://jamestwebber-logs/bcl2fastq_logs/".

(** The namespace that [get_parser().parse_args()] returns. *)
Record args : Type := {
  exp_id : option string;
  s3_input_dir : string;
  s3_output_dir : string;
  s3_report_dir : string;
  s3_sample_sheet_dir : string;
  star_structure : bool;
  bcl2fastq_options : string;
  skip_undetermined : bool;
  sample_sheet_name : option string;
  root_dir : string
}.

(** The defaults of [get_parser]. *)
Definition default_args : args := {|
  exp_id := None;
  s3_input_dir := "s3://czbiohub-seqbot/bcl";
  s3_output_dir := "s3://czbiohub-seqbot/fastqs";
  s3_report_dir := "s3://czbiohub-seqbot/reports";
  s3_sample_sheet_dir := "s3://czbiohub-seqbot/sample-sheets";
  star_structure := false;
  bcl2fastq_options := "--no-lane-splitting";
  skip_undetermined := false;
  sample_sheet_name := None;
  root_dir := "/mnt"
|}.

(** What the run does to the outside, in order. *)
Inductive event : Type :=
| EvLog (lvl : level) (msg : string)
| EvLogBytes (lvl : level) (data : string)  (* a log call given bytes *)
| EvExec (cmd : string)        (* subprocess.check_output(cmd, shell=True) *)
| EvPopen (cmd : string)       (* subprocess.Popen([cmd], shell=True) *)
| EvKill (cmd : string)        (* p.kill() on the process started by cmd *)
| EvCloseLog (path : string).  (* file_handler.close() *)

(** What a shell command does: its exit status, its output and the file
    system it leaves. *)
Record shell_result : Type := {
  sh_ok : bool;
  sh_output : string;
  sh_fs : gmap string Fs.node
}.

Record env : Type := {
  (** [parser.parse_args()] on [sys.argv] *)
  parse_args : outcome args;
  (** [os.environ.get('AWS_BATCH_JOB_ID')] *)
  batch_job_id : option string;
  (** the [n]-th shell command of the run, on the file system it finds *)
  shell : nat -> string -> gmap string Fs.node -> shell_result;
  (** the order in which the system lists a directory *)
  scandir_order : list string -> list string
}.

Record world : Type := {
  w_fs : gmap string Fs.node;
  w_trace : list event        (* oldest first *)
}.

Definition emit (e : event) : M world unit :=
  fun w => (Ok tt, {| w_fs := w_fs w; w_trace := w_trace w ++ [e] |}).

Definition log (lvl : level) (msg : string) : M world unit :=
  emit (EvLog lvl msg).

(** A log call whose message is a [bytes] object. *)
Definition log_bytes (lvl : level) (data : string) : M world unit :=
  emit (EvLogBytes lvl data).

(** An item of a command list: a [str], or [bytes] as
    [subprocess.check_output] returns them. *)
Inductive token : Type :=
| Str (s : string)
| Bytes (b : string).

Definition token_text (t : token) : string :=
  match t with Str s => s | Bytes b => b end.

(** A list of [str] items. *)
Definition words (l : list string) : list token := List.map Str l.

(** The index of the first item that is not a [str], counting from [i]. *)
Fixpoint first_bytes (i : nat) (l : list token) : option nat :=
  match l with
  | [] => None
  | Str _ :: rest => first_bytes (S i) rest
  | Bytes _ :: _ => Some i
  end.

(** [sep.join(l)] on a [str] separator: a [TypeError] at the first item
    that is [bytes]. *)
Definition py_join (sep : string) (l : list token) : outcome string :=
  match first_bytes 0 l with
  | Some i =>
      Raise (TypeError ("sequence item " +:+ str_of_Z (Z.of_nat i)
                        +:+ ": expected str instance, bytes found"))
  | None => Ok (join sep (List.map token_text l))
  end.

Definition is_exec (e : event) : bool :=
  match e with EvExec _ => true | _ => false end.

(** The number of shell commands run so far. *)
Definition exec_count (t : list event) : nat :=
  length (List.filter is_exec t).

(** [subprocess.check_output(cmd, shell=True)]; the result is the
    content of the [bytes] returned. *)
Definition check_output (E : env) (cmd : string) : M world string :=
  fun w =>
    let r := shell E (exec_count (w_trace w)) cmd (w_fs w) in
    let w' := {| w_fs := sh_fs r; w_trace := w_trace w ++ [EvExec cmd] |} in
    if sh_ok r then (Ok (sh_output r), w')
    else (Raise (CalledProcessError cmd), w').

(** Lift a file-system call. *)
Definition fs_call (f : gmap string Fs.node -> outcome (gmap string Fs.node))
  : M world unit :=
  fun w =>
    match f (w_fs w) with
    | Ok fs' => (Ok tt, {| w_fs := fs'; w_trace := w_trace w |})
    | Raise e => (Raise e, w)
    end.

Definition path_exists (p : string) : M world bool :=
  fun w => (Ok (Fs.exists_ (w_fs w) p), w).

(** [log_command(logger, command, shell=True)]: [' '.join(command)] comes
    first, so a command that holds [bytes] raises before anything is
    logged or run. *)
Definition log_command (E : env) (command : list token) : M world unit :=
  let! line := (fun w => (py_join " " command, w)) in
  log INFO line >>
  let! output := check_output E line in
  log_bytes DEBUG output.

(** The loop
    [for i in range(n): try: attempt; break
     except CalledProcessError: logger.info(retry_msg)
     else: raise exhausted]. *)
Fixpoint for_retry (n : nat) (attempt : M world unit) (retry_msg : string)
    (exhausted : exn) : M world unit :=
  match n with
  | O => raise exhausted
  | S n' =>
      fun w =>
        match attempt w with
        | (Ok _, w') => (Ok tt, w')
        | (Raise (CalledProcessError _), w') =>
            (log INFO retry_msg >>
             for_retry n' attempt retry_msg exhausted) w'
        | (Raise e, w') => (Raise e, w')
        end
  end.

(** The names that [*fastq.gz] matches in the directory [d]: those that
    end in [fastq.gz] and do not start with a dot. *)
Definition fastq_gz_names (fs : gmap string Fs.node) (d : string)
  : list string :=
  List.filter
    (fun name => endswith "fastq.gz" name && negb (startswith "." name))%bool
    (if Fs.isdir fs d then Fs.listdir fs d else []).

(** [glob.glob(os.path.join(d, '*fastq.gz'))], in the system's order. *)
Definition glob_fastq_gz (E : env) (d : string) : M world (list string) :=
  fun w =>
    (Ok (List.map (OsPath.join d)
           (scandir_order E (fastq_gz_names (w_fs w) d))),
     w).

(** The body of the loop over [fastqgz_files]. *)
Definition reorganize_file (a : args) (output_path fastq_file : string)
  : M world unit :=
  if (skip_undetermined a
      && startswith "Undetermined" (OsPath.basename fastq_file))%bool
  then
    log INFO ("removing " +:+ OsPath.basename fastq_file) >>
    fs_call (Fs.remove fastq_file)
  else if star_structure a then
    match Re.match_sample (OsPath.basename fastq_file) with
    | Some sample =>
        let! there := path_exists (OsPath.join output_path sample) in
        when (negb there)
          (log DEBUG ("creating " +:+ OsPath.join output_path sample) >>
           fs_call (Fs.mkdir (OsPath.join output_path sample))) >>
        log DEBUG ("moving " +:+ fastq_file) >>
        fs_call (Fs.rename fastq_file
                   (OsPath.join3 output_path sample
                      (OsPath.basename fastq_file)))
    | None =>
        log WARNING ("Warning: regex didn't match " +:+ fastq_file)
    end
  else ret tt.

(** Lines 125 to 147 of [main], on the list that [glob] returned. *)
Definition reorganize_files (a : args) (output_path : string)
    (fastqgz_files : list string) : M world unit :=
  log DEBUG ("all fastq.gz files" +:+ String newline
             (join (String newline EmptyString) fastqgz_files)
             +:+ String newline (String newline EmptyString)) >>
  for_each fastqgz_files (reorganize_file a output_path).

(** The output-reorganization step: lines 124 to 147 of [main]. *)
Definition reorganize (E : env) (a : args) (output_path : string)
  : M world unit :=
  let! fastqgz_files := glob_fastq_gz E output_path in
  reorganize_files a output_path fastqgz_files.

(** The local names of [main] once the arguments are settled. *)
Record locals : Type := {
  l_args : args;
  l_exp_id : string;
  l_sheet : string;          (* args.sample_sheet_name *)
  l_result_path : string;
  l_bcl_path : string;
  l_output_path : string
}.

(** The four operations that [main] wraps in the retry loop. *)
Inductive retry_op : Type :=
| DownloadSampleSheet
| SyncBcl
| SyncFastqs
| CpReports (reports_path : string).  (* the bytes of [reports_path] *)

(** The command lists of lines 78, 95, 152 and 176.  [reports_path] is
    what [check_output(...).rstrip()] gave, so it is [bytes]. *)
Definition op_command (l : locals) (op : retry_op) : list token :=
  match op with
  | DownloadSampleSheet =>
      words ["aws"; "s3"; "cp";
             OsPath.join (s3_sample_sheet_dir (l_args l)) (l_sheet l);
             l_result_path l]
  | SyncBcl =>
      words ["aws"; "s3"; "sync";
             OsPath.join (s3_input_dir (l_args l)) (l_exp_id l);
             l_bcl_path l]
  | SyncFastqs =>
      words ["aws"; "s3"; "sync"; l_output_path l;
             OsPath.join3 (s3_output_dir (l_args l)) (l_exp_id l) "rawdata";
             "--exclude"; quoted "*"; "--include"; quoted "*fastq.gz"]
  | CpReports reports_path =>
      [Str "aws"; Str "s3"; Str "cp"; Bytes reports_path;
       Str (OsPath.join (s3_report_dir (l_args l)) (l_exp_id l));
       Str "--recursive"]
  end.

(** The command line of [op] as text. *)
Definition op_line (l : locals) (op : retry_op) : string :=
  join " " (List.map token_text (op_command l op)).

Definition op_retry_msg (op : retry_op) : string :=
  match op with
  | DownloadSampleSheet => "retrying s3 copy"
  | SyncBcl => "retrying s3 sync bcl"
  | SyncFastqs => "retrying sync fastq"
  | CpReports _ => "retrying cp reports"
  end.

(** The message of the [RuntimeError] raised in the [else] of the loop. *)
Definition op_exhausted_msg (l : locals) (op : retry_op) : string :=
  match op with
  | DownloadSampleSheet =>
      "couldn't download sample sheet "
      +:+ OsPath.join (s3_sample_sheet_dir (l_args l)) (l_sheet l)
  | SyncBcl =>
      "couldn't sync "
      +:+ OsPath.join (s3_input_dir (l_args l)) (l_exp_id l)
  | SyncFastqs => "couldn't sync fastqs"
  | CpReports _ => "couldn't cp reports"
  end.

Definition retried (E : env) (l : locals) (op : retry_op) : M world unit :=
  for_retry S3_RETRY (log_command E (op_command l op))
    (op_retry_msg op) (RuntimeError (op_exhausted_msg l op)).

(** The shell loop of the resource sampler. *)
Definition sampler_command : string :=
  "while true;"
  +:+ " do echo " +:+ quoted "memory usage"
  +:+ " `cat /sys/fs/cgroup/memory/memory.usage_in_bytes`;"
  +:+ " echo " +:+ quoted "disk usage"
  +:+ " `df -h | grep " +:+ quoted "/mnt" +:+ "`;"
  +:+ " sleep 90;"
  +:+ " done".

(** [s.rstrip()] *)
Definition rstrip (s : string) : string :=
  rev_string (lstrip (rev_string s)).

(** Lines 55 to 106 of [main]: arguments, local directories and the two
    downloads. *)
Definition setup (E : env) : M world locals :=
  let! a0 := (fun w => (parse_args E, w)) in
  let root :=
    match batch_job_id E with
    | Some id => if String.eqb id EmptyString then root_dir a0
                 else OsPath.join (root_dir a0) id
    | None => root_dir a0
    end in
  let sheet :=
    match sample_sheet_name a0 with
    | Some n => n
    | None => match exp_id a0 with
              | Some e => e +:+ ".csv"
              | None => "None.csv"
              end
    end in
  match exp_id a0 with
  | None => raise (OtherError "TypeError")
  | Some e =>
      let result_path := OsPath.join (OsPath.join3 root "data" "hca") e in
      let l := {| l_args := a0; l_exp_id := e; l_sheet := sheet;
                  l_result_path := result_path;
                  l_bcl_path := OsPath.join result_path "bcl";
                  l_output_path := OsPath.join result_path "fastqs" |} in
      fs_call (Fs.makedirs result_path) >>
      fs_call (Fs.mkdir (l_bcl_path l)) >>
      retried E l DownloadSampleSheet >>
      retried E l SyncBcl >>
      ret l
  end.

(** Lines 116 to 186 of [main]: the demultiplexing binary, the
    reorganization and the uploads. *)
Definition demultiplex_and_upload (E : env) (l : locals) : M world unit :=
  log_command E
    (words [BCL2FASTQ; bcl2fastq_options (l_args l);
            "--sample-sheet"; OsPath.join (l_result_path l) (l_sheet l);
            "-R"; l_bcl_path l; "-o"; l_output_path l]) >>
  reorganize E (l_args l) (l_output_path l) >>
  retried E l SyncFastqs >>
  log_command E
    (words ["aws"; "s3"; "ls"; "--recursive";
            OsPath.join3 (s3_output_dir (l_args l)) (l_exp_id l)
              "rawdata"]) >>
  let! ls_out :=
    check_output E
      ("ls -d " +:+
       OsPath.join
         (OsPath.join3
            (OsPath.join3 (OsPath.join (l_output_path l) "Reports")
               "html" "*")
            "all" "all")
         "all") in
  retried E l (CpReports (rstrip ls_out)).

(** [main(logger)]: the sampler is started at line 114; [p.kill()] at
    line 188 is the last statement. *)
Definition main (E : env) : M world unit :=
  let! l := setup E in
  emit (EvPopen sampler_command) >>
  demultiplex_and_upload E l >>
  emit (EvKill sampler_command).

(** The name of the log file, when the job id is set and not empty. *)
Definition log_file (E : env) : option string :=
  match batch_job_id E with
  | Some id => if String.eqb id EmptyString then None else Some (id +:+ ".log")
  | None => None
  end.

(** [logging.FileHandler(path)] opens the file for appending. *)
Definition open_log (path : string) (fs : gmap string Fs.node)
  : outcome (gmap string Fs.node) :=
  match fs !! path with
  | Some Fs.Dir => Raise (IsADirectoryError path)
  | Some Fs.File => Ok fs
  | None => Ok (<[path := Fs.File]> fs)
  end.

Definition log_cmd (path : string) : string :=
  "aws s3 cp " +:+ path +:+ " " +:+ S3_LOG_DIR.

(** The [finally] block of the entry point. *)
Definition upload_log (E : env) : M world unit :=
  match log_file E with
  | Some path =>
      log INFO (log_cmd path) >>
      emit (EvCloseLog path) >>
      let! _ := check_output E (log_cmd path) in
      ret tt
  | None => ret tt
  end.

(** The [__main__] block. *)
Definition entry (E : env) : M world unit :=
  match log_file E with
  | Some path => fs_call (open_log path)
  | None => ret tt
  end >>
  try_finally
    (try_except_reraise (main E) (log INFO "An exception occurred"))
    (upload_log E).

Definition is_kill (e : event) : Prop :=
  match e with EvKill _ => True | _ => False end.

Definition is_popen (e : event) : Prop :=
  match e with EvPopen _ => True | _ => False end.

(** Neither the start nor the end of the sampler. *)
Definition quiet (e : event) : Prop := ~ is_kill e /\ ~ is_popen e.

(** The world after one more event. *)
Definition add_event (w : world) (e : event) : world :=
  {| w_fs := w_fs w; w_trace := w_trace w ++ [e] |}.

(** The events of one failed attempt at [cmd] and of the successful one. *)
Definition failed_attempt (cmd retry_msg : string) : list event :=
  [EvLog INFO cmd; EvExec cmd; EvLog INFO retry_msg].

Definition good_attempt (cmd output : string) : list event :=
  [EvLog INFO cmd; EvExec cmd; EvLogBytes DEBUG output].

(** What [--skip_undetermined] alone may do to a path: nothing, or remove a
    file whose name starts with the reserved prefix. *)
Definition kept_or_undetermined (fs fs' : gmap string Fs.node) : Prop :=
  forall p,
    fs' !! p = fs !! p \/
    (fs' !! p = None /\ fs !! p = Some Fs.File /\
     startswith "Undetermined" (OsPath.basename p) = true).

(** The local root of a run: [args.root_dir] as lines 59 to 61 leave it. *)
Definition local_root (E : env) (a : args) : string :=
  match batch_job_id E with
  | Some id => if String.eqb id EmptyString then root_dir a
               else OsPath.join (root_dir a) id
  | None => root_dir a
  end.

(** [c] runs at most [n] shell commands. *)
Definition within (n : nat) {A} (c : M world A) : Prop :=
  forall w,
    exec_count (w_trace (snd (c w))) <= exec_count (w_trace w) + n.

(** [c] raises nothing but exceptions in [P]. *)
Definition raises_only (P : exn -> Prop) {A} (c : M world A) : Prop :=
  forall w e, fst (c w) = Raise e -> P e.

(** Anything but the [TypeError] of a join. *)
Definition not_type_error (e : exn) : Prop :=
  match e with
  | TypeError _ => False
  | _ => True
  end.

(** The local names that [main] derives from the arguments [a] with
    experiment id [e]: lines 59 to 70. *)
Definition locals_of (E : env) (a : args) (e : string) : locals :=
  let result_path :=
    OsPath.join (OsPath.join3 (local_root E a) "data" "hca") e in
  {| l_args := a; l_exp_id := e;
     l_sheet := match sample_sheet_name a with
                | Some n => n
                | None => e +:+ ".csv"
                end;
     l_result_path := result_path;
     l_bcl_path := OsPath.join result_path "bcl";
     l_output_path := OsPath.join result_path "fastqs" |}.

(** The three commands of [main] that are not retried. *)
Definition bcl2fastq_command (l : locals) : string :=
  join " " [BCL2FASTQ; bcl2fastq_options (l_args l);
            "--sample-sheet"; OsPath.join (l_result_path l) (l_sheet l);
            "-R"; l_bcl_path l; "-o"; l_output_path l].

Definition check_upload_command (l : locals) : string :=
  join " " ["aws"; "s3"; "ls"; "--recursive";
            OsPath.join3 (s3_output_dir (l_args l)) (l_exp_id l) "rawdata"].

Definition find_reports_command (l : locals) : string :=
  "ls -d " +:+
  OsPath.join
    (OsPath.join3
       (OsPath.join3 (OsPath.join (l_output_path l) "Reports") "html" "*")
       "all" "all")
    "all".

(** Neither a shell command nor the start or end of the sampler. *)
Definition local_only (e : event) : Prop :=
  is_exec e = false /\ quiet e.

(** The paths that the command of [op] works on: its source and its
    destination. *)
Definition op_paths (l : locals) (op : retry_op) : list string :=
  match op_command l op with
  | _ :: _ :: _ :: src :: dst :: _ => [token_text src; token_text dst]
  | _ => []
  end.

(** The message names one of the paths of the operation. *)
Definition names_a_path (l : locals) (op : retry_op) : bool :=
  existsb (fun p => contains p (op_exhausted_msg l op)) (op_paths l op).

End Demux.

(** ** Fixtures of the runner *)

Module DemuxFixtures.
Import Demux.

Definition out_dir : string := "/mnt/data/hca/EXP/fastqs".

(** The output directory with the three files of the example. *)
Definition produced : gmap string Fs.node :=
  list_to_map
    [("/mnt", Fs.Dir); ("/mnt/data", Fs.Dir); ("/mnt/data/hca", Fs.Dir);
     ("/mnt/data/hca/EXP", Fs.Dir); ("/mnt/data/hca/EXP/bcl", Fs.Dir);
     ("/mnt/data/hca/EXP/fastqs", Fs.Dir);
     ("/mnt/data/hca/EXP/fastqs/SampleA_R1_001.fastq.gz", Fs.File);
     ("/mnt/data/hca/EXP/fastqs/SampleA_R2_001.fastq.gz", Fs.File);
     ("/mnt/data/hca/EXP/fastqs/Undetermined_R1_001.fastq.gz", Fs.File)].

Definition world0 : world := {| w_fs := produced; w_trace := [] |}.

(** [--exp_id EXP] with the two reorganization flags as given. *)
Definition run_args (star skip : bool) : args := {|
  exp_id := Some "EXP";
  s3_input_dir := "s3://czbiohub-seqbot/bcl";
  s3_output_dir := "s3://czbiohub-seqbot/fastqs";
  s3_report_dir := "s3://czbiohub-seqbot/reports";
  s3_sample_sheet_dir := "s3://czbiohub-seqbot/sample-sheets";
  star_structure := star;
  bcl2fastq_options := "--no-lane-splitting";
  skip_undetermined := skip;
  sample_sheet_name := None;
  root_dir := "/mnt"
|}.

(** An environment whose shell commands fail exactly at the invocations
    listed in [failing], and leave the file system alone. *)
Definition env_failing (a : args) (job : option string)
    (failing : list nat) : env := {|
  parse_args := Ok a;
  batch_job_id := job;
  shell := fun n _ fs =>
    {| sh_ok := negb (existsb (Nat.eqb n) failing);
       sh_output := "done"; sh_fs := fs |};
  scandir_order := fun l => l
|}.

Definition empty_world : world := {| w_fs := ∅; w_trace := [] |}.

(** The local names of a run of [--exp_id EXP] outside a batch job. *)
Definition locals0 : locals := {|
  l_args := run_args false false;
  l_exp_id := "EXP";
  l_sheet := "EXP.csv";
  l_result_path := "/mnt/data/hca/EXP";
  l_bcl_path := "/mnt/data/hca/EXP/bcl";
  l_output_path := "/mnt/data/hca/EXP/fastqs"
|}.

(** The claim about [--star_structure] as the specification words it. *)
Definition star_claim_as_stated (fs : gmap string Fs.node) : Prop :=
  fs !! "/mnt/data/hca/EXP/fastqs/SampleA" = Some Fs.Dir /\
  fs !! "/mnt/data/hca/EXP/fastqs/SampleA/SampleA_R1_001.fastq.gz"
    = Some Fs.File /\
  fs !! "/mnt/data/hca/EXP/fastqs/SampleA/SampleA_R2_001.fastq.gz"
    = Some Fs.File /\
  fs !! "/mnt/data/hca/EXP/fastqs/Undetermined_R1_001.fastq.gz"
    = Some Fs.File.

End DemuxFixtures.

(** ** The launcher, [aegea_launcher.py] *)

Module Launcher.
Import PyStr.

(** [resource_range(name, min_val, max_val)(s)].  Each message template
    has one placeholder, so the bound itself is not part of it. *)
Definition resource_range (name : string) (min_val max_val : Z)
    (s : string) : outcome Z :=
  match PyInt.int s with
  | None => Raise (ValueError ("invalid literal for int() with base 10: " +:+ s))
  | Some value =>
      if (value <? min_val)%Z
      then Raise (ArgumentTypeError (name +:+ " must be at least"))
      else if (value >? max_val)%Z
      then Raise (ArgumentTypeError (name +:+ " can be at most"))
      else Ok value
  end.

(** The three options declared with a range: lines 89 to 100. *)
Inductive resource : Type := Vcpus | Memory | Storage.

Definition res_name (r : resource) : string :=
  match r with Vcpus => "vcpus" | Memory => "memory" | Storage => "storage" end.

Definition res_min (r : resource) : Z :=
  match r with Vcpus => 1 | Memory => 0 | Storage => 500 end.

Definition res_max (r : resource) : Z :=
  match r with Vcpus => 64 | Memory => 256000 | Storage => 16000 end.

(** The [type] of the option of [r]. *)
Definition validator (r : resource) : string -> outcome Z :=
  resource_range (res_name r) (res_min r) (res_max r).

(** The command line, option by option; [None] is an option not given. *)
Record cli : Type := {
  cli_s3_script_path : string;
  cli_script_name : string;
  cli_script_args : string;
  cli_ecr_image : option string;
  cli_ami : option string;
  cli_queue : option string;
  cli_vcpus : option string;
  cli_memory : option string;
  cli_storage : option string;
  cli_ulimits : option (list string);
  cli_environment : option (list string);
  cli_dryrun : bool;
  cli_upload : bool;
  cli_debug : bool;
  cli_testargs : bool
}.

(** The namespace that [parser.parse_args()] returns. *)
Record args : Type := {
  s3_script_path : string;
  script_name : string;
  script_args : string;
  ecr_image : option string;
  ami : option string;
  queue : string;
  vcpus : Z;
  memory : Z;
  storage : option Z;
  ulimits : option (list string);
  environment : option (list string);
  dryrun : bool;
  upload : bool;
  debug : bool;
  testargs : bool
}.

(** How [argparse] applies the [type] of an option: an
    [ArgumentTypeError] or [ValueError] of the converter becomes the
    parser's error, which exits with status 2. *)
Definition typed (flag : string) (conv : string -> outcome Z) (s : string)
  : outcome Z :=
  match conv s with
  | Ok v => Ok v
  | Raise (ArgumentTypeError msg) =>
      Raise (SystemExit ("argument " +:+ flag +:+ ": " +:+ msg))
  | Raise (ValueError _) =>
      Raise (SystemExit ("argument " +:+ flag
                         +:+ ": invalid range_validator value: '"
                         +:+ s +:+ "'"))
  | Raise e => Raise e
  end.

Definition typed_opt (flag : string) (conv : string -> outcome Z)
    (o : option string) : outcome (option Z) :=
  match o with
  | None => Ok None
  | Some s => match typed flag conv s with
              | Ok v => Ok (Some v)
              | Raise e => Raise e
              end
  end.

(** [nargs='+'] *)
Definition one_or_more (flag : string) (o : option (list string))
  : outcome (option (list string)) :=
  match o with
  | Some [] => Raise (SystemExit ("argument " +:+ flag
                                  +:+ ": expected at least one argument"))
  | _ => Ok o
  end.

(** [parser.parse_args()]: the mutually exclusive group, the converters
    and the defaults of lines 82 to 117. *)
Definition parse_args (c : cli) : outcome args :=
  match cli_ecr_image c, cli_ami c with
  | Some _, Some _ =>
      Raise (SystemExit "argument --ami: not allowed with argument --ecr-image")
  | _, _ =>
      match typed_opt "--vcpus" (resource_range "vcpus" 1 64) (cli_vcpus c),
            typed_opt "--memory" (resource_range "memory" 0 256000)
              (cli_memory c),
            typed_opt "--storage" (resource_range "storage" 500 16000)
              (cli_storage c),
            one_or_more "--ulimits" (cli_ulimits c),
            one_or_more "--environment" (cli_environment c) with
      | Ok v, Ok m, Ok s, Ok u, Ok e =>
          Ok {| s3_script_path := cli_s3_script_path c;
                script_name := cli_script_name c;
                script_args := cli_script_args c;
                ecr_image := cli_ecr_image c;
                ami := cli_ami c;
                queue := default "aegea_batch" (cli_queue c);
                vcpus := default 1%Z v;
                memory := default 4000%Z m;
                storage := s;
                ulimits := u;
                environment := e;
                dryrun := cli_dryrun c;
                upload := cli_upload c;
                debug := cli_debug c;
                testargs := cli_testargs c |}
      | Raise e, _, _, _, _ => Raise e
      | _, Raise e, _, _, _ => Raise e
      | _, _, Raise e, _, _ => Raise e
      | _, _, _, Raise e, _ => Raise e
      | _, _, _, _, Raise e => Raise e
      end
  end.

(** Truth value of an optional string: [None] and the empty string are
    false. *)
Definition truthy (o : option string) : bool :=
  match o with
  | Some s => negb (String.eqb s EmptyString)
  | None => false
  end.

Definition set_ecr_image (a : args) (i : option string) : args :=
  {| s3_script_path := s3_script_path a; script_name := script_name a;
     script_args := script_args a; ecr_image := i; ami := ami a;
     queue := queue a; vcpus := vcpus a; memory := memory a;
     storage := storage a; ulimits := ulimits a;
     environment := environment a; dryrun := dryrun a;
     upload := upload a; debug := debug a; testargs := testargs a |}.

(** Lines 123 and 124: [if not args.ecr_image or args.ami:], which Python
    reads as [(not args.ecr_image) or args.ami]. *)
Definition default_image (a : args) : args :=
  if (negb (truthy (ecr_image a)) || truthy (ami a))%bool
  then set_ecr_image a (Some "sra_download")
  else a.

(** What the launcher does to the outside, in order. *)
Inductive event : Type :=
| EvLog (lvl : level) (dry : bool) (msg : string)
| EvS3Client
| EvPathExists (path : string)
| EvUpload (filename bucket key : string)
| EvHeadObject (bucket key : string)
| EvExecModule (module_name path : string)
| EvGetParser
| EvParseScriptArgs (argv : list string)
| EvSubmit (cmd : string).

(** The module object of the target script: its [get_parser], when it
    has one, returns a parser or raises; the parser accepts an argument
    list or raises. *)
Record script_module : Type := {
  get_parser : option (outcome (list string -> option exn))
}.

Record env : Type := {
  path_exists : string -> bool;
  s3_client : option exn;
  upload_file : string -> string -> string -> option exn;
  head_object : string -> string -> option exn;
  exec_module : string -> string -> outcome script_module;
  check_output : string -> outcome string;
  job_id_of : string -> outcome string
}.

Definition emit (e : event) : M (list event) unit :=
  fun t => (Ok tt, t ++ [e]).

Definition lift {A} (r : outcome A) : M (list event) A := fun t => (r, t).

Definition lift_opt (o : option exn) : M (list event) unit :=
  match o with
  | None => ret tt
  | Some e => raise e
  end.

Definition level_rank (l : level) : nat :=
  match l with DEBUG => 10 | INFO => 20 | WARNING => 30 | ERROR => 40 end.

(** [get_logger(debug, dryrun)] *)
Record logger : Type := { lg_level : level; lg_dryrun : bool }.

Definition get_logger (debug dryrun : bool) : logger :=
  {| lg_level := if debug then DEBUG else INFO; lg_dryrun := dryrun |}.

Definition log (lg : logger) (lvl : level) (msg : string)
  : M (list event) unit :=
  if (level_rank (lg_level lg) <=? level_rank lvl)%nat
  then emit (EvLog lvl (lg_dryrun lg) msg)
  else ret tt.

Definition script_base (a : args) : string :=
  OsPath.basename (script_name a).
Definition s3_bucket (a : args) : string :=
  fst (OsPath.split (s3_script_path a)).
Definition s3_key (a : args) : string :=
  OsPath.join (snd (OsPath.split (s3_script_path a))) (script_base a).

(** Lines 137 to 161. *)
Definition upload_or_check (E : env) (lg : logger) (a : args)
  : M (list event) unit :=
  if upload a then
    emit (EvPathExists (script_name a)) >>
    (if path_exists E (script_name a) then ret tt
     else raise (ValueError ("Can't find script: " +:+ script_name a))) >>
    log lg INFO ("Uploading " +:+ script_name a +:+ " to s3://"
                 +:+ OsPath.join (s3_bucket a) (s3_key a)) >>
    log lg DEBUG ("Filename: " +:+ script_name a +:+ ", Bucket: "
                  +:+ s3_bucket a +:+ ", Key: " +:+ s3_key a) >>
    when (negb (dryrun a))
      (emit (EvUpload (script_name a) (s3_bucket a) (s3_key a)) >>
       lift_opt (upload_file E (script_name a) (s3_bucket a) (s3_key a)))
  else
    emit (EvHeadObject (s3_bucket a) (s3_key a)) >>
    match head_object E (s3_bucket a) (s3_key a) with
    | None => ret tt
    | Some (ClientError _) =>
        raise (ValueError (script_name a
                           +:+ " is not on s3, you should upload it."))
    | Some e => raise e
    end.

(** Lines 163 to 194. *)
Definition test_args (E : env) (lg : logger) (a : args)
  : M (list event) unit :=
  emit (EvPathExists (script_name a)) >>
  (if path_exists E (script_name a) then ret tt
   else raise (ValueError ("Can't find script: " +:+ script_name a))) >>
  log lg DEBUG "Testing script args" >>
  let module_name := OsPath.splitext_root (script_base a) in
  log lg DEBUG "Importing script as a module" >>
  emit (EvExecModule module_name (script_name a)) >>
  let! script_module := lift (exec_module E module_name (script_name a)) in
  let! script_parser :=
    match get_parser script_module with
    | Some p => emit EvGetParser >> lift p
    | None =>
        raise (ValueError (script_name a
                 +:+ " has no 'get_parser' method, can't test args"))
    end in
  emit (EvParseScriptArgs (split (script_args a))) >>
  match script_parser (split (script_args a)) with
  | None => ret tt
  | Some e =>
      log lg ERROR (script_name a +:+ " failed with the given arg string"
                    +:+ String newline (String "009"%char (script_args a))) >>
      raise e
  end >>
  log lg DEBUG "Script parsed args successfully".

Definition job_command (a : args) : string :=
  "aws s3 cp s3://" +:+ OsPath.join (s3_bucket a) (s3_key a)
  +:+ " .; chmod 755 " +:+ script_base a
  +:+ "; ./" +:+ script_base a +:+ " " +:+ script_args a.

Definition nonempty {A} (o : option (list A)) : option (list A) :=
  match o with
  | Some (x :: l) => Some (x :: l)
  | _ => None
  end.

(** Lines 201 to 220. *)
Definition aegea_command (a : args) : list string :=
  ["aegea"; "batch"; "submit";
   "--queue"; queue a;
   "--vcpus"; str_of_Z (vcpus a);
   "--memory"; str_of_Z (memory a)]
  ++ (if truthy (ecr_image a) then ["--ecr-image"; default EmptyString (ecr_image a)]
      else if truthy (ami a) then ["--ami"; default EmptyString (ami a)]
      else [])
  ++ match storage a with
     | Some n => if (n =? 0)%Z then []
                 else ["--storage"; "/mnt=" +:+ str_of_Z n]
     | None => []
     end
  ++ match nonempty (ulimits a) with
     | Some l => ["--ulimits"; join " " l]
     | None => []
     end
  ++ match nonempty (environment a) with
     | Some l => ["--environment"; join " " l]
     | None => []
     end
  ++ ["--command"; quoted (job_command a)].

(** The message of line 222. *)
Definition executing_msg (a : args) : string :=
  "executing command:" +:+ String newline (String "009"%char
                                             (join " " (aegea_command a))).

(** Lines 222 to 226. *)
Definition submit (E : env) (lg : logger) (a : args)
  : M (list event) unit :=
  log lg INFO (executing_msg a) >>
  when (negb (dryrun a))
    (emit (EvSubmit (join " " (aegea_command a))) >>
     let! output := lift (check_output E (join " " (aegea_command a))) in
     let! job_id := lift (job_id_of E output) in
     log lg INFO ("Launched job with jobId: " +:+ job_id)).

(** Lines 126 to 226, on the arguments as line 124 leaves them. *)
Definition launch_with (E : env) (a : args) : M (list event) unit :=
  let lg := get_logger (debug a) (dryrun a) in
  log lg DEBUG "Starting S3 client" >>
  emit EvS3Client >>
  lift_opt (s3_client E) >>
  upload_or_check E lg a >>
  when (testargs a) (test_args E lg a) >>
  submit E lg a.

(** The run from the parsed arguments on: lines 123 to 226. *)
Definition launch (E : env) (parsed : args) : M (list event) unit :=
  launch_with E (default_image parsed).

Definition is_submit (e : event) : Prop :=
  match e with EvSubmit _ => True | _ => False end.

Definition is_upload (e : event) : Prop :=
  match e with EvUpload _ _ _ => True | _ => False end.

(** Every submission in the trace is of the command [cmd]. *)
Definition submits_only (cmd : string) (e : event) : Prop :=
  match e with EvSubmit c => c = cmd | _ => True end.

Definition set_dryrun (a : args) (b : bool) : args :=
  {| s3_script_path := s3_script_path a; script_name := script_name a;
     script_args := script_args a; ecr_image := ecr_image a; ami := ami a;
     queue := queue a; vcpus := vcpus a; memory := memory a;
     storage := storage a; ulimits := ulimits a;
     environment := environment a; dryrun := b;
     upload := upload a; debug := debug a; testargs := testargs a |}.

Definition res_flag (r : resource) : string :=
  match r with
  | Vcpus => "--vcpus" | Memory => "--memory" | Storage => "--storage"
  end.

(** The value of a ranged option on the command line and in the parsed
    arguments. *)
Definition cli_resource (c : cli) (r : resource) : option string :=
  match r with
  | Vcpus => cli_vcpus c
  | Memory => cli_memory c
  | Storage => cli_storage c
  end.

Definition arg_resource (a : args) (r : resource) : option Z :=
  match r with
  | Vcpus => Some (vcpus a)
  | Memory => Some (memory a)
  | Storage => storage a
  end.

(** The reading of the self-test claim that the code does not meet: the
    run fails with a [ValueError] and has neither uploaded nor submitted. *)
Definition fails_before_upload_and_submit
    (r : outcome unit * list event) : Prop :=
  (exists msg, fst r = Raise (ValueError msg)) /\
  Forall (fun e => ~ is_upload e /\ ~ is_submit e) (snd r).

(** The image passed to the submission: the [--ecr-image] of the command
    line when it is not empty and no (non-empty) [--ami] comes with it, the
    default image otherwise. *)
Definition selected_image (a : args) : string :=
  if (truthy (ecr_image a) && negb (truthy (ami a)))%bool
  then default EmptyString (ecr_image a)
  else "sra_download".

(** The fixed start of the submission and what follows the image selector:
    the optional flags and the payload. *)
Definition command_head (a : args) : list string :=
  ["aegea"; "batch"; "submit"; "--queue"; queue a;
   "--vcpus"; str_of_Z (vcpus a); "--memory"; str_of_Z (memory a)].

Definition storage_flags (a : args) : list string :=
  match storage a with
  | Some n => if (n =? 0)%Z then [] else ["--storage"; "/mnt=" +:+ str_of_Z n]
  | None => []
  end.

Definition command_tail (a : args) : list string :=
  storage_flags a
  ++ match nonempty (ulimits a) with
     | Some l => ["--ulimits"; join " " l]
     | None => []
     end
  ++ match nonempty (environment a) with
     | Some l => ["--environment"; join " " l]
     | None => []
     end
  ++ ["--command"; quoted (job_command a)].

(** Every record carries the dry-run mark of the run, and debug records
    appear with [--debug] only. *)
Definition log_marked (a : args) (e : event) : Prop :=
  match e with
  | EvLog lvl dry _ => dry = dryrun a /\ (lvl = DEBUG -> debug a = true)
  | _ => True
  end.

(** Lines 126 to 194: all that comes before the submission. *)
Definition before_submit (E : env) (a : args) : M (list event) unit :=
  let lg := get_logger (debug a) (dryrun a) in
  log lg DEBUG "Starting S3 client" >>
  emit EvS3Client >>
  lift_opt (s3_client E) >>
  upload_or_check E lg a >>
  when (testargs a) (test_args E lg a).

(** The [__main__] block. *)
Definition launcher_main (E : env) (c : cli) : M (list event) unit :=
  let! parsed := lift (parse_args c) in
  launch E parsed.

End Launcher.

(** ** Fixtures of the launcher *)

Module LauncherFixtures.
Import Launcher.

(** A command line with the three positional arguments only. *)
Definition bare_cli : cli := {|
  cli_s3_script_path := "my_bucket/my_scripts";
  cli_script_name := "demux/bcl2fastq.py";
  cli_script_args := "--exp_id EXP";
  cli_ecr_image := None; cli_ami := None; cli_queue := None;
  cli_vcpus := None; cli_memory := None; cli_storage := None;
  cli_ulimits := None; cli_environment := None;
  cli_dryrun := false; cli_upload := false; cli_debug := false;
  cli_testargs := false |}.

(** [--ami ami-0123456789] and nothing else. *)
Definition ami_only_cli : cli := {|
  cli_s3_script_path := "my_bucket/my_scripts";
  cli_script_name := "demux/bcl2fastq.py";
  cli_script_args := "--exp_id EXP";
  cli_ecr_image := None; cli_ami := Some "ami-0123456789"; cli_queue := None;
  cli_vcpus := None; cli_memory := None; cli_storage := None;
  cli_ulimits := None; cli_environment := None;
  cli_dryrun := false; cli_upload := false; cli_debug := false;
  cli_testargs := false |}.

(** [--upload --testargs], no [--dryrun]. *)
Definition upload_testargs_cli : cli := {|
  cli_s3_script_path := "my_bucket/my_scripts";
  cli_script_name := "demux/bcl2fastq.py";
  cli_script_args := "--exp_id EXP";
  cli_ecr_image := None; cli_ami := None; cli_queue := None;
  cli_vcpus := None; cli_memory := None; cli_storage := None;
  cli_ulimits := None; cli_environment := None;
  cli_dryrun := false; cli_upload := true; cli_debug := false;
  cli_testargs := true |}.

(** [--upload --dryrun]. *)
Definition upload_dryrun_cli : cli := {|
  cli_s3_script_path := "my_bucket/my_scripts";
  cli_script_name := "demux/bcl2fastq.py";
  cli_script_args := "--exp_id EXP";
  cli_ecr_image := None; cli_ami := None; cli_queue := None;
  cli_vcpus := None; cli_memory := None; cli_storage := None;
  cli_ulimits := None; cli_environment := None;
  cli_dryrun := true; cli_upload := true; cli_debug := true;
  cli_testargs := false |}.

(** [--upload --vcpus 65]. *)
Definition too_many_vcpus_cli : cli := {|
  cli_s3_script_path := "my_bucket/my_scripts";
  cli_script_name := "demux/bcl2fastq.py";
  cli_script_args := "--exp_id EXP";
  cli_ecr_image := None; cli_ami := None; cli_queue := None;
  cli_vcpus := Some "65"; cli_memory := None; cli_storage := None;
  cli_ulimits := None; cli_environment := None;
  cli_dryrun := false; cli_upload := true; cli_debug := false;
  cli_testargs := false |}.

(** [--testargs] alone. *)
Definition testargs_cli : cli := {|
  cli_s3_script_path := "my_bucket/my_scripts";
  cli_script_name := "demux/bcl2fastq.py";
  cli_script_args := "--exp_id EXP --bogus";
  cli_ecr_image := None; cli_ami := None; cli_queue := None;
  cli_vcpus := None; cli_memory := None; cli_storage := None;
  cli_ulimits := None; cli_environment := None;
  cli_dryrun := false; cli_upload := false; cli_debug := false;
  cli_testargs := true |}.

(** [--storage 1200 --vcpus 64 --memory 256000], the requirements that
    [bcl2fastq.py] declares for itself. *)
Definition storage_cli : cli := {|
  cli_s3_script_path := "my_bucket/my_scripts";
  cli_script_name := "demux/bcl2fastq.py";
  cli_script_args := "--exp_id EXP";
  cli_ecr_image := None; cli_ami := None; cli_queue := None;
  cli_vcpus := Some "64"; cli_memory := Some "256000";
  cli_storage := Some "1200";
  cli_ulimits := Some ["nofile:1000000"]; cli_environment := None;
  cli_dryrun := false; cli_upload := false; cli_debug := false;
  cli_testargs := false |}.

(** The parsed arguments of a command line that parses, the defaults
    otherwise. *)
Definition parsed (c : cli) : args :=
  match parse_args c with
  | Ok a => a
  | Raise _ =>
      {| s3_script_path := cli_s3_script_path c;
         script_name := cli_script_name c;
         script_args := cli_script_args c;
         ecr_image := None; ami := None; queue := "aegea_batch";
         vcpus := 1; memory := 4000; storage := None; ulimits := None;
         environment := None; dryrun := cli_dryrun c;
         upload := cli_upload c; debug := cli_debug c;
         testargs := cli_testargs c |}
  end.

(** An environment where every outside call succeeds and the target script
    is present; [has_parser] tells whether it defines [get_parser]. *)
Definition friendly_env (has_parser : bool) : env := {|
  path_exists := fun _ => true;
  s3_client := None;
  upload_file := fun _ _ _ => None;
  head_object := fun _ _ => None;
  exec_module := fun _ _ =>
    Ok {| get_parser :=
            if has_parser then Some (Ok (fun _ => None)) else None |};
  check_output := fun _ => Ok "{ jobId: 1234 }";
  job_id_of := fun _ => Ok "1234"
|}.


(** Every outside call succeeds, and the parser of the target script
    rejects whatever it is given. *)
Definition rejecting_env : env := {|
  path_exists := fun _ => true;
  s3_client := None;
  upload_file := fun _ _ _ => None;
  head_object := fun _ _ => None;
  exec_module := fun _ _ =>
    Ok {| get_parser := Some (Ok (fun _ => Some (SystemExit "2"))) |};
  check_output := fun _ => Ok "{ jobId: 1234 }";
  job_id_of := fun _ => Ok "1234"
|}.

End LauncherFixtures.

(** * Properties *)

(** ** What a computation adds to the trace *)

Section Traces.
Context {W Ev : Type} (tr : W -> list Ev).

Lemma extends_ret P {A} (a : A) : extends tr P (ret a).
Proof. intros w. exists []. simpl. by rewrite app_nil_r. Qed.

Lemma extends_raise P {A} (e : exn) : extends tr P (@raise W A e).
Proof. intros w. exists []. simpl. by rewrite app_nil_r. Qed.

Lemma extends_bind P {A B} (c : M W A) (k : A -> M W B) :
  extends tr P c -> (forall a, extends tr P (k a)) -> extends tr P (bind c k).
Proof.
  intros Hc Hk w. unfold bind.
  destruct (Hc w) as (t & Ht & HP).
  destruct (c w) as [[a|e] w1]; simpl in *.
  - destruct (Hk a w1) as (t2 & Ht2 & HP2).
    exists (t ++ t2). rewrite Ht2, Ht, app_assoc. split; [done|].
    by apply Forall_app.
  - by exists t.
Qed.

Lemma extends_when P (b : bool) (c : M W unit) :
  extends tr P c -> extends tr P (when b c).
Proof. destruct b; [done|]. intros _. apply extends_ret. Qed.

Lemma extends_for_each P {A} (l : list A) (body : A -> M W unit) :
  (forall x, extends tr P (body x)) -> extends tr P (for_each l body).
Proof.
  intros Hb. induction l as [|x l IH]; simpl.
  - apply extends_ret.
  - apply extends_bind; [apply Hb | intros _; apply IH].
Qed.

Lemma extends_try_finally P {A} (c : M W A) (f : M W unit) :
  extends tr P c -> extends tr P f -> extends tr P (try_finally c f).
Proof.
  intros Hc Hf w. unfold try_finally.
  destruct (Hc w) as (t & Ht & HP).
  destruct (c w) as [r w1]; simpl in *.
  destruct (Hf w1) as (t2 & Ht2 & HP2).
  exists (t ++ t2). split; [|by apply Forall_app].
  destruct (f w1) as [[u|e] w2]; simpl in *; by rewrite Ht2, Ht, app_assoc.
Qed.

Lemma extends_try_except_reraise P {A} (c : M W A) (h : M W unit) :
  extends tr P c -> extends tr P h -> extends tr P (try_except_reraise c h).
Proof.
  intros Hc Hh w. unfold try_except_reraise.
  destruct (Hc w) as (t & Ht & HP).
  destruct (c w) as [[a|e] w1]; simpl in *; [by exists t|].
  destruct (Hh w1) as (t2 & Ht2 & HP2).
  exists (t ++ t2). split; [|by apply Forall_app].
  destruct (h w1) as [[u|e'] w2]; simpl in *; by rewrite Ht2, Ht, app_assoc.
Qed.

Lemma extends_weaken (P Q : Ev -> Prop) {A} (c : M W A) :
  (forall e, P e -> Q e) -> extends tr P c -> extends tr Q c.
Proof.
  intros HPQ Hc w. destruct (Hc w) as (t & Ht & HP).
  exists t. split; [done|]. eapply Forall_impl; eauto.
Qed.

End Traces.

Lemma bind_Ok {W A B} (c : M W A) (k : A -> M W B) w a w' :
  c w = (Ok a, w') -> bind c k w = k a w'.
Proof. intros H. unfold bind. by rewrite H. Qed.

Lemma bind_Raise {W A B} (c : M W A) (k : A -> M W B) w e w' :
  c w = (Raise e, w') -> bind c k w = (Raise e, w').
Proof. intros H. unfold bind. by rewrite H. Qed.

(** ** The launcher *)

Module LauncherProofs.
Import PyStr Launcher LauncherFixtures.

Abbreviation adds P c := (extends (fun t : list event => t) P c).

Lemma adds_emit (P : event -> Prop) e : P e -> adds P (emit e).
Proof. intros H t. exists [e]. split; [done|]. by apply Forall_singleton. Qed.

Lemma adds_lift (P : event -> Prop) {A} (r : outcome A) : adds P (lift r).
Proof. intros t. exists []. simpl. by rewrite app_nil_r. Qed.

Lemma adds_lift_opt (P : event -> Prop) o : adds P (lift_opt o).
Proof. destruct o; [apply extends_raise | apply extends_ret]. Qed.

Lemma adds_log (P : event -> Prop) lg lvl msg :
  P (EvLog lvl (lg_dryrun lg) msg) -> adds P (log lg lvl msg).
Proof.
  intros H. unfold log. case_match; [by apply adds_emit | apply extends_ret].
Qed.

(** One step of a proof that a computation adds only [P] events. *)
Ltac adds_step :=
  match goal with
  | |- extends _ _ (bind _ _) => apply extends_bind; [|intros ?]
  | |- extends _ _ (ret _) => apply extends_ret
  | |- extends _ _ (raise _) => apply extends_raise
  | |- extends _ _ (when _ _) => apply extends_when
  | |- extends _ _ (lift _) => apply adds_lift
  | |- extends _ _ (lift_opt _) => apply adds_lift_opt
  | |- extends _ _ (log _ _ _) => apply adds_log; simpl; tauto
  | |- extends _ _ (emit _) => apply adds_emit; simpl; tauto
  | |- extends _ _ (if ?b then _ else _) => destruct b
  | |- extends _ _ (match ?x with _ => _ end) => destruct x
  end.

Lemma upload_or_check_no_submit E lg a :
  adds (fun e => ~ is_submit e) (upload_or_check E lg a).
Proof. unfold upload_or_check. repeat adds_step. Qed.

Lemma test_args_quiet E lg a :
  adds (fun e => ~ is_submit e /\ ~ is_upload e) (test_args E lg a).
Proof. unfold test_args. repeat adds_step. Qed.

Lemma submit_dryrun E lg a :
  dryrun a = true ->
  adds (fun e => ~ is_submit e /\ ~ is_upload e) (submit E lg a).
Proof.
intros H. unfold submit. rewrite H. cbn [negb when]. repeat adds_step.
Qed.

Lemma upload_or_check_dryrun E lg a :
  dryrun a = true ->
  adds (fun e => ~ is_submit e /\ ~ is_upload e) (upload_or_check E lg a).
Proof.
intros H. unfold upload_or_check. rewrite H. cbn [negb when].
repeat adds_step.
Qed.

(** *** Resource ranges *)

Lemma resource_range_spec name lo hi s v :
  PyInt.int s = Some v ->
  resource_range name lo hi s =
    if (v <? lo)%Z then Raise (ArgumentTypeError (name +:+ " must be at least"))
    else if (v >? hi)%Z
         then Raise (ArgumentTypeError (name +:+ " can be at most"))
         else Ok v.
Proof. intros H. unfold resource_range. by rewrite H. Qed.

Lemma typed_opt_validator flag r s v :
  PyInt.int s = Some v ->
  typed_opt flag (validator r) (Some s) =
    if (v <? res_min r)%Z
    then Raise (SystemExit ("argument " +:+ flag +:+ ": "
                            +:+ (res_name r +:+ " must be at least")))
    else if (v >? res_max r)%Z
         then Raise (SystemExit ("argument " +:+ flag +:+ ": "
                                 +:+ (res_name r +:+ " can be at most")))
         else Ok (Some v).
Proof.
  intros H. unfold typed_opt, typed, validator.
  rewrite (resource_range_spec _ _ _ _ _ H).
  destruct (v <? res_min r)%Z; [done|]. destruct (v >? res_max r)%Z; done.
Qed.

Lemma typed_raises flag name lo hi s e :
  typed flag (resource_range name lo hi) s = Raise e ->
  exists msg, e = SystemExit msg.
Proof.
  unfold typed, resource_range.
  destruct (PyInt.int s) as [v|]; [|intros [= <-]; by eexists].
  destruct (v <? lo)%Z; [intros [= <-]; by eexists|].
  destruct (v >? hi)%Z; [intros [= <-]; by eexists|done].
Qed.

Lemma typed_opt_raises flag name lo hi o e :
  typed_opt flag (resource_range name lo hi) o = Raise e ->
  exists msg, e = SystemExit msg.
Proof.
  destruct o as [s|]; [|done]. unfold typed_opt.
  destruct (typed flag (resource_range name lo hi) s) eqn:H; [done|].
  intros [= <-]. by eapply typed_raises.
Qed.

Lemma one_or_more_raises flag o e :
  one_or_more flag o = Raise e -> exists msg, e = SystemExit msg.
Proof. destruct o as [[|]|]; try done. intros [= <-]. by eexists. Qed.

(** [parse_args] fails with the parser's exit only. *)
Lemma parse_args_raises c e :
  parse_args c = Raise e -> exists msg, e = SystemExit msg.
Proof.
  unfold parse_args.
  destruct (typed_opt "--vcpus" (resource_range "vcpus" 1 64) (cli_vcpus c))
    as [v|] eqn:Hv;
    destruct (typed_opt "--memory" (resource_range "memory" 0 256000)
                (cli_memory c)) as [m|] eqn:Hm;
    destruct (typed_opt "--storage" (resource_range "storage" 500 16000)
                (cli_storage c)) as [st|] eqn:Hs;
    destruct (one_or_more "--ulimits" (cli_ulimits c)) eqn:Hu;
    destruct (one_or_more "--environment" (cli_environment c)) eqn:He;
    destruct (cli_ecr_image c), (cli_ami c); intros [= <-];
    eauto using typed_opt_raises, one_or_more_raises.
Qed.

(** What [parse_args] does with the three ranged options. *)
Lemma parse_args_resource_ok c a r s :
  parse_args c = Ok a -> cli_resource c r = Some s ->
  typed_opt (res_flag r) (validator r) (Some s) = Ok (arg_resource a r).
Proof.
  unfold parse_args. intros H Hr.
  destruct (typed_opt "--vcpus" (resource_range "vcpus" 1 64) (cli_vcpus c))
    as [v|] eqn:Hv;
    destruct (typed_opt "--memory" (resource_range "memory" 0 256000)
                (cli_memory c)) as [m|] eqn:Hm;
    destruct (typed_opt "--storage" (resource_range "storage" 500 16000)
                (cli_storage c)) as [st|] eqn:Hs;
    destruct (one_or_more "--ulimits" (cli_ulimits c)) eqn:Hu;
    destruct (one_or_more "--environment" (cli_environment c)) eqn:He;
    destruct (cli_ecr_image c), (cli_ami c); try discriminate H.
  all: injection H as <-; destruct r; simpl in Hr; rewrite Hr in *;
    unfold validator;
    cbn [arg_resource res_flag res_name res_min res_max vcpus memory storage];
    try assumption.
  all: unfold typed_opt in *;
    repeat match goal with
      | H : match typed ?f ?c ?x with _ => _ end = Ok _ |- _ =>
          destruct (typed f c x); [injection H as <-|discriminate H]
      end; reflexivity.
Qed.

Lemma parse_args_resource_bad c r s e :
  cli_resource c r = Some s ->
  typed_opt (res_flag r) (validator r) (Some s) = Raise e ->
  exists msg, parse_args c = Raise (SystemExit msg).
Proof.
  intros Hr Ht.
  destruct (parse_args c) as [a|e'] eqn:Hp.
  - rewrite (parse_args_resource_ok _ _ _ _ Hp Hr) in Ht. done.
  - destruct (parse_args_raises _ _ Hp) as [msg ->]. by eexists.
Qed.

(** C9: a ranged option ([--vcpus] in [1,64], [--memory] in [0,256000],
    [--storage] in [500,16000]) whose text reads as the integer [v] is
    accepted and returned unchanged when [v] is within the bounds; below or
    above them the validator raises an [ArgumentTypeError] that names the
    option and the side of the violated bound, and [parse_args] exits with
    the parser's error. *)
Theorem resource_range_validates (r : resource) (s : string) (v : Z) :
  PyInt.int s = Some v ->
  ((res_min r <= v <= res_max r)%Z ->
     validator r s = Ok v /\
     forall c a, cli_resource c r = Some s -> parse_args c = Ok a ->
                 arg_resource a r = Some v) /\
  ((v < res_min r)%Z ->
     validator r s
     = Raise (ArgumentTypeError (res_name r +:+ " must be at least"))) /\
  ((res_max r < v)%Z ->
     validator r s
     = Raise (ArgumentTypeError (res_name r +:+ " can be at most"))) /\
  (~ (res_min r <= v <= res_max r)%Z ->
     forall c, cli_resource c r = Some s ->
               exists msg, parse_args c = Raise (SystemExit msg)).
Proof.
  intros Hs.
  pose proof (typed_opt_validator (res_flag r) r s v Hs) as Ht.
  unfold validator. rewrite (resource_range_spec _ _ _ _ _ Hs).
  repeat split.
  - destruct (Z.ltb_spec v (res_min r)); [lia|].
    destruct (Z.gtb_spec v (res_max r)); [lia|done].
  - intros c a Hc Hp.
    pose proof (parse_args_resource_ok _ _ _ _ Hp Hc) as Hok.
    rewrite Ht in Hok.
    destruct (Z.ltb_spec v (res_min r)); [lia|].
    destruct (Z.gtb_spec v (res_max r)); [lia|]. by injection Hok.
  - intros Hlt. by destruct (Z.ltb_spec v (res_min r)); [|lia].
  - intros Hgt. destruct (Z.ltb_spec v (res_min r)).
    + pose proof (Z.le_refl 0). destruct r; simpl in *; lia.
    + by destruct (Z.gtb_spec v (res_max r)); [|lia].
  - intros Hout c Hc.
    destruct (Z.ltb_spec v (res_min r)).
    { eapply parse_args_resource_bad; eauto. }
    destruct (Z.gtb_spec v (res_max r)); [|lia].
    eapply parse_args_resource_bad; eauto.
Qed.

Lemma resource_range_validates_witness :
  PyInt.int "16" = Some 16%Z /\ validator Vcpus "16" = Ok 16%Z.
Proof.
  split; [reflexivity|].
  apply (resource_range_validates Vcpus "16" 16 eq_refl). simpl. lia.
Defined.

Example vcpus_zero_rejected :
  validator Vcpus "0" = Raise (ArgumentTypeError "vcpus must be at least").
Proof. reflexivity. Qed.

Example storage_too_large_rejected :
  parse_args
    {| cli_s3_script_path := "b/p"; cli_script_name := "x.py";
       cli_script_args := EmptyString; cli_ecr_image := None; cli_ami := None;
       cli_queue := None; cli_vcpus := None; cli_memory := None;
       cli_storage := Some "16001"; cli_ulimits := None;
       cli_environment := None; cli_dryrun := false; cli_upload := false;
       cli_debug := false; cli_testargs := false |}
  = Raise (SystemExit "argument --storage: storage can be at most").
Proof. reflexivity. Qed.

(** *** The image selector *)

(** After line 124 the ECR image is always set, so the [elif args.ami]
    branch of line 208 is never taken. *)
Lemma default_image_truthy a : truthy (ecr_image (default_image a)) = true.
Proof.
  unfold default_image.
  destruct (truthy (ecr_image a)) eqn:He, (truthy (ami a)); simpl; done.
Qed.

Lemma image_default_when_neither a :
  ecr_image a = None -> ami a = None ->
  ecr_image (default_image a) = Some "sra_download".
Proof. intros He Ha. unfold default_image. by rewrite He, Ha. Qed.

Lemma both_selectors_rejected c x y :
  cli_ecr_image c = Some x -> cli_ami c = Some y ->
  parse_args c
  = Raise (SystemExit "argument --ami: not allowed with argument --ecr-image").
Proof. intros He Ha. unfold parse_args. by rewrite He, Ha. Qed.

Lemma ecr_image_kept a x :
  ecr_image a = Some x -> x <> EmptyString -> ami a = None ->
  ecr_image (default_image a) = Some x.
Proof.
  intros He Hx Ha. unfold default_image. rewrite He, Ha. simpl.
  destruct (String.eqb_spec x EmptyString); [done|]. simpl. exact He.
Qed.

(** C4, the [--ami] case: with [--ami ami-0123456789] alone, the command
    carries [--ecr-image sra_download] and no [--ami]. *)
Theorem ami_only_submits_default_ecr_image :
  parse_args LauncherFixtures.ami_only_cli
    = Ok (LauncherFixtures.parsed LauncherFixtures.ami_only_cli) /\
  ami (LauncherFixtures.parsed LauncherFixtures.ami_only_cli)
    = Some "ami-0123456789" /\
  aegea_command (default_image
                   (LauncherFixtures.parsed LauncherFixtures.ami_only_cli))
  = ["aegea"; "batch"; "submit"; "--queue"; "aegea_batch";
     "--vcpus"; "1"; "--memory"; "4000";
     "--ecr-image"; "sra_download";
     "--command";
     quoted ("aws s3 cp s3://my_bucket/my_scripts/bcl2fastq.py .; "
             +:+ "chmod 755 bcl2fastq.py; ./bcl2fastq.py --exp_id EXP")].
Proof. split; [|split]; vm_compute; reflexivity. Qed.

(** The same for every command line: the selector in the command is always
    [--ecr-image], and it is the default image whenever [--ami] is given. *)
Lemma ami_flag_never_passed a :
  let a' := default_image a in
  (exists post,
     aegea_command a'
     = ["aegea"; "batch"; "submit"; "--queue"; queue a';
        "--vcpus"; str_of_Z (vcpus a'); "--memory"; str_of_Z (memory a')]
       ++ ["--ecr-image"; default EmptyString (ecr_image a')] ++ post) /\
  (truthy (ami a) = true -> ecr_image a' = Some "sra_download").
Proof.
  intros a'. split.
  - unfold aegea_command. unfold a'. rewrite default_image_truthy.
    eexists. reflexivity.
  - intros Ha. unfold a', default_image. by rewrite Ha, orb_true_r.
Qed.

(** *** Dry runs *)

Lemma adds_nil (P : event -> Prop) {A} (c : M (list event) A) :
  adds P c -> Forall P (snd (c [])).
Proof. intros H. destruct (H []) as (t & -> & Ht). exact Ht. Qed.

Lemma default_image_fields a :
  let a' := default_image a in
  dryrun a' = dryrun a /\ upload a' = upload a /\ debug a' = debug a /\
  testargs a' = testargs a /\ script_name a' = script_name a /\
  script_args a' = script_args a /\ s3_bucket a' = s3_bucket a /\
  s3_key a' = s3_key a /\ script_base a' = script_base a.
Proof. unfold default_image. by case_match. Qed.

Lemma default_image_set_dryrun a b :
  default_image (set_dryrun a b) = set_dryrun (default_image a) b.
Proof. unfold default_image. simpl. by case_match. Qed.

Lemma aegea_command_set_dryrun a b :
  aegea_command (set_dryrun a b) = aegea_command a.
Proof. reflexivity. Qed.

(** One step of a proof that a computation adds only [P] events, for the
    three predicates on launcher events. *)
Ltac adds_ev :=
  unfold submits_only, is_submit, is_upload;
  first [tauto | assumption | reflexivity].

Ltac adds_any :=
  match goal with
  | |- extends _ _ (bind _ _) => apply extends_bind; [|intros ?]
  | |- extends _ _ (ret _) => apply extends_ret
  | |- extends _ _ (raise _) => apply extends_raise
  | |- extends _ _ (when _ _) => apply extends_when
  | |- extends _ _ (lift _) => apply adds_lift
  | |- extends _ _ (lift_opt _) => apply adds_lift_opt
  | |- extends _ _ (log _ _ _) => apply adds_log; adds_ev
  | |- extends _ _ (emit _) => apply adds_emit; adds_ev
  | |- extends _ _ (if ?b then _ else _) => destruct b
  | |- extends _ _ (match ?x with _ => _ end) => destruct x
  end.

Lemma launch_with_dryrun_quiet E a :
  dryrun a = true ->
  adds (fun e => ~ is_submit e /\ ~ is_upload e) (launch_with E a).
Proof.
  intros H. unfold launch_with.
  repeat first
    [ apply upload_or_check_dryrun; assumption
    | apply submit_dryrun; assumption
    | apply test_args_quiet
    | adds_any ].
Qed.

Lemma launch_with_submits_only E a :
  adds (submits_only (join " " (aegea_command a))) (launch_with E a).
Proof.
  unfold launch_with, upload_or_check, test_args, submit.
  repeat adds_any.
Qed.

Lemma launch_with_any E a : adds (fun _ => True) (launch_with E a).
Proof.
  eapply extends_weaken; [|apply launch_with_submits_only]. done.
Qed.

Lemma log_info_run d dry msg t :
  log (get_logger d dry) INFO msg t = (Ok tt, t ++ [EvLog INFO dry msg]).
Proof. by destruct d. Qed.

Lemma submit_dryrun_run E a t :
  dryrun a = true ->
  submit E (get_logger (debug a) (dryrun a)) a t
  = (Ok tt, t ++ [EvLog INFO true (executing_msg a)]).
Proof.
  intros H. unfold submit. rewrite H. cbn [negb when].
  unfold bind. by rewrite log_info_run.
Qed.

Lemma bind_Ok_inv {W A B} (c : M W A) (k : A -> M W B) w b :
  fst (bind c k w) = Ok b ->
  exists a w', c w = (Ok a, w') /\ bind c k w = k a w'.
Proof.
  unfold bind. destruct (c w) as [[a|e] w'] eqn:Hc; [|done].
  intros _. by exists a, w'.
Qed.

Lemma launch_with_dryrun_last E a :
  dryrun a = true ->
  fst (launch_with E a []) = Ok tt ->
  exists t, snd (launch_with E a [])
            = t ++ [EvLog INFO true (executing_msg a)].
Proof.
  intros Hd H. unfold launch_with in *.
  repeat match type of H with
         | fst (bind _ _ _) = Ok _ =>
             let R := fresh "R" in
             destruct (bind_Ok_inv _ _ _ _ H) as (? & ? & _ & R);
             rewrite R in H |- *; clear R
         end.
  rewrite submit_dryrun_run by done. by eexists.
Qed.

Section TraceMembership.
Context {W Ev : Type} (tr : W -> list Ev).

Lemma elem_of_bind_l {A B} (c : M W A) (k : A -> M W B) w e :
  (forall x, extends tr (fun _ => True) (k x)) ->
  e ∈ tr (snd (c w)) -> e ∈ tr (snd (bind c k w)).
Proof.
  intros Hk He. unfold bind. destruct (c w) as [[x|err] w1]; [|done].
  destruct (Hk x w1) as (t & -> & _). simpl in He. set_solver.
Qed.

Lemma extends_bind_raises P {A B} (c : M W A) (k : A -> M W B) :
  extends tr P c -> (forall w, exists e, fst (c w) = Raise e) ->
  extends tr P (bind c k).
Proof.
  intros Hc Hr w. unfold bind.
  destruct (Hc w) as (t & Ht & HP). destruct (Hr w) as [e He].
  destruct (c w) as [[x|e'] w1]; [done|]. by exists t.
Qed.

Lemma bind_always_raises {A B} (c : M W A) (k : A -> M W B) :
  (forall x w, exists e, fst (k x w) = Raise e) ->
  forall w, exists e, fst (bind c k w) = Raise e.
Proof.
  intros Hk w. unfold bind. destruct (c w) as [[x|e] w1]; [|by eexists].
  apply Hk.
Qed.

End TraceMembership.

(** *** Uploads under a dry run *)

Lemma upload_dryrun_run E a t :
  dryrun a = true -> upload a = true ->
  path_exists E (script_name a) = true ->
  upload_or_check E (get_logger (debug a) true) a t
  = (Ok tt,
     t ++ [EvPathExists (script_name a);
           EvLog INFO true ("Uploading " +:+ script_name a +:+ " to s3://"
                            +:+ OsPath.join (s3_bucket a) (s3_key a))]
       ++ (if debug a
           then [EvLog DEBUG true
                   ("Filename: " +:+ script_name a +:+ ", Bucket: "
                    +:+ s3_bucket a +:+ ", Key: " +:+ s3_key a)]
           else [])).
Proof.
  intros Hd Hu Hp. unfold upload_or_check. rewrite Hd, Hu, Hp.
  cbn [negb when]. unfold bind, emit, ret, log.
  destruct (debug a); simpl; by rewrite <- ?app_assoc.
Qed.

Lemma launch_with_upload_prefix E a :
  s3_client E = None -> upload a = true ->
  EvPathExists (script_name a) ∈ snd (launch_with E a []).
Proof.
  intros Hc Hu. unfold launch_with. rewrite Hc.
  assert (Hrest : forall x : unit,
             adds (fun _ => True)
               (when (testargs a)
                  (test_args E (get_logger (debug a) (dryrun a)) a) >>
                submit E (get_logger (debug a) (dryrun a)) a)).
  { intros _. unfold test_args, submit. repeat adds_any. }
  unfold bind at 1 2 3. unfold log, emit, lift_opt, ret.
  destruct (_ <=? _)%nat; simpl.
  all: apply (elem_of_bind_l (fun t : list event => t)); [exact Hrest|].
  all: unfold upload_or_check; rewrite Hu.
  all: apply (elem_of_bind_l (fun t : list event => t));
    [intros _; repeat adds_any|].
  all: unfold emit; simpl; set_solver.
Qed.

Lemma launch_with_after_client E a :
  s3_client E = None ->
  launch_with E a []
  = (upload_or_check E (get_logger (debug a) (dryrun a)) a >>
     when (testargs a) (test_args E (get_logger (debug a) (dryrun a)) a) >>
     submit E (get_logger (debug a) (dryrun a)) a)
      ((if debug a
        then [EvLog DEBUG (dryrun a) "Starting S3 client"] else [])
       ++ [EvS3Client]).
Proof.
  intros Hc. unfold launch_with. rewrite Hc.
  destruct (debug a); reflexivity.
Qed.

Lemma launch_with_upload_dryrun_logs E a :
  s3_client E = None -> upload a = true -> dryrun a = true ->
  path_exists E (script_name a) = true ->
  let t := snd (launch_with E a []) in
  EvLog INFO true ("Uploading " +:+ script_name a +:+ " to s3://"
                   +:+ OsPath.join (s3_bucket a) (s3_key a)) ∈ t /\
  (debug a = true ->
   EvLog DEBUG true ("Filename: " +:+ script_name a +:+ ", Bucket: "
                     +:+ s3_bucket a +:+ ", Key: " +:+ s3_key a) ∈ t).
Proof.
  intros Hc Hu Hd Hp. cbv zeta. rewrite launch_with_after_client by done.
  assert (Hrest : forall x : unit,
             adds (fun _ => True)
               (when (testargs a)
                  (test_args E (get_logger (debug a) (dryrun a)) a) >>
                submit E (get_logger (debug a) (dryrun a)) a)).
  { intros _. unfold test_args, submit. repeat adds_any. }
  split; [|intros Hdbg].
  all: apply (elem_of_bind_l (fun t : list event => t)); [exact Hrest|].
  all: rewrite Hd; rewrite upload_dryrun_run by done; try rewrite Hdbg;
    simpl; set_solver.
Qed.

(** C10: with [--dryrun] and [--upload] both set, no S3 upload and no
    submission is performed; the local script is still looked for and, when
    it is there, the upload is still announced in the log (the file name,
    bucket and key at debug level). *)
Theorem dryrun_upload_leaves_s3_unchanged E a :
  dryrun a = true -> upload a = true ->
  let t := snd (launch E a []) in
  Forall (fun e => ~ is_upload e /\ ~ is_submit e) t /\
  (s3_client E = None ->
   EvPathExists (script_name a) ∈ t /\
   (path_exists E (script_name a) = true ->
    EvLog INFO true ("Uploading " +:+ script_name a +:+ " to s3://"
                     +:+ OsPath.join (s3_bucket a) (s3_key a)) ∈ t /\
    (debug a = true ->
     EvLog DEBUG true ("Filename: " +:+ script_name a +:+ ", Bucket: "
                       +:+ s3_bucket a +:+ ", Key: " +:+ s3_key a) ∈ t))).
Proof.
  intros Hd Hu t.
  destruct (default_image_fields a)
    as (Hd' & Hu' & Hg' & _ & Hn & _ & Hb & Hk & _).
  rewrite Hd in Hd'. rewrite Hu in Hu'. subst t. unfold launch. split.
  - eapply Forall_impl;
      [apply adds_nil, (launch_with_dryrun_quiet E _ Hd')|].
    simpl. tauto.
  - intros Hc. rewrite <- Hn, <- Hb, <- Hk, <- Hg'. split.
    + by apply launch_with_upload_prefix.
    + intros Hp. by apply launch_with_upload_dryrun_logs.
Qed.

Lemma dryrun_upload_leaves_s3_unchanged_witness :
  let a := LauncherFixtures.parsed LauncherFixtures.upload_dryrun_cli in
  dryrun a = true /\ upload a = true /\
  Forall (fun e => ~ is_upload e /\ ~ is_submit e)
    (snd (launch (LauncherFixtures.friendly_env true) a [])).
Proof.
  split; [reflexivity|]. split; [reflexivity|].
  apply (dryrun_upload_leaves_s3_unchanged
           (LauncherFixtures.friendly_env true)
           (LauncherFixtures.parsed LauncherFixtures.upload_dryrun_cli)
           eq_refl eq_refl).
Defined.

(** *** The argument self-test *)

Lemma log_run lg lvl msg t : exists t', log lg lvl msg t = (Ok tt, t').
Proof. unfold log. case_match; by eexists. Qed.

Lemma test_args_raises E lg a :
  (forall n p m, exec_module E n p = Ok m -> get_parser m = None) ->
  forall t, exists e, fst (test_args E lg a t) = Raise e.
Proof.
  intros Hm. unfold test_args.
  repeat (apply bind_always_raises; intros _).
  intros t. unfold bind, lift.
  destruct (exec_module E _ _) as [m|e] eqn:Hx; [|by eexists].
  rewrite (Hm _ _ _ Hx). by eexists.
Qed.

Lemma launch_with_missing_parser_quiet E a :
  testargs a = true ->
  (forall n p m, exec_module E n p = Ok m -> get_parser m = None) ->
  adds (fun e => ~ is_submit e) (launch_with E a) /\
  exists e, fst (launch_with E a []) = Raise e.
Proof.
  intros Ht Hm. unfold launch_with. rewrite Ht. cbn [when]. split.
  - do 3 (apply extends_bind; [repeat adds_any|intros _]).
    apply extends_bind; [apply upload_or_check_no_submit|intros _].
    apply extends_bind_raises; [|by apply test_args_raises].
    eapply extends_weaken; [|apply test_args_quiet]. simpl. tauto.
  - do 4 (apply bind_always_raises; intros _).
    intros t. unfold bind.
    destruct (test_args_raises E (get_logger (debug a) (dryrun a)) a Hm t)
      as [e He].
    destruct (test_args _ _ _ t) as [[u|e'] t']; [done|]. by eexists.
Qed.

Lemma test_args_missing_parser_run E lg a m t :
  path_exists E (script_name a) = true ->
  exec_module E (OsPath.splitext_root (script_base a)) (script_name a) = Ok m ->
  get_parser m = None ->
  exists t',
    test_args E lg a t
    = (Raise (ValueError (script_name a
                +:+ " has no 'get_parser' method, can't test args")),
       t ++ t') /\
    Forall (fun e => ~ is_submit e /\ ~ is_upload e) t'.
Proof.
  intros Hp Hx Hg.
  destruct (test_args_quiet E lg a t) as (t' & Ht' & HP).
  exists t'. split; [|done].
  rewrite <- Ht'. clear Ht' HP. unfold test_args. rewrite Hp, Hx.
  unfold bind, emit, ret, lift, raise, log.
  repeat case_match; simplify_eq; done.
Qed.

Lemma upload_or_check_ok_run E lg a t :
  path_exists E (script_name a) = true ->
  (if upload a
   then dryrun a = false ->
        upload_file E (script_name a) (s3_bucket a) (s3_key a) = None
   else head_object E (s3_bucket a) (s3_key a) = None) ->
  exists tu,
    upload_or_check E lg a t = (Ok tt, t ++ tu) /\
    (Exists is_upload tu <-> upload a = true /\ dryrun a = false) /\
    (upload a = true -> dryrun a = false ->
     EvUpload (script_name a) (s3_bucket a) (s3_key a) ∈ tu).
Proof.
  intros Hp Hs. unfold upload_or_check. rewrite Hp.
  destruct (upload a), (dryrun a); cbn [negb when];
    try rewrite Hs by done;
    unfold log; unfold bind, emit, ret, lift_opt;
    destruct (level_rank (lg_level lg) <=? level_rank INFO)%nat,
             (level_rank (lg_level lg) <=? level_rank DEBUG)%nat;
    simpl; rewrite <- ?app_assoc; simpl;
    eexists; (split; [reflexivity|]);
    rewrite ?Exists_cons, ?Exists_nil; simpl;
    (split; [intuition congruence|]); intros; try done; set_solver.
Qed.

(** C2: with [--testargs] and a target script without [get_parser], the run
    always fails and never submits.  When the steps before the self-test
    succeed, the failure is the [ValueError] about the missing entry point;
    the upload step comes before the self-test, so with [--upload] and
    without [--dryrun] the S3 upload has been performed by then (and in no
    other case). *)
Theorem missing_get_parser_fails_before_submit E a :
  testargs a = true ->
  (forall n p m, exec_module E n p = Ok m -> get_parser m = None) ->
  let r := launch E a [] in
  (exists e, fst r = Raise e) /\
  Forall (fun e => ~ is_submit e) (snd r) /\
  (s3_client E = None ->
   path_exists E (script_name a) = true ->
   (exists m, exec_module E (OsPath.splitext_root (script_base a))
                (script_name a) = Ok m) ->
   (if upload a
    then dryrun a = false ->
         upload_file E (script_name a) (s3_bucket a) (s3_key a) = None
    else head_object E (s3_bucket a) (s3_key a) = None) ->
   fst r = Raise (ValueError (script_name a
                    +:+ " has no 'get_parser' method, can't test args")) /\
   (Exists is_upload (snd r) <-> upload a = true /\ dryrun a = false) /\
   (upload a = true -> dryrun a = false ->
    EvUpload (script_name a) (s3_bucket a) (s3_key a) ∈ snd r)).
Proof.
  intros Ht Hm r. subst r. unfold launch.
  destruct (default_image_fields a)
    as (Hd' & Hu' & Hg' & Ht' & Hn & _ & Hb & Hk & Hsb).
  rewrite Ht in Ht'.
  destruct (launch_with_missing_parser_quiet E _ Ht' Hm) as [Hq Hr].
  split; [exact Hr|]. split; [by apply adds_nil|].
  rewrite <- Hn, <- Hb, <- Hk, <- Hsb, <- Hu', <- Hd'.
  clear Hq Hr Hn Hb Hk Hsb Hu' Hd' Hg' Ht. revert Ht'.
  generalize (default_image a). clear a. intros a Ht.
  intros Hc Hp [m Hx] Hs.
  rewrite launch_with_after_client by done. rewrite Ht. cbn [when].
  set (t0 := _ ++ [EvS3Client]).
  destruct (upload_or_check_ok_run E (get_logger (debug a) (dryrun a)) a t0
              Hp Hs) as (tu & Hrun & Hiff & Hin).
  destruct (test_args_missing_parser_run E (get_logger (debug a) (dryrun a))
              a m (t0 ++ tu) Hp Hx (Hm _ _ _ Hx)) as (tt' & Htest & Hquiet).
  match goal with
  | |- context [bind ?c ?k t0] =>
      assert (Heq : bind c k t0
                    = (Raise (ValueError (script_name a
                         +:+ " has no 'get_parser' method, can't test args")),
                       (t0 ++ tu) ++ tt'))
        by (unfold bind; rewrite Hrun, Htest; reflexivity);
      rewrite Heq
  end.
  simpl. split; [done|]. split.
  - rewrite !Exists_app. rewrite <- Hiff. split; [|tauto].
    intros [[H|H]|H]; [|done|].
    + exfalso. subst t0. apply Exists_app in H as [H|H].
      * destruct (debug a); [|by apply Exists_nil in H].
        apply Exists_cons in H as [H|H]; [done|by apply Exists_nil in H].
      * apply Exists_cons in H as [H|H]; [done|by apply Exists_nil in H].
    + exfalso. apply Exists_exists in H as (e & He & Hup).
      rewrite Forall_forall in Hquiet. by apply (Hquiet e He).
  - intros H1 H2. specialize (Hin H1 H2). set_solver.
Qed.


Lemma missing_get_parser_fails_before_submit_witness :
  let E := LauncherFixtures.friendly_env false in
  let a := LauncherFixtures.parsed LauncherFixtures.upload_testargs_cli in
  testargs a = true /\
  (forall n p m, exec_module E n p = Ok m -> get_parser m = None) /\
  (exists e, fst (launch E a []) = Raise e) /\
  Forall (fun e => ~ is_submit e) (snd (launch E a [])).
Proof.
  assert (H : forall n p m,
             exec_module (LauncherFixtures.friendly_env false) n p = Ok m ->
             get_parser m = None).
  { intros n p m. simpl. intros [= <-]. reflexivity. }
  split; [reflexivity|]. split; [exact H|].
  destruct (missing_get_parser_fails_before_submit
              (LauncherFixtures.friendly_env false)
              (LauncherFixtures.parsed LauncherFixtures.upload_testargs_cli)
              eq_refl H) as (H1 & H2 & _).
  split; [exact H1 | exact H2].
Defined.

(** C2 as stated fails: with [--upload --testargs] and a script without
    [get_parser], the script is uploaded before the run fails. *)
Lemma upload_precedes_missing_get_parser_failure :
  launcher_main (LauncherFixtures.friendly_env false)
    LauncherFixtures.upload_testargs_cli []
  = (Raise (ValueError
              "demux/bcl2fastq.py has no 'get_parser' method, can't test args"),
     [EvS3Client;
      EvPathExists "demux/bcl2fastq.py";
      EvLog INFO false
        "Uploading demux/bcl2fastq.py to s3://my_bucket/my_scripts/bcl2fastq.py";
      EvUpload "demux/bcl2fastq.py" "my_bucket" "my_scripts/bcl2fastq.py";
      EvPathExists "demux/bcl2fastq.py";
      EvExecModule "bcl2fastq" "demux/bcl2fastq.py"]) /\
  ~ fails_before_upload_and_submit
      (launcher_main (LauncherFixtures.friendly_env false)
         LauncherFixtures.upload_testargs_cli []).
Proof.
  assert (Hrun : launcher_main (LauncherFixtures.friendly_env false)
                   LauncherFixtures.upload_testargs_cli []
                 = (Raise (ValueError
              "demux/bcl2fastq.py has no 'get_parser' method, can't test args"),
     [EvS3Client;
      EvPathExists "demux/bcl2fastq.py";
      EvLog INFO false
        "Uploading demux/bcl2fastq.py to s3://my_bucket/my_scripts/bcl2fastq.py";
      EvUpload "demux/bcl2fastq.py" "my_bucket" "my_scripts/bcl2fastq.py";
      EvPathExists "demux/bcl2fastq.py";
      EvExecModule "bcl2fastq" "demux/bcl2fastq.py"]))
    by (vm_compute; reflexivity).
  split; [exact Hrun|]. rewrite Hrun. intros [_ Hq]. simpl in Hq.
  rewrite !Forall_cons in Hq. unfold is_upload in Hq. tauto.
Qed.

(** *** More on the launcher *)

Lemma default_image_selected a :
  ecr_image (default_image a) = Some (selected_image a).
Proof.
  unfold default_image, selected_image.
  destruct (truthy (ecr_image a)) eqn:Ht, (truthy (ami a)) eqn:Ha;
    simpl; try done.
  by destruct (ecr_image a).
Qed.

Lemma selected_image_truthy a : selected_image a <> EmptyString.
Proof.
  pose proof (default_image_truthy a) as H.
  rewrite default_image_selected in H. simpl in H.
  intros Heq. rewrite Heq in H. done.
Qed.

(** X1: the submission always carries exactly one image selector, and it is
    [--ecr-image]: with the value of the command line when a non-empty
    [--ecr-image] is given without [--ami], with [sra_download]
    otherwise. *)
Theorem command_carries_one_ecr_image a :
  aegea_command (default_image a)
  = command_head a ++ ["--ecr-image"; selected_image a] ++ command_tail a.
Proof.
  unfold aegea_command. rewrite default_image_truthy.
  rewrite default_image_selected. cbn [default].
  unfold default_image.
  by destruct (negb (truthy (ecr_image a)) || truthy (ami a))%bool.
Qed.

Lemma adds_log_level (P : event -> Prop) lg lvl msg :
  ((level_rank (lg_level lg) <= level_rank lvl)%nat ->
   P (EvLog lvl (lg_dryrun lg) msg)) ->
  adds P (log lg lvl msg).
Proof.
  intros H. unfold log.
  destruct (Nat.leb_spec (level_rank (lg_level lg)) (level_rank lvl));
    [by apply adds_emit, H | apply extends_ret].
Qed.

Lemma log_marked_get_logger a lvl msg :
  (level_rank (lg_level (get_logger (debug a) (dryrun a)))
   <= level_rank lvl)%nat ->
  log_marked a (EvLog lvl (lg_dryrun (get_logger (debug a) (dryrun a))) msg).
Proof.
  simpl. intros H. split; [done|]. intros ->.
  destruct (debug a); [done|]. simpl in H. lia.
Qed.

Ltac adds_marked :=
  match goal with
  | |- extends _ _ (bind _ _) => apply extends_bind; [|intros ?]
  | |- extends _ _ (ret _) => apply extends_ret
  | |- extends _ _ (raise _) => apply extends_raise
  | |- extends _ _ (when _ _) => apply extends_when
  | |- extends _ _ (lift _) => apply adds_lift
  | |- extends _ _ (lift_opt _) => apply adds_lift_opt
  | |- extends _ _ (log _ _ _) =>
      apply adds_log_level; apply log_marked_get_logger
  | |- extends _ _ (emit _) => apply adds_emit; exact I
  | |- extends _ _ (if ?b then _ else _) => destruct b
  | |- extends _ _ (match ?x with _ => _ end) => destruct x
  end.

Lemma launch_with_marked E a : adds (log_marked a) (launch_with E a).
Proof.
  unfold launch_with, upload_or_check, test_args, submit.
  repeat adds_marked.
Qed.

(** X2: in every run, each log record carries the [(DRYRUN)] mark exactly
    when [--dryrun] is set, and records at debug level are emitted only
    with [--debug]. *)
Theorem log_records_follow_the_flags E a :
  Forall (fun e => match e with
                  | EvLog lvl dry _ =>
                      dry = dryrun a /\ (lvl = DEBUG -> debug a = true)
                  | _ => True
                  end)
    (snd (launch E a [])).
Proof.
  unfold launch.
  destruct (default_image_fields a) as (Hd & _ & Hg & _).
  pose proof (adds_nil _ _ (launch_with_marked E (default_image a))) as H.
  eapply Forall_impl; [exact H|].
  intros [] Hm; try done. simpl in Hm. by rewrite Hd, Hg in Hm.
Qed.

(** X3: a ranged option out of its bounds stops the launcher at argument
    parsing: the run exits with the parser's error and does nothing at all
    (no S3 client, no upload, no submission). *)
Theorem out_of_range_stops_before_any_action E c r s v :
  cli_resource c r = Some s -> PyInt.int s = Some v ->
  ~ (res_min r <= v <= res_max r)%Z ->
  exists msg, launcher_main E c [] = (Raise (SystemExit msg), []).
Proof.
  intros Hc Hs Hout.
  pose proof (typed_opt_validator (res_flag r) r s v Hs) as Ht.
  assert (Hbad : exists e, typed_opt (res_flag r) (validator r) (Some s)
                           = Raise e).
  { rewrite Ht. destruct (Z.ltb_spec v (res_min r)); [by eexists|].
    destruct (Z.gtb_spec v (res_max r)); [by eexists|lia]. }
  destruct Hbad as [e He].
  destruct (parse_args_resource_bad c r s e Hc He) as [msg Hp].
  exists msg. unfold launcher_main, bind, lift. by rewrite Hp.
Qed.

Lemma out_of_range_stops_before_any_action_witness :
  exists msg,
    launcher_main (friendly_env true) too_many_vcpus_cli []
    = (Raise (SystemExit msg), []).
Proof.
  apply (out_of_range_stops_before_any_action (friendly_env true)
           too_many_vcpus_cli Vcpus "65" 65 eq_refl eq_refl).
  simpl. lia.
Defined.

(** X4: without [--upload], a script that is not on S3 (the head request
    answers with a client error) ends the run with a [ValueError] saying
    so, right after the request: nothing is tested, nothing submitted. *)
Theorem script_not_on_s3_is_reported E a msg :
  upload a = false -> s3_client E = None ->
  head_object E (s3_bucket a) (s3_key a) = Some (ClientError msg) ->
  launch E a []
  = (Raise (ValueError (script_name a
                        +:+ " is not on s3, you should upload it.")),
     (if debug a then [EvLog DEBUG (dryrun a) "Starting S3 client"] else [])
     ++ [EvS3Client; EvHeadObject (s3_bucket a) (s3_key a)]).
Proof.
  intros Hu Hc Hh. unfold launch.
  destruct (default_image_fields a)
    as (Hd' & Hu' & Hg' & _ & Hn & _ & Hb & Hk & _).
  rewrite <- Hn, <- Hb, <- Hk, <- Hg', <- Hd' in *. rewrite <- Hu' in Hu.
  clear Hd' Hu' Hg' Hn Hb Hk. revert Hu Hh.
  generalize (default_image a). clear a. intros a Hu Hh.
  rewrite launch_with_after_client by done.
  unfold bind at 1. unfold upload_or_check. rewrite Hu, Hh.
  unfold bind, emit, raise. simpl. by rewrite <- app_assoc.
Qed.

Lemma script_not_on_s3_is_reported_witness :
  let E := {| path_exists := fun _ => true; s3_client := None;
              upload_file := fun _ _ _ => None;
              head_object := fun _ _ => Some (ClientError "404");
              exec_module := fun _ _ => Raise (OtherError "unused");
              check_output := fun _ => Ok "unused";
              job_id_of := fun _ => Ok "unused" |} in
  fst (launch E (parsed bare_cli) [])
  = Raise (ValueError
             "demux/bcl2fastq.py is not on s3, you should upload it.").
Proof.
  intros E.
  pose proof (script_not_on_s3_is_reported E (parsed bare_cli) "404"
                eq_refl eq_refl eq_refl) as H.
  rewrite H. reflexivity.
Defined.

(** X5: with [--upload], a script that is not at the given local path ends
    the run with a [ValueError] right after the existence check: nothing is
    uploaded, tested or submitted, dry run or not. *)
Theorem upload_of_missing_script_is_refused E a :
  upload a = true -> s3_client E = None ->
  path_exists E (script_name a) = false ->
  launch E a []
  = (Raise (ValueError ("Can't find script: " +:+ script_name a)),
     (if debug a then [EvLog DEBUG (dryrun a) "Starting S3 client"] else [])
     ++ [EvS3Client; EvPathExists (script_name a)]).
Proof.
  intros Hu Hc Hp. unfold launch.
  destruct (default_image_fields a)
    as (Hd' & Hu' & Hg' & _ & Hn & _ & Hb & Hk & _).
  rewrite <- Hn, <- Hg', <- Hd' in *. rewrite <- Hu' in Hu.
  clear Hd' Hu' Hg' Hn Hb Hk. revert Hu Hp.
  generalize (default_image a). clear a. intros a Hu Hp.
  rewrite launch_with_after_client by done.
  unfold bind at 1. unfold upload_or_check. rewrite Hu, Hp.
  unfold bind, emit, raise. simpl. by rewrite <- app_assoc.
Qed.

Lemma upload_of_missing_script_is_refused_witness :
  let E := {| path_exists := fun _ => false; s3_client := None;
              upload_file := fun _ _ _ => None;
              head_object := fun _ _ => None;
              exec_module := fun _ _ => Raise (OtherError "unused");
              check_output := fun _ => Ok "unused";
              job_id_of := fun _ => Ok "unused" |} in
  fst (launch E (parsed upload_dryrun_cli) [])
  = Raise (ValueError "Can't find script: demux/bcl2fastq.py").
Proof.
  intros E.
  pose proof (upload_of_missing_script_is_refused E (parsed upload_dryrun_cli)
                eq_refl eq_refl eq_refl) as H.
  rewrite H. reflexivity.
Defined.

Lemma launch_with_split E a w :
  launch_with E a w
  = (before_submit E a >> submit E (get_logger (debug a) (dryrun a)) a) w.
Proof.
  unfold launch_with, before_submit, bind.
  repeat match goal with
         | |- context [match ?c ?x with _ => _ end] =>
             lazymatch c with
             | submit _ _ _ => fail
             | _ => destruct (c x) as [[[]|?] ?]
             end
         end; reflexivity.
Qed.

Lemma before_submit_no_submit E a :
  adds (fun e => ~ is_submit e) (before_submit E a).
Proof.
  unfold before_submit.
  do 3 (apply extends_bind; [repeat adds_any|intros _]).
  apply extends_bind; [apply upload_or_check_no_submit|intros _].
  apply extends_when.
  eapply extends_weaken; [|apply test_args_quiet]. simpl. tauto.
Qed.

(** C7: under [--dryrun] the submission command is never run, and the run
    logs the command that the same invocation without [--dryrun] submits.
    With [--dryrun], a run whose steps before the submission succeed ends
    normally, and its last action is the log record carrying the joined
    aegea command; a run in which one of those steps fails ends with that
    failure.  Without [--dryrun], a run whose steps before the submission
    succeed logs the same record and then submits that very command, once;
    and no run ever submits another command. *)
Theorem dryrun_logs_the_command_it_would_submit E a :
  dryrun a = true ->
  let a' := default_image a in
  let cmd := join " " (aegea_command a') in
  let msg := "executing command:" +:+ String newline (String "009"%char cmd) in
  let r := launch E a [] in
  Forall (fun e => ~ is_submit e) (snd r) /\
  (fst r = Ok tt -> exists t, snd r = t ++ [EvLog INFO true msg]) /\
  Forall (submits_only cmd) (snd (launch E (set_dryrun a false) [])) /\
  (forall t, before_submit E a' [] = (Ok tt, t) ->
   r = (Ok tt, t ++ [EvLog INFO true msg])) /\
  (forall e t, before_submit E a' [] = (Raise e, t) -> r = (Raise e, t)) /\
  (forall t, before_submit E (set_dryrun a' false) [] = (Ok tt, t) ->
   exists rest,
     snd (launch E (set_dryrun a false) [])
     = t ++ [EvLog INFO false msg; EvSubmit cmd] ++ rest /\
     Forall (fun e => ~ is_submit e) t /\
     Forall (fun e => ~ is_submit e) rest).
Proof.
  intros Hd a' cmd msg r.
  destruct (default_image_fields a) as (Hd' & _).
  rewrite Hd in Hd'. fold a' in Hd'.
  split; [|split; [|split; [|split; [|split]]]].
  - eapply Forall_impl;
      [apply adds_nil, (launch_with_dryrun_quiet E _ Hd')|].
    simpl. tauto.
  - intros H. apply (launch_with_dryrun_last E _ Hd' H).
  - unfold launch. rewrite default_image_set_dryrun.
    exact (adds_nil _ _
             (launch_with_submits_only E (set_dryrun (default_image a) false))).
  - intros t Hb. subst r. unfold launch. fold a'.
    rewrite launch_with_split. unfold bind at 1. rewrite Hb.
    by rewrite submit_dryrun_run.
  - intros e t Hb. subst r. unfold launch. fold a'.
    rewrite launch_with_split. unfold bind at 1. by rewrite Hb.
  - intros t Hb. unfold launch. rewrite default_image_set_dryrun. fold a'.
    rewrite launch_with_split. unfold bind at 1. rewrite Hb.
    pose proof (adds_nil _ _ (before_submit_no_submit E (set_dryrun a' false)))
      as Hpre.
    rewrite Hb in Hpre. cbn [snd] in Hpre.
    unfold submit, bind. rewrite log_info_run.
    cbn [dryrun set_dryrun negb when].
    unfold bind, emit, lift, ret.
    change (aegea_command (set_dryrun a' false)) with (aegea_command a').
    change (executing_msg (set_dryrun a' false)) with msg.
    fold cmd.
    destruct (check_output E cmd) as [out|e]; cbn [fst snd].
    2:{ exists []. rewrite <- !app_assoc. simpl. by split. }
    destruct (job_id_of E out) as [id|e]; cbn [fst snd].
    2:{ exists []. rewrite <- !app_assoc. simpl. by split. }
    rewrite log_info_run. cbn [snd].
    exists [EvLog INFO false ("Launched job with jobId: " +:+ id)].
    rewrite <- !app_assoc. simpl. split; [done|]. split; [done|].
    apply Forall_singleton. simpl. tauto.
Qed.

Lemma dryrun_logs_the_command_it_would_submit_witness :
  let E := LauncherFixtures.friendly_env true in
  let a := LauncherFixtures.parsed LauncherFixtures.upload_dryrun_cli in
  let cmd := join " " (aegea_command (default_image a)) in
  dryrun a = true /\
  fst (launch E a []) = Ok tt /\
  last (snd (launch E a []))
  = Some (EvLog INFO true
            ("executing command:"
             +:+ String newline (String "009"%char cmd))) /\
  Forall (fun e => ~ is_submit e) (snd (launch E a [])) /\
  In (EvSubmit cmd) (snd (launch E (set_dryrun a false) [])).
Proof.
  cbv zeta.
  destruct (dryrun_logs_the_command_it_would_submit
              (LauncherFixtures.friendly_env true)
              (LauncherFixtures.parsed LauncherFixtures.upload_dryrun_cli)
              eq_refl)
    as (Hno & _ & _ & Hdry & _ & Hrun).
  destruct (before_submit (LauncherFixtures.friendly_env true)
              (default_image
                 (LauncherFixtures.parsed LauncherFixtures.upload_dryrun_cli))
              []) as [[[]|e] t] eqn:Hb;
    [|vm_compute in Hb; discriminate].
  destruct (before_submit (LauncherFixtures.friendly_env true)
              (set_dryrun
                 (default_image
                    (LauncherFixtures.parsed
                       LauncherFixtures.upload_dryrun_cli)) false)
              []) as [[[]|e] t'] eqn:Hb';
    [|vm_compute in Hb'; discriminate].
  specialize (Hdry t eq_refl). destruct (Hrun t' eq_refl) as (rest & Hr & _).
  split; [reflexivity|]. split; [by rewrite Hdry|].
  split; [rewrite Hdry; cbn [snd]; apply last_snoc|].
  split; [exact Hno|].
  rewrite Hr. apply in_or_app. right. right. by left.
Defined.

(** X6: no run submits more than once, and only the assembled command; a
    run without [--dryrun] that ends normally has submitted it, received an
    output from which a job id was read, and logged that id as its last
    action. *)
Theorem one_submission_then_the_job_id E a :
  let cmd := join " " (aegea_command (default_image a)) in
  let r := launch E a [] in
  (exists t0 t1,
     snd r = t0 ++ t1 /\ Forall (fun e => ~ is_submit e) t0 /\
     (t1 = [] \/
      exists rest, t1 = EvSubmit cmd :: rest /\
                   Forall (fun e => ~ is_submit e) rest)) /\
  (fst r = Ok tt -> dryrun a = false ->
   exists t0 out id,
     check_output E cmd = Ok out /\ job_id_of E out = Ok id /\
     Forall (fun e => ~ is_submit e) t0 /\
     snd r = t0 ++ [EvSubmit cmd;
                    EvLog INFO false ("Launched job with jobId: " +:+ id)]).
Proof.
  cbv zeta. unfold launch.
  destruct (default_image_fields a) as (Hd' & _).
  rewrite <- Hd'. clear Hd'. generalize (default_image a). clear a. intros a.
  rewrite launch_with_split. unfold bind.
  pose proof (adds_nil _ _ (before_submit_no_submit E a)) as Hpre.
  destruct (before_submit E a []) as [[[]|e] t0]; simpl in Hpre.
  2:{ split; [|done]. exists t0, []. rewrite app_nil_r. auto. }
  unfold submit, bind. rewrite log_info_run.
  set (t1 := t0 ++ [EvLog INFO (dryrun a) (executing_msg a)]).
  assert (Ht1 : Forall (fun e => ~ is_submit e) t1).
  { apply Forall_app. split; [done|]. apply Forall_singleton. simpl. tauto. }
  destruct (dryrun a) eqn:Hd; cbn [negb when].
  { split; [|done]. exists t1, []. rewrite app_nil_r. auto. }
  unfold bind, emit, lift, ret.
  destruct (check_output E _) as [out|e] eqn:Hout; cbn [fst snd].
  2:{ split; [|done]. exists t1, [EvSubmit (join " " (aegea_command a))].
      split; [done|]. split; [done|]. right. by exists []. }
  destruct (job_id_of E out) as [id|e] eqn:Hid; cbn [fst snd].
  2:{ split; [|done]. exists t1, [EvSubmit (join " " (aegea_command a))].
      split; [done|]. split; [done|]. right. by exists []. }
  rewrite log_info_run. cbn [fst snd]. split.
  - exists t1, [EvSubmit (join " " (aegea_command a));
                EvLog INFO false ("Launched job with jobId: " +:+ id)].
    split; [by rewrite <- app_assoc|]. split; [done|]. right.
    eexists. split; [reflexivity|]. apply Forall_singleton. simpl. tauto.
  - intros _ _. exists t1, out, id. by rewrite <- app_assoc.
Qed.

Lemma one_submission_then_the_job_id_witness :
  fst (launch (friendly_env true) (parsed bare_cli) []) = Ok tt /\
  exists t0 out id,
    check_output (friendly_env true)
      (join " " (aegea_command (default_image (parsed bare_cli)))) = Ok out /\
    job_id_of (friendly_env true) out = Ok id /\
    Forall (fun e => ~ is_submit e) t0 /\
    snd (launch (friendly_env true) (parsed bare_cli) [])
    = t0 ++ [EvSubmit (join " " (aegea_command
                                   (default_image (parsed bare_cli))));
             EvLog INFO false ("Launched job with jobId: " +:+ id)].
Proof.
  assert (H : fst (launch (friendly_env true) (parsed bare_cli) []) = Ok tt)
    by (vm_compute; reflexivity).
  split; [exact H|].
  exact (proj2 (one_submission_then_the_job_id (friendly_env true)
                  (parsed bare_cli)) H eq_refl).
Defined.

Lemma test_args_rejected_run E lg a m p e t :
  path_exists E (script_name a) = true ->
  exec_module E (OsPath.splitext_root (script_base a)) (script_name a) = Ok m ->
  get_parser m = Some (Ok p) ->
  p (split (script_args a)) = Some e ->
  exists t',
    test_args E lg a t
    = (Raise e,
       t ++ t'
       ++ [EvLog ERROR (lg_dryrun lg)
             (script_name a +:+ " failed with the given arg string"
              +:+ String newline (String "009"%char (script_args a)))]) /\
    Forall (fun ev => ~ is_submit ev /\ ~ is_upload ev) t'.
Proof.
  intros Hp Hx Hg Hr. unfold test_args. rewrite Hp, Hx.
  unfold bind at 1 2 3 4 5. unfold emit at 1, ret at 1.
  unfold log at 1 2, emit at 1 2 3, lift at 1.
  assert (He : forall t0,
            log lg ERROR
              (script_name a +:+ " failed with the given arg string"
               +:+ String newline (String "009"%char (script_args a))) t0
            = (Ok tt, t0 ++ [EvLog ERROR (lg_dryrun lg)
                 (script_name a +:+ " failed with the given arg string"
                  +:+ String newline (String "009"%char (script_args a)))])).
  { intros t0. unfold log. by destruct (lg_level lg). }
  destruct (level_rank (lg_level lg) <=? level_rank DEBUG)%nat;
    cbn -[log]; rewrite Hg; unfold bind, emit, lift; cbn -[log];
    rewrite Hr; unfold bind, raise; rewrite He; cbn -[log].
  - eexists [_; _; _; _; _; _]. split.
    + by rewrite <- !app_assoc.
    + repeat (apply Forall_cons; split; [simpl; tauto|]). apply Forall_nil.
      done.
  - eexists [_; _; _; _]. split.
    + by rewrite <- !app_assoc.
    + repeat (apply Forall_cons; split; [simpl; tauto|]). apply Forall_nil.
      done.
Qed.

(** X7: with [--testargs], when the parser of the target script rejects the
    argument string, the run logs an error record naming the script and the
    arguments and re-raises the parser's exception; it does so after the
    upload step and before any submission. *)
Theorem rejected_script_args_stop_the_run E a m p e :
  testargs a = true -> s3_client E = None ->
  path_exists E (script_name a) = true ->
  (if upload a
   then dryrun a = false ->
        upload_file E (script_name a) (s3_bucket a) (s3_key a) = None
   else head_object E (s3_bucket a) (s3_key a) = None) ->
  exec_module E (OsPath.splitext_root (script_base a)) (script_name a) = Ok m ->
  get_parser m = Some (Ok p) ->
  p (split (script_args a)) = Some e ->
  let r := launch E a [] in
  fst r = Raise e /\
  exists t,
    snd r = t ++ [EvLog ERROR (dryrun a)
                    (script_name a +:+ " failed with the given arg string"
                     +:+ String newline (String "009"%char (script_args a)))]
    /\ Forall (fun ev => ~ is_submit ev) t.
Proof.
  intros Ht Hc Hp Hs Hx Hg Hr. cbv zeta. unfold launch.
  destruct (default_image_fields a)
    as (Hd' & Hu' & Hg' & Ht' & Hn & Ha & Hb & Hk & Hsb).
  rewrite <- Hn, <- Hb, <- Hk, <- Hsb, <- Hu', <- Hd', <- Ha in *.
  rewrite <- Ht' in Ht.
  clear Hd' Hu' Hg' Ht' Hn Ha Hb Hk Hsb. revert Ht Hp Hs Hx Hr.
  generalize (default_image a). clear a. intros a Ht Hp Hs Hx Hr.
  rewrite launch_with_after_client by done. rewrite Ht. cbn [when].
  set (t0 := _ ++ [EvS3Client]).
  assert (Ht0 : Forall (fun ev => ~ is_submit ev) t0).
  { subst t0. apply Forall_app. split.
    - destruct (debug a); [|done]. apply Forall_singleton. simpl. tauto.
    - apply Forall_singleton. simpl. tauto. }
  destruct (upload_or_check_ok_run E (get_logger (debug a) (dryrun a)) a t0
              Hp Hs) as (tu & Hrun & _ & _).
  destruct (upload_or_check_no_submit E (get_logger (debug a) (dryrun a))
              a t0) as (tu' & Htu & Hq).
  rewrite Hrun in Htu. simpl in Htu. apply app_inv_head in Htu. subst tu'.
  destruct (test_args_rejected_run E (get_logger (debug a) (dryrun a)) a
              m p e (t0 ++ tu) Hp Hx Hg Hr) as (t' & Htest & Hquiet).
  unfold bind. rewrite Hrun, Htest. simpl. split; [done|].
  exists (t0 ++ tu ++ t'). split; [by rewrite <- !app_assoc|].
  rewrite !Forall_app. repeat split; try done.
  eapply Forall_impl; [exact Hquiet|]. simpl. tauto.
Qed.

Lemma rejected_script_args_stop_the_run_witness :
  fst (launch rejecting_env (parsed testargs_cli) [])
  = Raise (SystemExit "2").
Proof.
  apply (rejected_script_args_stop_the_run rejecting_env (parsed testargs_cli)
           {| get_parser := Some (Ok (fun _ => Some (SystemExit "2"))) |}
           (fun _ => Some (SystemExit "2")) (SystemExit "2")
           eq_refl eq_refl eq_refl eq_refl eq_refl eq_refl eq_refl).
Defined.

Lemma typed_opt_Ok_inv flag name lo hi s o :
  typed_opt flag (resource_range name lo hi) (Some s) = Ok o ->
  exists v, PyInt.int s = Some v /\ (lo <= v <= hi)%Z /\ o = Some v.
Proof.
  unfold typed_opt, typed, resource_range.
  destruct (PyInt.int s) as [v|]; [|done].
  destruct (Z.ltb_spec v lo); [done|].
  destruct (Z.gtb_spec v hi); [done|].
  intros [= <-]. exists v. repeat split; try done; lia.
Qed.

(** X8: whatever [parse_args] accepts for a ranged option reads as an
    integer within the bounds of that option, and that integer is what the
    submission carries: as [--vcpus], as [--memory], or as
    [--storage /mnt=N] (a validated storage is at least 500, so the
    truth test of line 211 never drops it). *)
Theorem accepted_resources_reach_the_command c a r s :
  parse_args c = Ok a -> cli_resource c r = Some s ->
  exists v,
    PyInt.int s = Some v /\ (res_min r <= v <= res_max r)%Z /\
    match r with
    | Vcpus => command_head a
               = ["aegea"; "batch"; "submit"; "--queue"; queue a;
                  "--vcpus"; str_of_Z v; "--memory"; str_of_Z (memory a)]
    | Memory => command_head a
                = ["aegea"; "batch"; "submit"; "--queue"; queue a;
                   "--vcpus"; str_of_Z (vcpus a); "--memory"; str_of_Z v]
    | Storage => storage_flags a = ["--storage"; "/mnt=" +:+ str_of_Z v]
    end.
Proof.
  intros Hp Hc.
  pose proof (parse_args_resource_ok c a r s Hp Hc) as Hok.
  unfold validator in Hok.
  destruct (typed_opt_Ok_inv _ _ _ _ _ _ Hok) as (v & Hv & Hb & Hr).
  exists v. split; [done|]. split; [done|].
  destruct r; simpl in Hr.
  - injection Hr as Hr. unfold command_head. by rewrite Hr.
  - injection Hr as Hr. unfold command_head. by rewrite Hr.
  - unfold storage_flags. rewrite Hr.
    destruct (Z.eqb_spec v 0); [simpl in Hb; lia|done].
Qed.

Lemma accepted_resources_reach_the_command_witness :
  exists v,
    PyInt.int "1200" = Some v /\ (res_min Storage <= v <= res_max Storage)%Z /\
    storage_flags (parsed storage_cli) = ["--storage"; "/mnt=" +:+ str_of_Z v].
Proof.
  apply (accepted_resources_reach_the_command storage_cli (parsed storage_cli)
           Storage "1200" eq_refl eq_refl).
Defined.

(** *** Reading back the numbers of the command *)

Lemma rev_string_list s :
  list_ascii_of_string (rev_string s) = List.rev (list_ascii_of_string s).
Proof. unfold rev_string. apply list_ascii_of_string_of_list_ascii. Qed.

Lemma rev_string_involutive s : rev_string (rev_string s) = s.
Proof.
  unfold rev_string at 1. rewrite rev_string_list, List.rev_involutive.
  apply string_of_list_ascii_of_string.
Qed.

Lemma lstrip_no_space s :
  Forall (fun c => is_space c = false) (list_ascii_of_string s) ->
  lstrip s = s.
Proof.
  destruct s as [|c s]; [done|]. simpl. intros H.
  apply Forall_cons in H as [-> _]. done.
Qed.

Lemma strip_no_space s :
  Forall (fun c => is_space c = false) (list_ascii_of_string s) ->
  strip s = s.
Proof.
  intros H. unfold strip. rewrite (lstrip_no_space s H).
  rewrite lstrip_no_space; [apply rev_string_involutive|].
  rewrite rev_string_list. by apply Forall_rev.
Qed.

Lemma digit_no_space c : PyInt.is_digit c = true -> is_space c = false.
Proof.
  unfold PyInt.is_digit, is_space. intros H.
  apply andb_true_iff in H as [H1 H2].
  apply Nat.leb_le in H1, H2.
  destruct (Nat.eqb_spec (nat_of_ascii c) 32); [lia|].
  destruct (Nat.leb_spec 9 (nat_of_ascii c)),
           (Nat.leb_spec (nat_of_ascii c) 13); simpl; try done; lia.
Qed.

Lemma digit_no_underscore c :
  PyInt.is_digit c = true -> ascii_eqb c PyInt.underscore = false.
Proof.
  intros H. unfold ascii_eqb.
  destruct (Ascii.eqb_spec c PyInt.underscore) as [->|]; [|done].
  by vm_compute in H.
Qed.

Lemma uint_digits d :
  Forall (fun c => PyInt.is_digit c = true)
    (list_ascii_of_string (NilEmpty.string_of_uint d)).
Proof.
  induction d; simpl; [done|..]; by apply Forall_cons.
Qed.

Lemma drop_underscores_digits s :
  Forall (fun c => PyInt.is_digit c = true) (list_ascii_of_string s) ->
  PyInt.drop_underscores true s = Some s.
Proof.
  induction s as [|c s IH]; [done|]. simpl. intros H.
  apply Forall_cons in H as [Hc Hs].
  rewrite (digit_no_underscore c Hc). by rewrite (IH Hs).
Qed.

Lemma digits_of_uint d :
  d <> Decimal.Nil ->
  PyInt.digits (NilEmpty.string_of_uint d) = Some (Z.of_uint d).
Proof.
  intros Hd. pose proof (uint_digits d) as Hall.
  pose proof (NilZero.usu d Hd) as Hu.
  assert (Hs : NilZero.string_of_uint d = NilEmpty.string_of_uint d)
    by (by destruct d).
  rewrite Hs in Hu.
  destruct (NilEmpty.string_of_uint d) as [|c s] eqn:Hstr.
  { by destruct d. }
  unfold PyInt.digits. simpl in Hall. apply Forall_cons in Hall as [Hc Hrest].
  rewrite Hc. cbn [PyInt.drop_underscores].
  rewrite (digit_no_underscore c Hc), (drop_underscores_digits s Hrest).
  cbn [option_map]. by rewrite Hu.
Qed.

Lemma int_of_uint_text d :
  d <> Decimal.Nil ->
  PyInt.int (NilEmpty.string_of_uint d) = Some (Z.of_uint d).
Proof.
  intros Hd. unfold PyInt.int.
  rewrite strip_no_space.
  2:{ eapply Forall_impl; [apply uint_digits|]. apply digit_no_space. }
  rewrite <- (digits_of_uint d Hd).
  destruct d; try done.
Qed.

(** [int(str(n)) == n]. *)
Lemma int_str_of_Z (n : Z) : PyInt.int (str_of_Z n) = Some n.
Proof.
  unfold str_of_Z. destruct n as [|p|p]; [reflexivity|..].
  - cbn [Z.to_int NilZero.string_of_int].
    pose proof (DecimalPos.Unsigned.to_uint_nonnil p) as Hn.
    assert (Hs : NilZero.string_of_uint (Pos.to_uint p)
                 = NilEmpty.string_of_uint (Pos.to_uint p))
      by (by destruct (Pos.to_uint p)).
    rewrite Hs, (int_of_uint_text _ Hn). f_equal.
    apply (DecimalZ.of_to (Z.pos p)).
  - cbn [Z.to_int NilZero.string_of_int].
    pose proof (DecimalPos.Unsigned.to_uint_nonnil p) as Hn.
    assert (Hs : NilZero.string_of_uint (Pos.to_uint p)
                 = NilEmpty.string_of_uint (Pos.to_uint p))
      by (by destruct (Pos.to_uint p)).
    rewrite Hs. unfold PyInt.int. rewrite strip_no_space.
    2:{ simpl. apply Forall_cons. split; [done|].
        eapply Forall_impl; [apply uint_digits|]. apply digit_no_space. }
    cbn [option_map]. rewrite (digits_of_uint _ Hn). cbn [option_map].
    f_equal. apply (DecimalZ.of_to (Z.neg p)).
Qed.
Lemma typed_opt_default_bounds flag name lo hi o v dflt :
  typed_opt flag (resource_range name lo hi) o = Ok v ->
  (lo <= dflt <= hi)%Z -> (lo <= default dflt v <= hi)%Z.
Proof.
  destruct o as [s|].
  - intros H _. by destruct (typed_opt_Ok_inv _ _ _ _ _ _ H) as (x & _ & ? & ->).
  - by intros [= <-].
Qed.

Lemma parse_args_bounds c a :
  parse_args c = Ok a ->
  (1 <= vcpus a <= 64)%Z /\ (0 <= memory a <= 256000)%Z /\
  (forall n, storage a = Some n -> (500 <= n <= 16000)%Z).
Proof.
  unfold parse_args. intros H.
  destruct (typed_opt "--vcpus" (resource_range "vcpus" 1 64) (cli_vcpus c))
    as [v|] eqn:Hv;
    destruct (typed_opt "--memory" (resource_range "memory" 0 256000)
                (cli_memory c)) as [m|] eqn:Hm;
    destruct (typed_opt "--storage" (resource_range "storage" 500 16000)
                (cli_storage c)) as [st|] eqn:Hs;
    destruct (one_or_more "--ulimits" (cli_ulimits c)) eqn:Hu;
    destruct (one_or_more "--environment" (cli_environment c)) eqn:He;
    destruct (cli_ecr_image c), (cli_ami c); try discriminate H.
  all: injection H as <-; cbn [vcpus memory storage].
  all: split; [apply (typed_opt_default_bounds _ _ _ _ _ _ _ Hv); lia|].
  all: split; [apply (typed_opt_default_bounds _ _ _ _ _ _ _ Hm); lia|].
  all: intros n ->; destruct (cli_storage c) as [txt|]; [|discriminate Hs].
  all: by destruct (typed_opt_Ok_inv _ _ _ _ _ _ Hs) as (x & _ & ? & [= ->]).
Qed.

(** X9: the resources of every command line that parses are within their
    bounds, defaults included, and the decimal text that the submission
    carries for each of them is read back by its validator as the same
    number: [int(str(n)) == n]. *)
Theorem parsed_resources_read_back c a :
  parse_args c = Ok a ->
  (1 <= vcpus a <= 64)%Z /\ (0 <= memory a <= 256000)%Z /\
  validator Vcpus (str_of_Z (vcpus a)) = Ok (vcpus a) /\
  validator Memory (str_of_Z (memory a)) = Ok (memory a) /\
  (forall n, storage a = Some n ->
     (500 <= n <= 16000)%Z /\ validator Storage (str_of_Z n) = Ok n).
Proof.
  intros Hp. destruct (parse_args_bounds c a Hp) as (Hv & Hm & Hs).
  assert (Hok : forall r n, (res_min r <= n <= res_max r)%Z ->
                            validator r (str_of_Z n) = Ok n).
  { intros r n Hn. unfold validator.
    rewrite (resource_range_spec _ _ _ _ _ (int_str_of_Z n)).
    destruct (Z.ltb_spec n (res_min r)); [lia|].
    destruct (Z.gtb_spec n (res_max r)); [lia|done]. }
  split; [done|]. split; [done|].
  split; [by apply Hok|]. split; [by apply Hok|].
  intros n Hn. split; [by apply Hs|]. apply Hok. by apply Hs.
Qed.

Lemma parsed_resources_read_back_witness :
  validator Vcpus (str_of_Z (vcpus (parsed storage_cli)))
  = Ok (vcpus (parsed storage_cli)).
Proof.
  apply (parsed_resources_read_back storage_cli (parsed storage_cli) eq_refl).
Defined.

(** *** Where the script lives on S3 *)

#[local] Arguments String.append !_ _ : simpl nomatch.

Lemma ascii_eqb_refl c : ascii_eqb c c = true.
Proof. apply Ascii.eqb_refl. Qed.

Lemma ascii_eqb_sym a b : ascii_eqb a b = ascii_eqb b a.
Proof. apply Ascii.eqb_sym. Qed.

Lemma list_ascii_app s t :
  list_ascii_of_string (s +:+ t)
  = list_ascii_of_string s ++ list_ascii_of_string t.
Proof. induction s as [|a s IH]; [done|]. simpl. by rewrite IH. Qed.

Lemma string_of_list_app l1 l2 :
  string_of_list_ascii (l1 ++ l2)
  = string_of_list_ascii l1 +:+ string_of_list_ascii l2.
Proof. induction l1 as [|a l1 IH]; [done|]. simpl. by rewrite IH. Qed.

Lemma rev_string_app s t :
  rev_string (s +:+ t) = rev_string t +:+ rev_string s.
Proof.
  unfold rev_string. by rewrite list_ascii_app, rev_app_distr,
    string_of_list_app.
Qed.

Lemma append_assoc (s t u : string) : (s +:+ t) +:+ u = s +:+ (t +:+ u).
Proof. induction s as [|a s IH]; [done|]. simpl. by rewrite IH. Qed.

Lemma has_char_app c s t :
  has_char c (s +:+ t) = (has_char c s || has_char c t)%bool.
Proof.
  induction s as [|a s IH]; [done|]. simpl. rewrite IH.
  by destruct (ascii_eqb a c).
Qed.

Lemma after_last_sep c b k :
  has_char c k = false -> after_last c (b +:+ String c k) = k.
Proof.
  intros Hk. induction b as [|a b IH]; simpl.
  - by rewrite Hk, ascii_eqb_refl.
  - rewrite has_char_app. simpl. rewrite ascii_eqb_refl, orb_true_r.
    exact IH.
Qed.

Lemma upto_last_sep c b k :
  has_char c k = false ->
  upto_last c (b +:+ String c k) = b +:+ String c EmptyString.
Proof.
  intros Hk. induction b as [|a b IH]; simpl.
  - by rewrite Hk, ascii_eqb_refl.
  - rewrite has_char_app. simpl. rewrite ascii_eqb_refl, orb_true_r.
    by rewrite IH.
Qed.

Lemma after_last_no_sep c s : has_char c (after_last c s) = false.
Proof.
  induction s as [|a s IH]; [done|]. simpl.
  destruct (has_char c s) eqn:Hs; [exact IH|].
  destruct (ascii_eqb a c) eqn:Ha; [exact Hs|]. simpl. by rewrite Ha, Hs.
Qed.

Lemma no_sep_split c s :
  has_char c s = false -> after_last c s = s /\ upto_last c s = EmptyString.
Proof.
  destruct s as [|a s]; [done|]. simpl. intros H.
  apply orb_false_iff in H as [Ha Hs]. by rewrite Hs, Ha.
Qed.

Lemma rev_string_nonempty s : s <> EmptyString -> rev_string s <> EmptyString.
Proof.
  intros Hs Hr. apply Hs. rewrite <- (rev_string_involutive s), Hr. done.
Qed.

Lemma endswith_char c s :
  endswith (String c EmptyString) s
  = match rev_string s with
    | String x _ => ascii_eqb c x
    | EmptyString => false
    end.
Proof.
  unfold endswith. change (rev_string (String c EmptyString))
    with (String c EmptyString).
  simpl. destruct (rev_string s); [done|]. by rewrite andb_true_r.
Qed.

Lemma endswith_has_char c s :
  endswith (String c EmptyString) s = true -> has_char c s = true.
Proof.
  rewrite endswith_char. intros H.
  rewrite <- (rev_string_involutive s).
  destruct (rev_string s) as [|x r]; [done|].
  change (String x r) with (String x EmptyString +:+ r).
  rewrite rev_string_app, has_char_app.
  change (rev_string (String x EmptyString)) with (String x EmptyString).
  simpl. rewrite ascii_eqb_sym, H. by rewrite orb_true_r.
Qed.

Lemma rstrip_char_sep c b :
  b <> EmptyString -> endswith (String c EmptyString) b = false ->
  rstrip_char c (b +:+ String c EmptyString) = b.
Proof.
  intros Hb He. unfold rstrip_char. rewrite rev_string_app.
  change (rev_string (String c EmptyString)) with (String c EmptyString).
  simpl. rewrite ascii_eqb_refl. rewrite endswith_char in He.
  pose proof (rev_string_nonempty b Hb) as Hr.
  destruct (rev_string b) as [|x r] eqn:Hrev; [done|].
  simpl. rewrite ascii_eqb_sym, He. rewrite <- Hrev.
  apply rev_string_involutive.
Qed.

Lemma all_char_app c s t :
  all_char c (s +:+ t) = (all_char c s && all_char c t)%bool.
Proof.
  induction s as [|a s IH]; [done|]. simpl. rewrite IH.
  by rewrite andb_assoc.
Qed.

Lemma all_char_sep c b :
  b <> EmptyString -> endswith (String c EmptyString) b = false ->
  all_char c (b +:+ String c EmptyString) = false.
Proof.
  intros Hb He. rewrite all_char_app.
  destruct (all_char c b) eqn:Hall; [|done]. exfalso.
  rewrite endswith_char in He.
  pose proof (rev_string_nonempty b Hb) as Hr.
  destruct (rev_string b) as [|x r] eqn:Hrev; [done|].
  assert (Hx : all_char c (rev_string (String x r)) = true).
  { rewrite <- Hrev, rev_string_involutive. exact Hall. }
  change (String x r) with (String x EmptyString +:+ r) in Hx.
  rewrite rev_string_app, all_char_app in Hx.
  change (rev_string (String x EmptyString)) with (String x EmptyString) in Hx.
  simpl in Hx. rewrite andb_true_r in Hx.
  apply andb_true_iff in Hx as [_ Hx]. rewrite ascii_eqb_sym in Hx.
  congruence.
Qed.

Lemma split_at_last_slash b k :
  b <> EmptyString -> endswith "/" b = false -> has_char slash k = false ->
  OsPath.split (b +:+ "/" +:+ k) = (b, k).
Proof.
  intros Hb He Hk. unfold OsPath.split.
  change ("/" +:+ k) with (String slash k).
  rewrite (upto_last_sep slash b k Hk), (after_last_sep slash b k Hk).
  rewrite (all_char_sep slash b Hb He).
  destruct (String.eqb_spec (b +:+ String slash EmptyString) EmptyString)
    as [Heq|_].
  { by destruct b. }
  simpl. by rewrite (rstrip_char_sep slash b Hb He).
Qed.

Lemma no_sep_no_leading c s :
  has_char c s = false -> startswith (String c EmptyString) s = false.
Proof.
  destruct s as [|a s]; [done|]. simpl. intros H.
  apply orb_false_iff in H as [Ha _]. by rewrite ascii_eqb_sym, Ha.
Qed.

Lemma join_plain a b :
  a <> EmptyString -> endswith "/" a = false ->
  startswith "/" b = false ->
  OsPath.join a b = a +:+ "/" +:+ b.
Proof.
  intros Ha He Hb. unfold OsPath.join. rewrite Hb, He.
  by destruct (String.eqb_spec a EmptyString).
Qed.

(** X22: the script is addressed on S3 by splitting [s3_script_path] at
    its last slash: for [<bucket>/<prefix>] (a prefix without a slash, a
    bucket part that does not end in one) the bucket is [<bucket>], the key
    is [<prefix>/<basename of the script>], and the job fetches
    [s3://<s3_script_path>/<basename>], a name that never contains a slash.
    Without any slash in [s3_script_path] the bucket is empty. *)
Theorem script_location_on_s3 a :
  has_char slash (script_base a) = false /\
  (forall b k,
     s3_script_path a = b +:+ "/" +:+ k ->
     b <> EmptyString -> endswith "/" b = false ->
     k <> EmptyString -> has_char slash k = false ->
     s3_bucket a = b /\
     s3_key a = k +:+ "/" +:+ script_base a /\
     OsPath.join (s3_bucket a) (s3_key a)
     = s3_script_path a +:+ "/" +:+ script_base a) /\
  (has_char slash (s3_script_path a) = false ->
   s3_bucket a = EmptyString /\
   s3_key a = OsPath.join (s3_script_path a) (script_base a)).
Proof.
  assert (Hbase : has_char slash (script_base a) = false)
    by apply after_last_no_sep.
  split; [exact Hbase|]. split.
  - intros b k Hp Hb He Hk Hs. unfold s3_bucket, s3_key.
    rewrite Hp, (split_at_last_slash b k Hb He Hs). cbn [fst snd].
    assert (Hkey : OsPath.join k (script_base a)
                   = k +:+ "/" +:+ script_base a).
    { apply join_plain; [done| |by apply no_sep_no_leading].
      destruct (endswith "/" k) eqn:Hend; [|done].
      apply endswith_has_char in Hend. unfold slash in Hs. congruence. }
    rewrite Hkey. split; [done|]. split; [done|].
    rewrite join_plain; [by rewrite !append_assoc|done|done|].
    destruct k as [|x k']; [done|]. simpl in Hs.
    apply orb_false_iff in Hs as [Hx _].
    change (startswith "/" (String x (k' +:+ "/" +:+ script_base a)) = false).
    cbn [startswith]. fold slash. by rewrite ascii_eqb_sym, Hx.
  - intros Hs. unfold s3_bucket, s3_key, OsPath.split.
    destruct (no_sep_split slash _ Hs) as [-> ->]. done.
Qed.

Lemma script_location_on_s3_witness :
  s3_bucket (parsed bare_cli) = "my_bucket" /\
  s3_key (parsed bare_cli) = "my_scripts" +:+ "/" +:+ script_base (parsed bare_cli).
Proof.
  destruct (proj1 (proj2 (script_location_on_s3 (parsed bare_cli)))
              "my_bucket" "my_scripts" eq_refl) as (H1 & H2 & _);
    try done.
Defined.

End LauncherProofs.

(** ** The runner *)

Module DemuxProofs.
Import PyStr Demux DemuxFixtures.

(** *** The output reorganization *)

Lemma perm3_cases {A} (a b c : A) (l : list A) :
  l ≡ₚ [a; b; c] ->
  l = [a; b; c] \/ l = [a; c; b] \/ l = [b; a; c] \/
  l = [b; c; a] \/ l = [c; a; b] \/ l = [c; b; a].
Proof.
  intros H.
  assert (Hlen : length l = 3) by (by rewrite H).
  destruct l as [|x [|y [|z [|]]]]; try discriminate Hlen. clear Hlen.
  assert (Hx : x ∈ [a; b; c]) by (rewrite <- H; set_solver).
  apply elem_of_cons in Hx as [->|Hx];
    [|apply elem_of_cons in Hx as [->|Hx];
      [|apply list_elem_of_singleton in Hx as ->]].
  - apply Permutation_cons_inv in H.
    apply Permutation_sym, Permutation_length_2_inv in H as [->| ->]; tauto.
  - assert (H' : b :: [y; z] ≡ₚ b :: [a; c])
      by (rewrite H; apply perm_swap).
    apply Permutation_cons_inv in H'.
    apply Permutation_sym, Permutation_length_2_inv in H' as [->| ->]; tauto.
  - assert (H' : c :: [y; z] ≡ₚ c :: [a; b]).
    { rewrite H. symmetry. apply (Permutation_cons_append [a; b] c). }
    apply Permutation_cons_inv in H'.
    apply Permutation_sym, Permutation_length_2_inv in H' as [->| ->]; tauto.
Qed.

Lemma produced_names :
  fastq_gz_names produced out_dir
  = ["SampleA_R1_001.fastq.gz"; "SampleA_R2_001.fastq.gz";
     "Undetermined_R1_001.fastq.gz"].
Proof. vm_compute. reflexivity. Qed.

Lemma reorganize_produced E a :
  reorganize E a out_dir world0
  = reorganize_files a out_dir
      (List.map (OsPath.join out_dir)
         (scandir_order E
            ["SampleA_R1_001.fastq.gz"; "SampleA_R2_001.fastq.gz";
             "Undetermined_R1_001.fastq.gz"]))
      world0.
Proof.
  unfold reorganize, glob_fastq_gz, bind. cbn [w_fs world0].
  by rewrite produced_names.
Qed.

(** C1, as the code has it: with [--star_structure] alone, whatever the
    order in which the directory is listed, [SampleA/] is created and holds
    both SampleA files, and [Undetermined_R1_001.fastq.gz], which the
    pattern matches as well, is moved into a new [Undetermined/]
    directory. *)
Theorem star_structure_moves_every_read_file E :
  (forall l, scandir_order E l ≡ₚ l) ->
  let r := reorganize E (run_args true false) out_dir world0 in
  let fs := w_fs (snd r) in
  fst r = Ok tt /\
  fs !! "/mnt/data/hca/EXP/fastqs/SampleA" = Some Fs.Dir /\
  fs !! "/mnt/data/hca/EXP/fastqs/SampleA/SampleA_R1_001.fastq.gz"
    = Some Fs.File /\
  fs !! "/mnt/data/hca/EXP/fastqs/SampleA/SampleA_R2_001.fastq.gz"
    = Some Fs.File /\
  fs !! "/mnt/data/hca/EXP/fastqs/SampleA_R1_001.fastq.gz" = None /\
  fs !! "/mnt/data/hca/EXP/fastqs/SampleA_R2_001.fastq.gz" = None /\
  fs !! "/mnt/data/hca/EXP/fastqs/Undetermined_R1_001.fastq.gz" = None /\
  fs !! "/mnt/data/hca/EXP/fastqs/Undetermined" = Some Fs.Dir /\
  fs !! "/mnt/data/hca/EXP/fastqs/Undetermined/Undetermined_R1_001.fastq.gz"
    = Some Fs.File.
Proof.
  intros Hperm. cbv zeta. rewrite reorganize_produced.
  destruct (perm3_cases _ _ _ _ (Hperm
              ["SampleA_R1_001.fastq.gz"; "SampleA_R2_001.fastq.gz";
               "Undetermined_R1_001.fastq.gz"]))
    as [-> | [-> | [-> | [-> | [-> | ->]]]]];
    vm_compute; repeat split; reflexivity.
Qed.

Lemma star_structure_moves_every_read_file_witness :
  (forall l, scandir_order (env_failing (run_args true false) None []) l ≡ₚ l)
  /\
  w_fs (snd (reorganize (env_failing (run_args true false) None [])
               (run_args true false) out_dir world0))
    !! "/mnt/data/hca/EXP/fastqs/Undetermined/Undetermined_R1_001.fastq.gz"
  = Some Fs.File.
Proof.
  assert (H : forall l,
             scandir_order (env_failing (run_args true false) None []) l ≡ₚ l)
    by (intros l; simpl; reflexivity).
  split; [exact H|].
  apply (star_structure_moves_every_read_file _ H).
Defined.

(** C1 as stated fails: the Undetermined file does not stay at the top
    level of the output directory. *)
Lemma star_structure_moves_undetermined :
  ~ star_claim_as_stated
      (w_fs (snd (reorganize (env_failing (run_args true false) None [])
                    (run_args true false) out_dir world0))).
Proof.
  intros (_ & _ & _ & H). revert H. vm_compute. discriminate.
Qed.

(** C8: with [--skip_undetermined] alone, whatever the order in which the
    directory is listed, the Undetermined file is deleted and every other
    path, the two SampleA files among them, is as it was. *)
Theorem skip_undetermined_deletes_only_undetermined E :
  (forall l, scandir_order E l ≡ₚ l) ->
  let r := reorganize E (run_args false true) out_dir world0 in
  let fs := w_fs (snd r) in
  fst r = Ok tt /\
  fs !! "/mnt/data/hca/EXP/fastqs/Undetermined_R1_001.fastq.gz" = None /\
  fs !! "/mnt/data/hca/EXP/fastqs/SampleA_R1_001.fastq.gz" = Some Fs.File /\
  fs !! "/mnt/data/hca/EXP/fastqs/SampleA_R2_001.fastq.gz" = Some Fs.File /\
  (forall p, p <> "/mnt/data/hca/EXP/fastqs/Undetermined_R1_001.fastq.gz" ->
             fs !! p = produced !! p).
Proof.
  intros Hperm. cbv zeta. rewrite reorganize_produced.
  assert (Hgoal : forall files,
            fst (reorganize_files (run_args false true) out_dir files world0)
              = Ok tt ->
            w_fs (snd (reorganize_files (run_args false true) out_dir files
                         world0))
              = delete "/mnt/data/hca/EXP/fastqs/Undetermined_R1_001.fastq.gz"
                  produced ->
            let fs := w_fs (snd (reorganize_files (run_args false true)
                                   out_dir files world0)) in
            fst (reorganize_files (run_args false true) out_dir files world0)
              = Ok tt /\
            fs !! "/mnt/data/hca/EXP/fastqs/Undetermined_R1_001.fastq.gz"
              = None /\
            fs !! "/mnt/data/hca/EXP/fastqs/SampleA_R1_001.fastq.gz"
              = Some Fs.File /\
            fs !! "/mnt/data/hca/EXP/fastqs/SampleA_R2_001.fastq.gz"
              = Some Fs.File /\
            (forall p,
               p <> "/mnt/data/hca/EXP/fastqs/Undetermined_R1_001.fastq.gz" ->
               fs !! p = produced !! p)).
  { intros files Hok Hfs. cbv zeta. rewrite Hfs.
    split; [exact Hok|]. split; [apply lookup_delete_eq|].
    split; [by vm_compute|]. split; [by vm_compute|].
    intros p Hp. by apply lookup_delete_ne. }
  destruct (perm3_cases _ _ _ _ (Hperm
              ["SampleA_R1_001.fastq.gz"; "SampleA_R2_001.fastq.gz";
               "Undetermined_R1_001.fastq.gz"]))
    as [-> | [-> | [-> | [-> | [-> | ->]]]]];
    apply Hgoal; vm_compute; reflexivity.
Qed.

Lemma skip_undetermined_deletes_only_undetermined_witness :
  (forall l, scandir_order (env_failing (run_args false true) None []) l ≡ₚ l)
  /\
  w_fs (snd (reorganize (env_failing (run_args false true) None [])
               (run_args false true) out_dir world0))
    !! "/mnt/data/hca/EXP/fastqs/Undetermined_R1_001.fastq.gz"
  = None.
Proof.
  assert (H : forall l,
             scandir_order (env_failing (run_args false true) None []) l ≡ₚ l)
    by (intros l; simpl; reflexivity).
  split; [exact H|].
  apply (skip_undetermined_deletes_only_undetermined _ H).
Defined.

(** *** The retry loop *)

Lemma exec_count_app t t' :
  exec_count (t ++ t') = exec_count t + exec_count t'.
Proof. unfold exec_count. by rewrite List.filter_app, length_app. Qed.

Lemma py_join_words sep l : py_join sep (words l) = Ok (join sep l).
Proof.
  unfold py_join, words.
  assert (H : forall i, first_bytes i (List.map Str l) = None)
    by (induction l as [|x l IH]; intros i; [done|apply IH]).
  rewrite H, List.map_map. simpl. by rewrite List.map_id.
Qed.

Lemma log_command_run E command w :
  let cmd := join " " command in
  let r := shell E (exec_count (w_trace w)) cmd (w_fs w) in
  log_command E (words command) w
  = if sh_ok r
    then (Ok tt, {| w_fs := sh_fs r;
                    w_trace := w_trace w
                               ++ good_attempt cmd (sh_output r) |})
    else (Raise (CalledProcessError cmd),
          {| w_fs := sh_fs r;
             w_trace := w_trace w ++ [EvLog INFO cmd; EvExec cmd] |}).
Proof.
  cbv zeta. unfold log_command, bind. rewrite py_join_words.
  unfold log, log_bytes, emit, check_output. simpl.
  rewrite exec_count_app. simpl. rewrite Nat.add_0_r.
  destruct (sh_ok _); simpl; by rewrite <- !app_assoc.
Qed.

(** After [k] failures the loop succeeds at the next attempt, if it has
    one left. *)
Lemma for_retry_succeeds E command retry_msg exhausted :
  let cmd := join " " command in
  forall k n w,
    k < n ->
    (forall i fs, i < k ->
       sh_ok (shell E (exec_count (w_trace w) + i) cmd fs) = false) ->
    (forall fs, sh_ok (shell E (exec_count (w_trace w) + k) cmd fs) = true) ->
    exists fs' out,
      for_retry n (log_command E (words command)) retry_msg exhausted w
      = (Ok tt,
         {| w_fs := fs';
            w_trace := w_trace w
                       ++ concat (replicate k (failed_attempt cmd retry_msg))
                       ++ good_attempt cmd out |}).
Proof.
  intros cmd k. induction k as [|k IH]; intros n w Hk Hfail Hok.
  - destruct n as [|n]; [lia|]. cbn [for_retry].
    rewrite log_command_run. fold cmd.
    specialize (Hok (w_fs w)). rewrite Nat.add_0_r in Hok. rewrite Hok.
    by eexists _, _.
  - destruct n as [|n]; [lia|]. cbn [for_retry].
    rewrite log_command_run. fold cmd.
    pose proof (Hfail 0 (w_fs w) ltac:(lia)) as H0.
    rewrite Nat.add_0_r in H0. rewrite H0.
    unfold bind at 1. unfold log at 1, emit at 1. cbn [w_fs w_trace].
    set (w1 := {| w_fs := _; w_trace := _ |}).
    assert (Hc : exec_count (w_trace w1) = S (exec_count (w_trace w))).
    { subst w1. cbn [w_trace]. rewrite !exec_count_app.
      unfold exec_count. simpl. lia. }
    destruct (IH n w1) as (fs' & out & ->); [lia| | |].
    + intros i fs Hi. rewrite Hc.
      replace (S (exec_count (w_trace w)) + i)
        with (exec_count (w_trace w) + S i) by lia.
      apply Hfail. lia.
    + intros fs. rewrite Hc.
      replace (S (exec_count (w_trace w)) + k)
        with (exec_count (w_trace w) + S k) by lia.
      apply Hok.
    + exists fs', out. f_equal. f_equal. subst w1. cbn [w_trace].
      unfold failed_attempt. simpl. by rewrite <- !app_assoc.
Qed.

(** When every attempt fails the loop gives up after [n] of them. *)
Lemma for_retry_exhausts E command retry_msg exhausted :
  let cmd := join " " command in
  forall n w,
    (forall i fs, i < n ->
       sh_ok (shell E (exec_count (w_trace w) + i) cmd fs) = false) ->
    exists fs',
      for_retry n (log_command E (words command)) retry_msg exhausted w
      = (Raise exhausted,
         {| w_fs := fs';
            w_trace := w_trace w
                       ++ concat (replicate n
                                    (failed_attempt cmd retry_msg)) |}).
Proof.
  intros cmd n. induction n as [|n IH]; intros w Hfail.
  - exists (w_fs w). simpl. unfold raise. rewrite app_nil_r. by destruct w.
  - cbn [for_retry]. rewrite log_command_run. fold cmd.
    pose proof (Hfail 0 (w_fs w) ltac:(lia)) as H0.
    rewrite Nat.add_0_r in H0. rewrite H0.
    unfold bind at 1. unfold log at 1, emit at 1. cbn [w_fs w_trace].
    set (w1 := {| w_fs := _; w_trace := _ |}).
    assert (Hc : exec_count (w_trace w1) = S (exec_count (w_trace w))).
    { subst w1. cbn [w_trace]. rewrite !exec_count_app.
      unfold exec_count. simpl. lia. }
    destruct (IH w1) as (fs' & ->).
    + intros i fs Hi. rewrite Hc.
      replace (S (exec_count (w_trace w)) + i)
        with (exec_count (w_trace w) + S i) by lia.
      apply Hfail. lia.
    + exists fs'. f_equal. f_equal. subst w1. cbn [w_trace].
      unfold failed_attempt. simpl. by rewrite <- !app_assoc.
Qed.

Lemma exec_count_failed cmd msg k :
  exec_count (concat (replicate k (failed_attempt cmd msg))) = k.
Proof.
  induction k as [|k IH]; [done|].
  simpl. unfold exec_count in *. simpl. by rewrite IH.
Qed.

Lemma op_command_words l op :
  (forall p, op <> CpReports p) ->
  exists ws, op_command l op = words ws /\ op_line l op = join " " ws.
Proof.
  intros Hop. unfold op_line.
  destruct op; [| | |by destruct (Hop reports_path)];
    eexists; (split; [reflexivity|]); reflexivity.
Qed.

(** The report copy never gets to run its command: the list holds the
    [bytes] of [reports_path], and the [TypeError] of the join is not what
    the loop catches. *)
Lemma report_copy_raises E l p w :
  retried E l (CpReports p) w
  = (Raise (TypeError "sequence item 3: expected str instance, bytes found"),
     w).
Proof. reflexivity. Qed.

(** C5, as the code has it: each of the sample-sheet download, the raw-data
    sync and the fastq upload, when its command fails [k < 5] times and
    then succeeds, returns after exactly [k + 1] invocations with nothing
    between the attempts but the retry log line; when the command fails
    five times it raises a [RuntimeError] after exactly five invocations.
    The message names the operation; it carries the S3 path for the
    sample-sheet download and the raw-data sync, and is a fixed text for
    the fastq upload. *)
Theorem retried_invocations E l op w k :
  (forall p, op <> CpReports p) ->
  let cmd := op_line l op in
  let n0 := exec_count (w_trace w) in
  k <= S3_RETRY ->
  (forall i fs, i < k -> sh_ok (shell E (n0 + i) cmd fs) = false) ->
  (k < S3_RETRY -> forall fs, sh_ok (shell E (n0 + k) cmd fs) = true) ->
  let r := retried E l op w in
  (k < S3_RETRY ->
   fst r = Ok tt /\
   exec_count (w_trace (snd r)) = n0 + (k + 1) /\
   exists out,
     w_trace (snd r)
     = w_trace w
       ++ concat (replicate k (failed_attempt cmd (op_retry_msg op)))
       ++ good_attempt cmd out) /\
  (k = S3_RETRY ->
   fst r = Raise (RuntimeError (op_exhausted_msg l op)) /\
   exec_count (w_trace (snd r)) = n0 + S3_RETRY /\
   w_trace (snd r)
   = w_trace w
     ++ concat (replicate S3_RETRY (failed_attempt cmd (op_retry_msg op)))) /\
  match op with
  | DownloadSampleSheet =>
      exists src, op_paths l op = [src; l_result_path l] /\
        op_exhausted_msg l op = "couldn't download sample sheet " +:+ src
  | SyncBcl =>
      exists src, op_paths l op = [src; l_bcl_path l] /\
        op_exhausted_msg l op = "couldn't sync " +:+ src
  | SyncFastqs => op_exhausted_msg l op = "couldn't sync fastqs"
  | CpReports _ => True
  end.
Proof.
  intros Hop cmd n0 Hk Hfail Hok r. subst r. unfold retried.
  destruct (op_command_words l op Hop) as (ws & Hws & Hline).
  rewrite Hws. subst cmd. rewrite Hline in *.
  split; [|split].
  - intros Hlt.
    destruct (for_retry_succeeds E ws (op_retry_msg op)
                (RuntimeError (op_exhausted_msg l op)) k S3_RETRY w Hlt
                Hfail (Hok Hlt)) as (fs' & out & ->).
    cbn [fst snd w_trace]. split; [done|]. split; [|by exists out].
    rewrite !exec_count_app, exec_count_failed.
    fold n0. reflexivity.
  - intros ->.
    destruct (for_retry_exhausts E ws (op_retry_msg op)
                (RuntimeError (op_exhausted_msg l op)) S3_RETRY w Hfail)
      as (fs' & ->).
    cbn [fst snd w_trace]. split; [done|]. split; [|done].
    by rewrite exec_count_app, exec_count_failed.
  - destruct op; simpl; try done; by eexists.
Qed.

Lemma retried_invocations_witness :
  let E := env_failing (run_args false false) None [0; 1] in
  (forall p, SyncBcl <> CpReports p) /\
  2 <= S3_RETRY /\
  fst (retried E locals0 SyncBcl empty_world) = Ok tt /\
  exec_count (w_trace (snd (retried E locals0 SyncBcl empty_world))) = 3.
Proof.
  assert (Hop : forall p, SyncBcl <> CpReports p) by discriminate.
  split; [exact Hop|].
  split; [unfold S3_RETRY; lia|].
  assert (Hk : 2 <= S3_RETRY) by (unfold S3_RETRY; lia).
  assert (Hfail : forall i fs, i < 2 ->
            sh_ok (shell (env_failing (run_args false false) None [0; 1])
                     (exec_count (w_trace empty_world) + i)
                     (op_line locals0 SyncBcl) fs) = false).
  { intros i fs Hi. destruct i as [|[|i]]; [reflexivity|reflexivity|lia]. }
  assert (Hok : 2 < S3_RETRY -> forall fs,
            sh_ok (shell (env_failing (run_args false false) None [0; 1])
                     (exec_count (w_trace empty_world) + 2)
                     (op_line locals0 SyncBcl) fs) = true).
  { intros _ fs. reflexivity. }
  destruct (retried_invocations
              (env_failing (run_args false false) None [0; 1])
              locals0 SyncBcl empty_world 2 Hop Hk Hfail Hok) as (H & _).
  assert (Hlt : 2 < S3_RETRY) by (unfold S3_RETRY; lia).
  destruct (H Hlt) as (H1 & H2 & _). split; [exact H1 | exact H2].
Defined.

(** C5 as stated fails twice.  When the fastq upload gives up, the error
    names the operation but neither the local directory nor the S3
    destination.  And the report copy, even with a command that would
    succeed, runs it zero times and ends in a [TypeError]. *)
Lemma sync_fastqs_error_names_no_path :
  (fst (retried (env_failing (run_args false false) None [0; 1; 2; 3; 4])
          locals0 SyncFastqs empty_world)
   = Raise (RuntimeError "couldn't sync fastqs") /\
   op_paths locals0 SyncFastqs
   = ["/mnt/data/hca/EXP/fastqs"; "s3://czbiohub-seqbot/fastqs/EXP/rawdata"] /\
   names_a_path locals0 SyncFastqs = false) /\
  retried (env_failing (run_args false false) None [])
    locals0 (CpReports "/mnt/data/hca/EXP/fastqs/Reports/html/FC/all/all/all")
    empty_world
  = (Raise (TypeError "sequence item 3: expected str instance, bytes found"),
     empty_world).
Proof. split; [split; [|split]|]; vm_compute; reflexivity. Qed.

(** *** The resource sampler *)

Abbreviation tracks P c := (extends w_trace P c).

Lemma tracks_emit (P : event -> Prop) e : P e -> tracks P (emit e).
Proof. intros H w. exists [e]. split; [done|]. by apply Forall_singleton. Qed.

Lemma tracks_log (P : event -> Prop) lvl msg :
  P (EvLog lvl msg) -> tracks P (log lvl msg).
Proof. apply tracks_emit. Qed.

Lemma tracks_log_bytes (P : event -> Prop) lvl data :
  P (EvLogBytes lvl data) -> tracks P (log_bytes lvl data).
Proof. apply tracks_emit. Qed.

Lemma tracks_check_output (P : event -> Prop) E cmd :
  P (EvExec cmd) -> tracks P (check_output E cmd).
Proof.
  intros H w. exists [EvExec cmd]. unfold check_output.
  split; [by destruct (sh_ok _)|]. by apply Forall_singleton.
Qed.

Lemma tracks_fs_call (P : event -> Prop) f : tracks P (fs_call f).
Proof.
  intros w. exists []. unfold fs_call.
  split; [|done]. destruct (f (w_fs w)); simpl; by rewrite app_nil_r.
Qed.

Lemma tracks_pure (P : event -> Prop) {A} (f : world -> outcome A) :
  tracks P (fun w => (f w, w)).
Proof. intros w. exists []. simpl. by rewrite app_nil_r. Qed.

Lemma tracks_for_retry (P : event -> Prop) n attempt msg ex :
  tracks P attempt -> P (EvLog INFO msg) ->
  tracks P (for_retry n attempt msg ex).
Proof.
  intros Ha Hm. induction n as [|n IH]; [apply extends_raise|].
  intros w. cbn [for_retry].
  destruct (Ha w) as (t & Ht & HP).
  destruct (attempt w) as [[u|e] w1]; [by exists t|].
  destruct e; try by exists t.
  assert (Hk : tracks P (log INFO msg >> for_retry n attempt msg ex)).
  { apply extends_bind; [by apply tracks_log|intros _; exact IH]. }
  destruct (Hk w1) as (t2 & Ht2 & HP2).
  exists (t ++ t2). simpl in Ht. rewrite Ht2, Ht, app_assoc.
  split; [done|]. by apply Forall_app.
Qed.

Ltac tracks_quiet :=
  match goal with
  | |- extends _ _ (bind _ _) => apply extends_bind; [|intros ?]
  | |- extends _ _ (ret _) => apply extends_ret
  | |- extends _ _ (raise _) => apply extends_raise
  | |- extends _ _ (when _ _) => apply extends_when
  | |- extends _ _ (for_each _ _) => apply extends_for_each; intros ?
  | |- extends _ _ (fs_call _) => apply tracks_fs_call
  | |- extends _ _ (path_exists _) => apply tracks_pure
  | |- extends _ _ (glob_fastq_gz _ _) => apply tracks_pure
  | |- extends _ _ (fun w => (?o, w)) => apply (tracks_pure _ (fun _ => o))
  | |- extends _ _ (log _ _) => apply tracks_log; unfold quiet; simpl; tauto
  | |- extends _ _ (log_bytes _ _) =>
      apply tracks_log_bytes; unfold quiet; simpl; tauto
  | |- extends _ _ (check_output _ _) =>
      apply tracks_check_output; unfold quiet; simpl; tauto
  | |- extends _ _ (for_retry _ _ _ _) =>
      apply tracks_for_retry; [|unfold quiet; simpl; tauto]
  | |- extends _ _ (if ?b then _ else _) => destruct b
  | |- extends _ _ (match ?x with _ => _ end) => destruct x
  end.

Lemma log_command_quiet E command : tracks quiet (log_command E command).
Proof. unfold log_command. repeat tracks_quiet. Qed.

Lemma retried_quiet E l op : tracks quiet (retried E l op).
Proof.
  unfold retried. apply tracks_for_retry; [apply log_command_quiet|].
  unfold quiet. simpl. tauto.
Qed.

Lemma reorganize_quiet E a out : tracks quiet (reorganize E a out).
Proof.
  unfold reorganize, reorganize_files, reorganize_file.
  repeat tracks_quiet.
Qed.

Lemma setup_quiet E : tracks quiet (setup E).
Proof.
  unfold setup.
  apply extends_bind; [apply (tracks_pure _ (fun _ => parse_args E))|].
  intros a0. destruct (exp_id a0); [|apply extends_raise].
  repeat first [apply retried_quiet | tracks_quiet].
Qed.

Lemma demultiplex_and_upload_quiet E l :
  tracks quiet (demultiplex_and_upload E l).
Proof.
  unfold demultiplex_and_upload.
  repeat first [ apply retried_quiet | apply log_command_quiet
               | apply reorganize_quiet | tracks_quiet ].
Qed.

Lemma main_run E w :
  main E w
  = match setup E w with
    | (Ok l, w1) =>
        match demultiplex_and_upload E l
                (add_event w1 (EvPopen sampler_command)) with
        | (Ok _, w3) => (Ok tt, add_event w3 (EvKill sampler_command))
        | (Raise e, w3) => (Raise e, w3)
        end
    | (Raise e, w1) => (Raise e, w1)
    end.
Proof.
  unfold main, bind. destruct (setup E w) as [[l|e] w1]; [|done].
  unfold emit at 1. fold (add_event w1 (EvPopen sampler_command)).
  by destruct (demultiplex_and_upload E l _) as [[[]|e] w3].
Qed.

Lemma raises_bind {A B} (c : M world A) (k : A -> M world B) :
  (forall a w, exists e, fst (k a w) = Raise e) ->
  forall w, exists e, fst (bind c k w) = Raise e.
Proof.
  intros H w. unfold bind.
  destruct (c w) as [[a|e] w1]; [apply H|by exists e].
Qed.

(** The steps after the sampler start never complete: the last of them is
    the report copy. *)
Lemma demultiplex_and_upload_raises E l w :
  exists e, fst (demultiplex_and_upload E l w) = Raise e.
Proof.
  revert w. unfold demultiplex_and_upload.
  do 5 (apply raises_bind; intros ?).
  intros w. rewrite report_copy_raises. by eexists.
Qed.

(** Hence no run of [main] returns: line 188 is not reached. *)
Lemma main_raises E w : exists e, fst (main E w) = Raise e.
Proof.
  rewrite main_run. destruct (setup E w) as [[l|e] w1]; [|by exists e].
  destruct (demultiplex_and_upload_raises E l
              (add_event w1 (EvPopen sampler_command))) as (e & He).
  destruct (demultiplex_and_upload E l _) as [[u|e'] w3]; [done|].
  by exists e'.
Qed.

(** C3, as the code has it: a run of [main] that ends in an exception
    never kills the sampler.  When the exception comes after the two
    downloads, the sampler has been started, once, and is left running
    when the error propagates; when it comes before, the sampler was not
    started. *)
Theorem sampler_not_killed_when_main_raises E w e :
  let r := main E w in
  fst r = Raise e ->
  exists t,
    w_trace (snd r) = w_trace w ++ t /\
    Forall (fun ev => ~ is_kill ev) t /\
    (forall l w1, setup E w = (Ok l, w1) ->
     exists t1 t2,
       t = t1 ++ [EvPopen sampler_command] ++ t2 /\
       Forall quiet t1 /\ Forall quiet t2) /\
    (forall x w1, setup E w = (Raise x, w1) -> Forall quiet t).
Proof.
  cbv zeta. rewrite main_run.
  destruct (setup_quiet E w) as (t1 & Ht1 & Hq1).
  destruct (setup E w) as [[l|e1] w1]; simpl in Ht1.
  - destruct (demultiplex_and_upload_quiet E l
                (add_event w1 (EvPopen sampler_command)))
      as (t2 & Ht2 & Hq2).
    destruct (demultiplex_and_upload E l _) as [[u|e2] w3];
      simpl in Ht2; rewrite Ht1 in Ht2; [done|].
    intros _. simpl.
    exists (t1 ++ [EvPopen sampler_command] ++ t2).
    rewrite Ht2. split; [by rewrite <- !app_assoc|].
    split; [|split; [|done]].
    + rewrite !Forall_app. repeat split.
      * eapply Forall_impl; [exact Hq1|]. unfold quiet. tauto.
      * apply Forall_singleton. simpl. tauto.
      * eapply Forall_impl; [exact Hq2|]. unfold quiet. tauto.
    + intros l' w1' _. by exists t1, t2.
  - intros _. exists t1. split; [done|]. split; [|split; [done|]].
    + eapply Forall_impl; [exact Hq1|]. unfold quiet. tauto.
    + intros _ _ _. exact Hq1.
Qed.

Lemma sampler_not_killed_when_main_raises_witness :
  let E := env_failing (run_args false false) None [2] in
  let e := CalledProcessError
             ("bcl2fastq --no-lane-splitting "
              +:+ "--sample-sheet /mnt/data/hca/EXP/EXP.csv "
              +:+ "-R /mnt/data/hca/EXP/bcl -o /mnt/data/hca/EXP/fastqs") in
  fst (main E empty_world) = Raise e /\
  exists t,
    w_trace (snd (main E empty_world)) = w_trace empty_world ++ t /\
    Forall (fun ev => ~ is_kill ev) t.
Proof.
  assert (H : fst (main (env_failing (run_args false false) None [2])
                     empty_world)
              = Raise (CalledProcessError
                         ("bcl2fastq --no-lane-splitting "
                          +:+ "--sample-sheet /mnt/data/hca/EXP/EXP.csv "
                          +:+ "-R /mnt/data/hca/EXP/bcl "
                          +:+ "-o /mnt/data/hca/EXP/fastqs")))
    by (vm_compute; reflexivity).
  split; [exact H|].
  destruct (sampler_not_killed_when_main_raises
              (env_failing (run_args false false) None [2]) empty_world _ H)
    as (t & Ht & Hk & _).
  exists t. split; [exact Ht | exact Hk].
Defined.

(** C3 as stated fails on both kinds of run.  When the demultiplexing
    binary fails, [main] propagates the error with the sampler started and
    not killed.  When every command succeeds, [main] stops at the report
    copy, after six commands, again with the sampler started and not
    killed. *)
Lemma sampler_left_running_when_bcl2fastq_fails :
  (let r := main (env_failing (run_args false false) None [2]) empty_world in
   fst r
   = Raise (CalledProcessError
              ("bcl2fastq --no-lane-splitting "
               +:+ "--sample-sheet /mnt/data/hca/EXP/EXP.csv "
               +:+ "-R /mnt/data/hca/EXP/bcl -o /mnt/data/hca/EXP/fastqs")) /\
   Exists is_popen (w_trace (snd r)) /\
   Forall (fun e => ~ is_kill e) (w_trace (snd r))) /\
  (let r := main (env_failing (run_args false false) None []) empty_world in
   fst r
   = Raise (TypeError "sequence item 3: expected str instance, bytes found") /\
   exec_count (w_trace (snd r)) = 6 /\
   Exists is_popen (w_trace (snd r)) /\
   Forall (fun e => ~ is_kill e) (w_trace (snd r))).
Proof.
  cbv zeta. split.
  - split; [vm_compute; reflexivity|].
    remember (w_trace _) as t eqn:Ht. vm_compute in Ht. subst t.
    split.
    + rewrite !Exists_cons. simpl. tauto.
    + repeat (apply Forall_cons; split; [simpl; tauto|]). apply Forall_nil.
      done.
  - split; [vm_compute; reflexivity|].
    split; [vm_compute; reflexivity|].
    remember (w_trace _) as t eqn:Ht. vm_compute in Ht. subst t.
    split.
    + rewrite !Exists_cons. simpl. tauto.
    + repeat (apply Forall_cons; split; [simpl; tauto|]). apply Forall_nil.
      done.
Qed.

(** *** The log upload *)



(** *** The reorganization on any directory *)

Lemma for_each_ret {A} (l : list A) (w : world) :
  for_each l (fun _ => ret tt) w = (Ok tt, w).
Proof. induction l as [|x l IH]; [done|]. simpl. unfold bind. simpl. exact IH. Qed.

(** X10: with neither [--star_structure] nor [--skip_undetermined], the
    reorganization step succeeds on any directory, whatever its content and
    listing order, changes nothing in the file system and only logs the
    list of files. *)
Theorem reorganize_without_flags_is_a_no_op E a out w :
  star_structure a = false -> skip_undetermined a = false ->
  exists msg,
    reorganize E a out w
    = (Ok tt, {| w_fs := w_fs w; w_trace := w_trace w ++ [EvLog DEBUG msg] |}).
Proof.
  intros Hs Hk. eexists.
  unfold reorganize, reorganize_files, glob_fastq_gz, bind, log, emit.
  cbn [w_fs w_trace].
  assert (Hbody : reorganize_file a out = fun _ => ret tt).
  { unfold reorganize_file. rewrite Hs, Hk. reflexivity. }
  rewrite Hbody, for_each_ret. reflexivity.
Qed.

Lemma reorganize_without_flags_is_a_no_op_witness :
  exists msg,
    reorganize (env_failing (run_args false false) None [])
      (run_args false false) out_dir world0
    = (Ok tt, {| w_fs := w_fs world0;
                 w_trace := w_trace world0 ++ [EvLog DEBUG msg] |}).
Proof.
  apply (reorganize_without_flags_is_a_no_op _ (run_args false false) out_dir
           world0 eq_refl eq_refl).
Defined.

Lemma kept_refl fs : kept_or_undetermined fs fs.
Proof. intros p. by left. Qed.

Lemma kept_remove fs fs1 f :
  kept_or_undetermined fs fs1 ->
  startswith "Undetermined" (OsPath.basename f) = true ->
  forall fs2, Fs.remove f fs1 = Ok fs2 -> kept_or_undetermined fs fs2.
Proof.
  intros Hk Hf fs2. unfold Fs.remove.
  destruct (fs1 !! f) as [[]|] eqn:Hl; try done. intros [= <-] p.
  destruct (decide (p = f)) as [->|Hne].
  - right. rewrite lookup_delete_eq. split; [done|].
    destruct (Hk f) as [Heq|(Hn & _)]; [|congruence].
    split; [congruence|done].
  - rewrite lookup_delete_ne by done. apply Hk.
Qed.

Lemma skip_only_file_kept a out f w fs0 :
  star_structure a = false -> skip_undetermined a = true ->
  kept_or_undetermined fs0 (w_fs w) ->
  kept_or_undetermined fs0 (w_fs (snd (reorganize_file a out f w))).
Proof.
  intros Hs Hk Hinv. unfold reorganize_file. rewrite Hs, Hk. cbn [andb].
  destruct (startswith "Undetermined" (OsPath.basename f)) eqn:Hf;
    [|exact Hinv].
  unfold bind, log, emit, fs_call. cbn [w_fs w_trace].
  destruct (Fs.remove f (w_fs w)) as [fs2|e] eqn:Hr; [|done].
  cbn [snd w_fs]. by apply (kept_remove fs0 (w_fs w) f).
Qed.

Lemma skip_only_files_kept a out files w fs0 :
  star_structure a = false -> skip_undetermined a = true ->
  kept_or_undetermined fs0 (w_fs w) ->
  kept_or_undetermined fs0
    (w_fs (snd (for_each files (reorganize_file a out) w))).
Proof.
  intros Hs Hk. revert w. induction files as [|f files IH]; intros w Hinv.
  - done.
  - simpl. unfold bind.
    pose proof (skip_only_file_kept a out f w fs0 Hs Hk Hinv) as H1.
    destruct (reorganize_file a out f w) as [[u|e] w1]; [|done].
    by apply IH.
Qed.

(** X11: with [--skip_undetermined] alone, on any directory and in any
    listing order, whether the step completes or stops on an error, every
    path is either exactly as before or was a file whose name starts with
    [Undetermined] and is gone: nothing else is removed, nothing is created
    or moved. *)
Theorem skip_undetermined_touches_nothing_else E a out w :
  star_structure a = false -> skip_undetermined a = true ->
  forall p,
    w_fs (snd (reorganize E a out w)) !! p = w_fs w !! p \/
    (w_fs (snd (reorganize E a out w)) !! p = None /\
     w_fs w !! p = Some Fs.File /\
     startswith "Undetermined" (OsPath.basename p) = true).
Proof.
  intros Hs Hk.
  unfold reorganize, reorganize_files, glob_fastq_gz, bind, log, emit.
  cbn [w_fs w_trace].
  apply (skip_only_files_kept a out _ _ (w_fs w) Hs Hk). apply kept_refl.
Qed.

Lemma skip_undetermined_touches_nothing_else_witness :
  let E := env_failing (run_args false true) None [] in
  let fs' := w_fs (snd (reorganize E (run_args false true) out_dir world0)) in
  fs' !! "/mnt/data/hca/EXP/fastqs/SampleA_R1_001.fastq.gz"
    = w_fs world0 !! "/mnt/data/hca/EXP/fastqs/SampleA_R1_001.fastq.gz" \/
  (fs' !! "/mnt/data/hca/EXP/fastqs/SampleA_R1_001.fastq.gz" = None /\
   w_fs world0 !! "/mnt/data/hca/EXP/fastqs/SampleA_R1_001.fastq.gz"
     = Some Fs.File /\
   startswith "Undetermined"
     (OsPath.basename "/mnt/data/hca/EXP/fastqs/SampleA_R1_001.fastq.gz")
   = true).
Proof.
  apply (skip_undetermined_touches_nothing_else
           (env_failing (run_args false true) None [])
           (run_args false true) out_dir world0 eq_refl eq_refl).
Defined.

(** *** The sample name of a file *)

Lemma match_atoms_length ps s :
  Re.match_atoms ps s = true -> length ps <= String.length s.
Proof.
  revert s. induction ps as [|p ps IH]; intros s; simpl; [lia|].
  destruct s as [|c s]; [done|]. intros H.
  apply andb_true_iff in H as [_ H]. apply IH in H. simpl. lia.
Qed.

Lemma greedy_plus_short ps s :
  String.length s <= length ps -> Re.greedy_plus ps s = None.
Proof.
  induction s as [|c s IH]; [done|]. simpl. intros Hlen.
  destruct (negb _); [|done].
  rewrite IH by lia.
  destruct (Re.match_atoms ps s) eqn:Hm; [|done].
  apply match_atoms_length in Hm. lia.
Qed.

Lemma greedy_plus_sound ps s g :
  Re.greedy_plus ps s = Some g ->
  g <> EmptyString /\
  has_char newline g = false /\
  exists rest, s = g +:+ rest /\ Re.match_atoms ps rest = true.
Proof.
  revert g. induction s as [|c s IH]; intros g; [done|]. simpl.
  destruct (ascii_eqb c newline) eqn:Hc; [done|]. simpl.
  destruct (Re.greedy_plus ps s) as [g'|] eqn:Hg.
  - intros [= <-]. destruct (IH g' eq_refl) as (_ & Hn & rest & -> & Hm).
    split; [done|]. split.
    + simpl. by rewrite Hc.
    + by exists rest.
  - destruct (Re.match_atoms ps s) eqn:Hm; [|done]. intros [= <-].
    split; [done|]. split.
    + simpl. by rewrite Hc.
    + by exists s.
Qed.

Lemma greedy_plus_exact ps sample tail :
  sample <> EmptyString -> has_char newline sample = false ->
  Re.match_atoms ps tail = true -> String.length tail = length ps ->
  Re.greedy_plus ps (sample +:+ tail) = Some sample.
Proof.
  intros Hne Hnl Hm Hlen. induction sample as [|c sample IH]; [done|].
  simpl in Hnl. apply orb_false_iff in Hnl as [Hc Hrest].
  change (String c sample +:+ tail) with (String c (sample +:+ tail)).
  cbn [Re.greedy_plus Re.atom_matches]. rewrite Hc. cbn [negb].
  destruct sample as [|c' sample'].
  - change (EmptyString +:+ tail) with tail.
    rewrite greedy_plus_short by lia. by rewrite Hm.
  - by rewrite IH.
Qed.

(** X12: the pattern of line 133 gives, for a file named
    [<sample>_R1_001.fastq.gz] or [<sample>_R2_001.fastq.gz] with a
    non-empty sample name (without a newline), exactly [<sample>]; and
    whenever it matches at all, the sample is a non-empty prefix of the name
    that is followed by the read suffix. *)
Theorem sample_name_of_a_read_file :
  (forall sample read,
     sample <> EmptyString -> has_char newline sample = false ->
     read = "1" \/ read = "2" ->
     Re.match_sample (sample +:+ "_R" +:+ read +:+ "_001.fastq.gz")
     = Some sample) /\
  (forall name sample,
     Re.match_sample name = Some sample ->
     sample <> EmptyString /\
     exists rest, name = sample +:+ rest /\
                  Re.match_atoms Re.read_suffix rest = true).
Proof.
  split.
  - intros sample read Hne Hnl Hr. unfold Re.match_sample.
    apply greedy_plus_exact; try done; by destruct Hr as [-> | ->].
  - intros name sample H.
    destruct (greedy_plus_sound _ _ _ H) as (Hne & _ & rest & Hs & Hm).
    split; [done|]. by exists rest.
Qed.

Lemma sample_name_of_a_read_file_witness :
  Re.match_sample ("SampleA" +:+ "_R" +:+ "2" +:+ "_001.fastq.gz")
  = Some "SampleA".
Proof.
  apply (proj1 sample_name_of_a_read_file "SampleA" "2").
  - discriminate.
  - reflexivity.
  - right. reflexivity.
Defined.

Lemma star_only_unmatched_run a out files w :
  star_structure a = true -> skip_undetermined a = false ->
  Forall (fun f => Re.match_sample (OsPath.basename f) = None) files ->
  for_each files (reorganize_file a out) w
  = (Ok tt,
     {| w_fs := w_fs w;
        w_trace := w_trace w
                   ++ List.map (fun f => EvLog WARNING
                                  ("Warning: regex didn't match " +:+ f))
                        files |}).
Proof.
  intros Hs Hk Hall. revert w.
  induction files as [|f files IH]; intros w.
  - simpl. unfold ret. rewrite app_nil_r. by destruct w.
  - apply Forall_cons in Hall as [Hf Hall]. simpl. unfold bind.
    unfold reorganize_file at 1. rewrite Hs, Hk, Hf. cbn [andb].
    unfold log, emit. rewrite (IH Hall). cbn [w_fs w_trace].
    by rewrite <- app_assoc.
Qed.

(** X13: with [--star_structure] alone, files whose name the pattern does
    not match are left where they are: on a listing of such files only, the
    step succeeds, changes nothing in the file system and logs one warning
    per file. *)
Theorem unmatched_files_are_left_with_a_warning a out files w :
  star_structure a = true -> skip_undetermined a = false ->
  Forall (fun f => Re.match_sample (OsPath.basename f) = None) files ->
  exists msg,
    reorganize_files a out files w
    = (Ok tt,
       {| w_fs := w_fs w;
          w_trace := w_trace w ++ [EvLog DEBUG msg]
                     ++ List.map (fun f => EvLog WARNING
                                    ("Warning: regex didn't match " +:+ f))
                          files |}).
Proof.
  intros Hs Hk Hall. eexists. unfold reorganize_files, bind, log, emit.
  rewrite (star_only_unmatched_run a out files _ Hs Hk Hall).
  cbn [w_fs w_trace]. by rewrite <- app_assoc.
Qed.

Lemma unmatched_files_are_left_with_a_warning_witness :
  exists msg,
    reorganize_files (run_args true false) out_dir
      ["/mnt/data/hca/EXP/fastqs/SampleA_I1_001.fastq.gz"] world0
    = (Ok tt,
       {| w_fs := w_fs world0;
          w_trace := w_trace world0 ++ [EvLog DEBUG msg]
            ++ List.map (fun f => EvLog WARNING
                           ("Warning: regex didn't match " +:+ f))
                 ["/mnt/data/hca/EXP/fastqs/SampleA_I1_001.fastq.gz"] |}).
Proof.
  apply (unmatched_files_are_left_with_a_warning (run_args true false) out_dir
           ["/mnt/data/hca/EXP/fastqs/SampleA_I1_001.fastq.gz"] world0
           eq_refl eq_refl).
  apply Forall_singleton. vm_compute. reflexivity.
Defined.

(** *** The retry loop under any behaviour of the command *)

Lemma for_retry_any E command retry_msg exhausted n w :
  let r := for_retry n (log_command E (words command)) retry_msg exhausted w in
  exists k,
    k <= n /\
    exec_count (w_trace (snd r)) = exec_count (w_trace w) + k /\
    ((fst r = Ok tt /\ 1 <= k) \/ (fst r = Raise exhausted /\ k = n)).
Proof.
  cbv zeta. revert w. induction n as [|n IH]; intros w.
  - exists 0. simpl. split; [lia|]. split; [lia|]. by right.
  - cbn [for_retry]. rewrite log_command_run.
    destruct (sh_ok _).
    + exists 1. cbn [fst snd w_trace]. split; [lia|].
      rewrite exec_count_app. split; [reflexivity|]. left. split; [done|lia].
    + unfold bind at 1. unfold log at 1, emit at 1. cbn [w_fs w_trace].
      match goal with
      | |- context [for_retry n _ _ _ ?w1] =>
          destruct (IH w1) as (k & Hk & Hc & Hr);
          exists (S k); split; [lia|]; split;
            [rewrite Hc; cbn [w_trace]; rewrite !exec_count_app;
             unfold exec_count; simpl; lia|]
      end.
      destruct Hr as [[Hok Hk1]|[Hex ->]]; [left|right]; split;
        try done; lia.
Qed.

(** X14: whatever the command does, each of the sample-sheet download,
    the raw-data sync and the fastq upload runs it at least once and at most
    five times; it ends normally or with its own [RuntimeError], and in the
    latter case it has used all five attempts: the [CalledProcessError] of
    an attempt never escapes the wrapper.  The report copy runs no command
    at all: the join of its command list raises a [TypeError], which the
    wrapper does not catch. *)
Theorem retried_is_bounded E l op w :
  let r := retried E l op w in
  match op with
  | CpReports _ =>
      r = (Raise (TypeError
                    "sequence item 3: expected str instance, bytes found"),
           w)
  | _ =>
      exists k,
        1 <= k <= S3_RETRY /\
        exec_count (w_trace (snd r)) = exec_count (w_trace w) + k /\
        (fst r = Ok tt \/
         (fst r = Raise (RuntimeError (op_exhausted_msg l op)) /\
          k = S3_RETRY))
  end.
Proof.
  cbv zeta.
  assert (Hstr : (forall p, op <> CpReports p) ->
            exists k,
              1 <= k <= S3_RETRY /\
              exec_count (w_trace (snd (retried E l op w)))
              = exec_count (w_trace w) + k /\
              (fst (retried E l op w) = Ok tt \/
               (fst (retried E l op w)
                = Raise (RuntimeError (op_exhausted_msg l op)) /\
                k = S3_RETRY))).
  { intros Hop. unfold retried.
    destruct (op_command_words l op Hop) as (ws & -> & _).
    destruct (for_retry_any E ws (op_retry_msg op)
                (RuntimeError (op_exhausted_msg l op)) S3_RETRY w)
      as (k & Hk & Hc & Hr).
    exists k. split; [|split; [exact Hc|]].
    - destruct Hr as [[_ H1]|[_ ->]]; unfold S3_RETRY in *; lia.
    - destruct Hr as [[Hok _]|[Hex Hk5]]; [by left|by right]. }
  destruct op; [by apply Hstr..|apply report_copy_raises].
Qed.

(** *** The demultiplexing binary *)

(** X15: the demultiplexing binary is run once and never retried: when it
    exits with a non-zero status, the step after the sampler start raises
    the [CalledProcessError] of that command at once, and no upload or
    listing command follows. *)
Theorem bcl2fastq_failure_is_not_retried E l w :
  let cmd := join " " [BCL2FASTQ; bcl2fastq_options (l_args l);
                       "--sample-sheet";
                       OsPath.join (l_result_path l) (l_sheet l);
                       "-R"; l_bcl_path l; "-o"; l_output_path l] in
  let r := shell E (exec_count (w_trace w)) cmd (w_fs w) in
  sh_ok r = false ->
  demultiplex_and_upload E l w
  = (Raise (CalledProcessError cmd),
     {| w_fs := sh_fs r;
        w_trace := w_trace w ++ [EvLog INFO cmd; EvExec cmd] |}).
Proof.
  cbv zeta. intros Hfail. unfold demultiplex_and_upload.
  unfold bind at 1. rewrite log_command_run. by rewrite Hfail.
Qed.

Lemma bcl2fastq_failure_is_not_retried_witness :
  fst (demultiplex_and_upload (env_failing (run_args false false) None [0])
         locals0 empty_world)
  = Raise (CalledProcessError
             ("bcl2fastq --no-lane-splitting "
              +:+ "--sample-sheet /mnt/data/hca/EXP/EXP.csv "
              +:+ "-R /mnt/data/hca/EXP/bcl -o /mnt/data/hca/EXP/fastqs")).
Proof.
  rewrite (bcl2fastq_failure_is_not_retried
             (env_failing (run_args false false) None [0]) locals0 empty_world
             eq_refl).
  reflexivity.
Defined.

(** *** The entry point *)

Lemma log_file_Some E id :
  batch_job_id E = Some id -> id <> EmptyString ->
  log_file E = Some (id +:+ ".log").
Proof.
  intros Hid Hne. unfold log_file. rewrite Hid.
  by destruct (String.eqb_spec id EmptyString).
Qed.

Lemma log_file_None E :
  batch_job_id E = None \/ batch_job_id E = Some EmptyString ->
  log_file E = None.
Proof. unfold log_file. by intros [-> | ->]. Qed.

(** X16: outside a batch job (the job id unset or empty) the entry point
    opens no log file and uploads nothing: it ends as [main] ends, and adds
    to what [main] did only the line about the exception when there is
    one. *)
Theorem no_job_id_no_log_upload E w :
  batch_job_id E = None \/ batch_job_id E = Some EmptyString ->
  entry E w
  = match main E w with
    | (Ok u, w') => (Ok u, w')
    | (Raise e, w') => (Raise e, add_event w' (EvLog INFO "An exception occurred"))
    end.
Proof.
  intros Hid. unfold entry, upload_log. rewrite (log_file_None E Hid).
  unfold bind at 1. unfold ret at 1.
  unfold try_finally, try_except_reraise, ret, log, emit.
  by destruct (main E w) as [[u|e] w'].
Qed.

Lemma no_job_id_no_log_upload_witness :
  fst (entry (env_failing (run_args false false) None [2]) empty_world)
  = fst (main (env_failing (run_args false false) None [2]) empty_world).
Proof.
  rewrite (no_job_id_no_log_upload
             (env_failing (run_args false false) None [2]) empty_world
             (or_introl eq_refl)).
  by destruct (main _ _) as [[u|e] w'].
Defined.

(** X17: in a batch job, the outcome of the entry point is that of [main]
    when the upload of the log succeeds; when the upload command fails, its
    [CalledProcessError] is what the run ends with, in place of whatever
    [main] ended with. *)
Theorem entry_outcome_follows_the_log_upload E w id :
  batch_job_id E = Some id -> id <> EmptyString ->
  w_fs w !! (id +:+ ".log") <> Some Fs.Dir ->
  let path := id +:+ ".log" in
  let cmd := "aws s3 cp " +:+ path +:+ " " +:+ S3_LOG_DIR in
  let w1 := {| w_fs := match w_fs w !! path with
                       | Some _ => w_fs w
                       | None => <[path := Fs.File]> (w_fs w)
                       end;
               w_trace := w_trace w |} in
  let m := main E w1 in
  let uploaded :=
    sh_ok (shell E (exec_count (w_trace (snd m))) cmd (w_fs (snd m))) in
  fst (entry E w)
  = if uploaded then fst m else Raise (CalledProcessError cmd).
Proof.
  intros Hid Hne Hfs. cbv zeta.
  unfold entry, upload_log. rewrite (log_file_Some E id Hid Hne).
  unfold bind at 1. unfold fs_call, open_log.
  destruct (w_fs w !! (id +:+ ".log")) as [[]|] eqn:Hl; [|done|].
  all: unfold try_finally, try_except_reraise, log_cmd;
    match goal with
    | |- context [main ?E0 ?w1] => destruct (main E0 w1) as [[[]|e] w2]
    end;
    unfold bind, log, emit, check_output; cbn [w_fs w_trace fst snd];
    rewrite ?exec_count_app; unfold exec_count at 2 3; cbn [List.filter is_exec length];
    rewrite ?Nat.add_0_r;
    repeat match goal with
      | |- context [sh_ok ?r] => destruct (sh_ok r)
      end; reflexivity.
Qed.

Lemma entry_outcome_follows_the_log_upload_witness :
  fst (entry (env_failing (run_args false false) (Some "job-1") [2; 3])
         empty_world)
  = Raise (CalledProcessError
             "aws s3 cp job-1.log s3://jamestwebber-logs/bcl2fastq_logs/").
Proof.
  assert (Hne : "job-1" <> EmptyString) by discriminate.
  assert (Hfs : w_fs empty_world !! ("job-1" +:+ ".log") <> Some Fs.Dir)
    by (vm_compute; discriminate).
  rewrite (entry_outcome_follows_the_log_upload
             (env_failing (run_args false false) (Some "job-1") [2; 3])
             empty_world "job-1" eq_refl Hne Hfs).
  vm_compute. reflexivity.
Defined.

(** *** Before the first download *)

(** X18: without [--exp_id] the run stops while it builds its local paths,
    before it creates a directory or runs a command: [main] raises and
    leaves the world as it found it. *)
Theorem missing_exp_id_stops_at_once E a w :
  parse_args E = Ok a -> exp_id a = None ->
  main E w = (Raise (OtherError "TypeError"), w).
Proof.
  intros Hp He. unfold main, setup, bind. by rewrite Hp, He.
Qed.

Lemma missing_exp_id_stops_at_once_witness :
  main (env_failing default_args None []) empty_world
  = (Raise (OtherError "TypeError"), empty_world).
Proof.
  apply (missing_exp_id_stops_at_once (env_failing default_args None [])
           default_args empty_world eq_refl eq_refl).
Defined.

Lemma exists_insert fs q p n :
  Fs.exists_ fs q = true -> Fs.exists_ (<[p := n]> fs) q = true.
Proof.
  unfold Fs.exists_. destruct (decide (p = q)) as [->|Hne].
  - by rewrite lookup_insert_eq.
  - by rewrite lookup_insert_ne.
Qed.

Lemma mkdir_keeps p fs fs' q :
  Fs.mkdir p fs = Ok fs' -> Fs.exists_ fs q = true -> Fs.exists_ fs' q = true.
Proof.
  unfold Fs.mkdir. destruct (Fs.exists_ fs p); [done|].
  destruct (Fs.parent_error fs _); [done|]. intros [= <-].
  apply exists_insert.
Qed.

Lemma makedirs_fuel_keeps n p fs fs' q :
  Fs.makedirs_fuel n p fs = Ok fs' ->
  Fs.exists_ fs q = true -> Fs.exists_ fs' q = true.
Proof.
  revert p fs fs'. induction n as [|n IH]; intros p fs fs'; [done|].
  cbn [Fs.makedirs_fuel].
  destruct (let (h, t) := OsPath.split p in
            if String.eqb t EmptyString then OsPath.split h else (h, t))
    as [head tail].
  destruct (negb (String.eqb head EmptyString)
            && negb (String.eqb tail EmptyString)
            && negb (Fs.exists_ fs head))%bool.
  - destruct (Fs.makedirs_fuel n head fs) as [fs1|e] eqn:Hrec.
    + intros Hm Hq. eapply mkdir_keeps; [exact Hm|]. by eapply IH.
    + destruct e; try done. intros Hm Hq. by eapply mkdir_keeps.
  - intros Hm Hq. by eapply mkdir_keeps.
Qed.

Lemma makedirs_existing p fs :
  Fs.exists_ fs p = true -> exists e, Fs.makedirs p fs = Raise e.
Proof.
  intros Hp. unfold Fs.makedirs. cbn [Fs.makedirs_fuel].
  destruct (let (h, t) := OsPath.split p in
            if String.eqb t EmptyString then OsPath.split h else (h, t))
    as [head tail].
  assert (Hmk : forall fs1, Fs.exists_ fs1 p = true ->
                            exists e, Fs.mkdir p fs1 = Raise e).
  { intros fs1 H1. unfold Fs.mkdir. rewrite H1. by eexists. }
  destruct (negb (String.eqb head EmptyString)
            && negb (String.eqb tail EmptyString)
            && negb (Fs.exists_ fs head))%bool.
  - destruct (Fs.makedirs_fuel _ head fs) as [fs1|e] eqn:Hrec.
    + apply Hmk. by eapply makedirs_fuel_keeps.
    + destruct e; try by eexists. by apply Hmk.
  - by apply Hmk.
Qed.

(** X19: a run whose local result directory already exists fails at the
    very first step, the creation of that directory: no command is run, no
    event happens and the file system is left as it was. *)
Theorem existing_result_directory_stops_at_once E a e w :
  parse_args E = Ok a -> exp_id a = Some e ->
  Fs.exists_ (w_fs w)
    (OsPath.join (OsPath.join3 (local_root E a) "data" "hca") e) = true ->
  exists x, main E w = (Raise x, w).
Proof.
  intros Hp He Hex.
  unfold main, setup. unfold bind at 1 2. rewrite Hp, He.
  fold (local_root E a).
  destruct (makedirs_existing _ _ Hex) as [x Hx].
  exists x. unfold bind, fs_call. by rewrite Hx.
Qed.

Lemma existing_result_directory_stops_at_once_witness :
  exists x,
    main (env_failing (run_args false false) None []) world0
    = (Raise x, world0).
Proof.
  apply (existing_result_directory_stops_at_once
           (env_failing (run_args false false) None [])
           (run_args false false) "EXP" world0 eq_refl eq_refl).
  vm_compute. reflexivity.
Defined.

(** *** The number of shell commands *)

Lemma within_ret n {A} (a : A) : within n (ret a).
Proof. intros w. simpl. lia. Qed.

Lemma within_raise n {A} (e : exn) : within n (@raise world A e).
Proof. intros w. simpl. lia. Qed.

Lemma within_weaken n m {A} (c : M world A) :
  n <= m -> within n c -> within m c.
Proof. intros Hnm Hc w. specialize (Hc w). lia. Qed.

Lemma within_bind n m {A B} (c : M world A) (k : A -> M world B) :
  within n c -> (forall a, within m (k a)) -> within (n + m) (bind c k).
Proof.
  intros Hc Hk w. unfold bind. specialize (Hc w).
  destruct (c w) as [[a|e] w1]; simpl in *; [|lia].
  specialize (Hk a w1). lia.
Qed.

Lemma within_log lvl msg : within 0 (log lvl msg).
Proof.
  intros w. unfold log, emit. cbn [snd w_trace].
  rewrite exec_count_app. unfold exec_count at 2. simpl. lia.
Qed.

Lemma within_check_output E cmd : within 1 (check_output E cmd).
Proof.
  intros w. unfold check_output.
  destruct (sh_ok _); cbn [snd w_trace]; rewrite exec_count_app;
    unfold exec_count at 2; simpl; lia.
Qed.

Lemma within_fs_call f : within 0 (fs_call f).
Proof. intros w. unfold fs_call. destruct (f (w_fs w)); simpl; lia. Qed.

Lemma within_for_each {A} (l : list A) (body : A -> M world unit) :
  (forall x, within 0 (body x)) -> within 0 (for_each l body).
Proof.
  intros Hb. induction l as [|x l IH]; [apply within_ret|].
  simpl. apply (within_bind 0 0); [apply Hb|intros _; exact IH].
Qed.

Lemma within_log_bytes lvl data : within 0 (log_bytes lvl data).
Proof.
  intros w. unfold log_bytes, emit. cbn [snd w_trace].
  rewrite exec_count_app. unfold exec_count at 2. simpl. lia.
Qed.

Lemma within_log_command E command : within 1 (log_command E command).
Proof.
  unfold log_command.
  apply (within_bind 0 1); [intros w; simpl; lia|intros line].
  apply (within_bind 0 1); [apply within_log|intros _].
  apply (within_bind 1 0); [apply within_check_output|intros ?].
  apply within_log_bytes.
Qed.

Lemma within_for_retry E command msg ex n :
  within n (for_retry n (log_command E command) msg ex).
Proof.
  induction n as [|n IH]; [apply within_raise|].
  intros w. cbn [for_retry].
  pose proof (within_log_command E command w) as Ha.
  destruct (log_command E command w) as [[u|e] w1]; simpl in *; [lia|].
  destruct e; simpl; try lia.
  pose proof (within_bind 0 n _ _ (within_log INFO msg) (fun _ => IH) w1).
  simpl in *. lia.
Qed.

Lemma within_retried E l op : within 5 (retried E l op).
Proof. apply within_for_retry. Qed.

Lemma within_reorganize E a out : within 0 (reorganize E a out).
Proof.
  unfold reorganize, glob_fastq_gz.
  apply (within_bind 0 0); [intros w; simpl; lia|intros files].
  unfold reorganize_files.
  apply (within_bind 0 0); [apply within_log|intros _].
  apply within_for_each. intros f. unfold reorganize_file.
  destruct (_ && _)%bool.
  { apply (within_bind 0 0); [apply within_log|intros _].
    apply within_fs_call. }
  destruct (star_structure a); [|apply within_ret].
  destruct (Re.match_sample _); [|apply within_log].
  apply (within_bind 0 0); [intros w; simpl; lia|intros there].
  apply (within_bind 0 0).
  { destruct there; [apply within_ret|]. cbn [negb when].
    apply (within_bind 0 0); [apply within_log|intros _].
    apply within_fs_call. }
  intros _. apply (within_bind 0 0); [apply within_log|intros _].
  apply within_fs_call.
Qed.

Lemma within_setup E : within 10 (setup E).
Proof.
  unfold setup.
  apply (within_bind 0 10); [intros w; simpl; lia|intros a0].
  destruct (exp_id a0); [|apply within_raise].
  apply (within_bind 0 10); [apply within_fs_call|intros _].
  apply (within_bind 0 10); [apply within_fs_call|intros _].
  apply (within_bind 5 5); [apply within_retried|intros _].
  apply (within_bind 5 0); [apply within_retried|intros _].
  apply within_ret.
Qed.

Lemma within_demultiplex_and_upload E l :
  within 13 (demultiplex_and_upload E l).
Proof.
  unfold demultiplex_and_upload.
  apply (within_bind 1 12); [apply within_log_command|intros _].
  apply (within_bind 0 12); [apply within_reorganize|intros _].
  apply (within_bind 5 7); [apply within_retried|intros _].
  apply (within_bind 1 6); [apply within_log_command|intros _].
  apply (within_bind 1 5); [apply within_check_output|intros out].
  apply within_retried.
Qed.

Lemma within_emit_quiet e :
  is_exec e = false -> within 0 (emit e).
Proof.
  intros He w. unfold emit. cbn [snd w_trace]. rewrite exec_count_app.
  unfold exec_count at 2. simpl. rewrite He. simpl. lia.
Qed.

Lemma within_main E : within 23 (main E).
Proof.
  unfold main.
  apply (within_bind 10 13); [apply within_setup|intros l].
  apply (within_bind 0 13); [by apply within_emit_quiet|intros _].
  apply (within_bind 13 0); [apply within_demultiplex_and_upload|intros _].
  by apply within_emit_quiet.
Qed.

(** X20: a run is bounded in the shell commands it issues, whatever they
    do: [main] runs at most 23 (five for each of the four retried
    operations, one for the binary, two listings), and the entry point at
    most one more, the upload of the log. *)
Theorem shell_commands_are_bounded E w :
  exec_count (w_trace (snd (main E w))) <= exec_count (w_trace w) + 23 /\
  exec_count (w_trace (snd (entry E w))) <= exec_count (w_trace w) + 24.
Proof.
  split; [apply within_main|].
  unfold entry.
  assert (Hopen : within 0 (match log_file E with
                            | Some path => fs_call (open_log path)
                            | None => ret tt
                            end)).
  { destruct (log_file E); [apply within_fs_call|apply within_ret]. }
  assert (Hup : within 1 (upload_log E)).
  { unfold upload_log. destruct (log_file E); [|apply within_ret].
    apply (within_bind 0 1); [apply within_log|intros _].
    apply (within_bind 0 1); [by apply within_emit_quiet|intros _].
    apply (within_bind 1 0); [apply within_check_output|intros _].
    apply within_ret. }
  apply (within_bind 0 24); [exact Hopen|intros _].
  intros w1. unfold try_finally, try_except_reraise.
  pose proof (within_main E w1) as Hm.
  destruct (main E w1) as [[u|e] w2]; simpl in Hm.
  - specialize (Hup w2). destruct (upload_log E w2) as [[?|?] ?];
      simpl in *; lia.
  - pose proof (within_log INFO "An exception occurred" w2) as Hl.
    destruct (log INFO "An exception occurred" w2) as [[?|?] w3];
      simpl in Hl; specialize (Hup w3);
      destruct (upload_log E w3) as [[?|?] ?]; simpl in *; lia.
Qed.

(** *** A run in which every command succeeds *)

Lemma retried_first_try E l op w :
  (forall p, op <> CpReports p) ->
  (forall n c fs, sh_ok (shell E n c fs) = true) ->
  exists fs' out,
    retried E l op w
    = (Ok tt, {| w_fs := fs';
                 w_trace := w_trace w ++ good_attempt (op_line l op) out |}).
Proof.
  intros Hop Hok. unfold retried, S3_RETRY. cbn [for_retry].
  destruct (op_command_words l op Hop) as (ws & -> & ->).
  rewrite log_command_run, Hok. by eexists _, _.
Qed.

Lemma log_command_first_try E command w :
  (forall n c fs, sh_ok (shell E n c fs) = true) ->
  exists fs' out,
    log_command E (words command) w
    = (Ok tt, {| w_fs := fs';
                 w_trace := w_trace w
                            ++ good_attempt (join " " command) out |}).
Proof. intros Hok. rewrite log_command_run, Hok. by eexists _, _. Qed.

Ltac tracks_local :=
  match goal with
  | |- extends _ _ (bind _ _) => apply extends_bind; [|intros ?]
  | |- extends _ _ (ret _) => apply extends_ret
  | |- extends _ _ (raise _) => apply extends_raise
  | |- extends _ _ (when _ _) => apply extends_when
  | |- extends _ _ (for_each _ _) => apply extends_for_each; intros ?
  | |- extends _ _ (fs_call _) => apply tracks_fs_call
  | |- extends _ _ (path_exists _) => apply tracks_pure
  | |- extends _ _ (glob_fastq_gz _ _) => apply tracks_pure
  | |- extends _ _ (log _ _) =>
      apply tracks_log; unfold local_only, quiet; simpl; tauto
  | |- extends _ _ (if ?b then _ else _) => destruct b
  | |- extends _ _ (match ?x with _ => _ end) => destruct x
  end.

Lemma reorganize_local_only E a out : tracks local_only (reorganize E a out).
Proof.
  unfold reorganize, reorganize_files, reorganize_file.
  repeat tracks_local.
Qed.

(** The file-system calls raise their own errors, never a [TypeError]. *)
Lemma parent_error_not_type fs d e :
  Fs.parent_error fs d = Some e -> not_type_error e.
Proof.
  unfold Fs.parent_error. intros H.
  repeat case_match; simplify_eq; exact I.
Qed.

Lemma mkdir_not_type p fs e : Fs.mkdir p fs = Raise e -> not_type_error e.
Proof.
  unfold Fs.mkdir. intros H.
  destruct (Fs.exists_ fs p); [by simplify_eq|].
  destruct (Fs.parent_error _ _) as [x|] eqn:Hp; [|done].
  simplify_eq. by eapply parent_error_not_type.
Qed.

Lemma makedirs_fuel_not_type n p fs e :
  Fs.makedirs_fuel n p fs = Raise e -> not_type_error e.
Proof.
  revert p fs e. induction n as [|n IH]; intros p fs e; [by intros [= <-]|].
  cbn [Fs.makedirs_fuel].
  destruct (OsPath.split p) as [h t].
  destruct (if String.eqb t EmptyString then OsPath.split h else (h, t))
    as [head tail].
  destruct (_ && _)%bool.
  - destruct (Fs.makedirs_fuel n head fs) as [fs'|x] eqn:Hm.
    + apply mkdir_not_type.
    + pose proof (IH _ _ _ Hm) as Hx.
      destruct x; try (by intros [= <-]); apply mkdir_not_type.
  - apply mkdir_not_type.
Qed.

Lemma remove_not_type p fs e : Fs.remove p fs = Raise e -> not_type_error e.
Proof.
  unfold Fs.remove. intros H. repeat case_match; simplify_eq; exact I.
Qed.

Lemma rename_not_type src dst fs e :
  Fs.rename src dst fs = Raise e -> not_type_error e.
Proof.
  unfold Fs.rename. intros H.
  destruct (fs !! src) as [n|]; [|by simplify_eq].
  destruct (Fs.parent_error _ _) as [x|] eqn:Hp.
  { simplify_eq. by eapply parent_error_not_type. }
  repeat case_match; simplify_eq; exact I.
Qed.

Lemma raises_only_bind P {A B} (c : M world A) (k : A -> M world B) :
  raises_only P c -> (forall a, raises_only P (k a)) ->
  raises_only P (bind c k).
Proof.
  intros Hc Hk w e. unfold bind. specialize (Hc w).
  destruct (c w) as [[a|x] w1]; simpl in *; [apply Hk|].
  intros [= <-]. by apply Hc.
Qed.

Lemma raises_only_fs_call P f :
  (forall fs e, f fs = Raise e -> P e) -> raises_only P (fs_call f).
Proof.
  intros Hf w e. unfold fs_call.
  destruct (f (w_fs w)) as [fs'|x] eqn:Hx; [done|].
  intros [= <-]. by eapply Hf.
Qed.

Lemma raises_only_for_each P {A} (l : list A) (body : A -> M world unit) :
  (forall x, raises_only P (body x)) -> raises_only P (for_each l body).
Proof.
  intros Hb. induction l as [|x l IH]; [by intros w e|].
  simpl. apply raises_only_bind; [apply Hb|intros _; exact IH].
Qed.

Lemma reorganize_not_type E a out :
  raises_only not_type_error (reorganize E a out).
Proof.
  unfold reorganize, reorganize_files, reorganize_file.
  apply raises_only_bind; [by intros w e|intros files].
  apply raises_only_bind; [by intros w e|intros _].
  apply raises_only_for_each. intros f.
  destruct (_ && _)%bool.
  { apply raises_only_bind; [by intros w e|intros _].
    apply raises_only_fs_call. apply remove_not_type. }
  destruct (star_structure a); [|by intros w e].
  destruct (Re.match_sample _) as [sample|]; [|by intros w e].
  apply raises_only_bind; [by intros w e|intros there].
  apply raises_only_bind.
  { destruct (negb there); [|by intros w e].
    apply raises_only_bind; [by intros w e|intros _].
    apply raises_only_fs_call. apply mkdir_not_type. }
  intros _. apply raises_only_bind; [by intros w e|intros _].
  apply raises_only_fs_call. apply rename_not_type.
Qed.

Lemma setup_first_try E a e w :
  parse_args E = Ok a -> exp_id a = Some e ->
  (forall n c fs, sh_ok (shell E n c fs) = true) ->
  let l := locals_of E a e in
  (exists x w1, setup E w = (Raise x, w1) /\ not_type_error x) \/
  (exists w1 o1 o2,
     setup E w = (Ok l, w1) /\
     w_trace w1
     = w_trace w
       ++ good_attempt (op_line l DownloadSampleSheet) o1
       ++ good_attempt (op_line l SyncBcl) o2).
Proof.
  intros Hp He Hok. cbv zeta.
  assert (H : forall r, setup E w = r ->
            (exists x w1, r = (Raise x, w1) /\ not_type_error x) \/
            (exists w1 o1 o2,
               r = (Ok (locals_of E a e), w1) /\
               w_trace w1
               = w_trace w
                 ++ good_attempt
                      (op_line (locals_of E a e) DownloadSampleSheet) o1
                 ++ good_attempt (op_line (locals_of E a e) SyncBcl) o2));
    [|exact (H _ eq_refl)].
  intros r. unfold setup. unfold bind at 1. rewrite Hp, He.
  cbv beta iota. unfold bind, fs_call.
  destruct (Fs.makedirs _ _) as [fs1|x] eqn:Hm.
  2:{ intros <-. left. eexists _, _. split; [reflexivity|].
      by eapply makedirs_fuel_not_type. }
  cbn [w_fs w_trace].
  destruct (Fs.mkdir _ _) as [fs2|x] eqn:Hk.
  2:{ intros <-. left. eexists _, _. split; [reflexivity|].
      by eapply mkdir_not_type. }
  cbn [w_fs w_trace].
  match goal with
  | |- context [retried E ?l0 DownloadSampleSheet ?w1] =>
      destruct (retried_first_try E l0 DownloadSampleSheet w1
                  ltac:(intros ?; discriminate) Hok)
        as (fs3 & o1 & ->)
  end.
  match goal with
  | |- context [retried E ?l0 SyncBcl ?w1] =>
      destruct (retried_first_try E l0 SyncBcl w1
                  ltac:(intros ?; discriminate) Hok)
        as (fs4 & o2 & ->)
  end.
  unfold ret. intros <-. right. eexists _, o1, o2. split; [reflexivity|].
  cbn [w_trace]. by rewrite <- !app_assoc.
Qed.

Lemma demultiplex_first_try E l w m :
  (forall n c fs, sh_ok (shell E n c fs) = true) ->
  fst (demultiplex_and_upload E l w) = Raise (TypeError m) ->
  m = "sequence item 3: expected str instance, bytes found" /\
  exists o3 o4 o5 tre,
    w_trace (snd (demultiplex_and_upload E l w))
    = w_trace w
      ++ good_attempt (bcl2fastq_command l) o3
      ++ tre
      ++ good_attempt (op_line l SyncFastqs) o4
      ++ good_attempt (check_upload_command l) o5
      ++ [EvExec (find_reports_command l)]
    /\ Forall local_only tre.
Proof.
  intros Hok.
  assert (H : forall r, demultiplex_and_upload E l w = r ->
            fst r = Raise (TypeError m) ->
            m = "sequence item 3: expected str instance, bytes found" /\
            exists o3 o4 o5 tre,
              w_trace (snd r)
              = w_trace w
                ++ good_attempt (bcl2fastq_command l) o3
                ++ tre
                ++ good_attempt (op_line l SyncFastqs) o4
                ++ good_attempt (check_upload_command l) o5
                ++ [EvExec (find_reports_command l)]
              /\ Forall local_only tre);
    [|exact (H _ eq_refl)].
  intros r. unfold demultiplex_and_upload.
  fold (bcl2fastq_command l) (check_upload_command l)
       (find_reports_command l).
  unfold bind at 1.
  destruct (log_command_first_try E
              [BCL2FASTQ; bcl2fastq_options (l_args l); "--sample-sheet";
               OsPath.join (l_result_path l) (l_sheet l);
               "-R"; l_bcl_path l; "-o"; l_output_path l] w Hok)
    as (fs1 & o3 & ->).
  unfold bind at 1.
  match goal with
  | |- context [reorganize E ?a ?out ?w1] =>
      destruct (reorganize_local_only E a out w1) as (tre & Htre & Hloc);
      pose proof (reorganize_not_type E a out w1) as Hnt;
      destruct (reorganize E a out w1) as [[[]|x] w2]
  end.
  2:{ intros <- [= ->]. by destruct (Hnt _ eq_refl). }
  clear Hnt. cbn [snd w_trace] in Htre.
  unfold bind at 1.
  destruct (retried_first_try E l SyncFastqs w2
              ltac:(intros ?; discriminate) Hok)
    as (fs3 & o4 & ->).
  unfold bind at 1.
  match goal with
  | |- context [log_command E (words ?c) ?w1] =>
      destruct (log_command_first_try E c w1 Hok) as (fs4 & o5 & ->)
  end.
  unfold bind at 1. unfold check_output. rewrite Hok.
  rewrite report_copy_raises.
  intros <-. cbn [fst snd w_trace].
  intros [= <-]. split; [reflexivity|].
  exists o3, o4, o5, tre.
  split; [|done]. rewrite Htre.
  unfold bcl2fastq_command, check_upload_command.
  by rewrite <- !app_assoc.
Qed.

(** X21: a run in which every shell command succeeds at its first attempt
    does not complete.  When it ends in a [TypeError], that is the one of
    the report copy, and the run is the pipeline up to there, in order: the
    sample sheet and the raw data are fetched, the sampler is started, the
    binary is run, the output is reorganized without any command, the
    fastq files are uploaded and listed and the report directory is looked
    up; six commands, no retry, no report copied, and the sampler is not
    killed. *)
Theorem all_success_run_stops_at_the_report_copy E a e w m :
  parse_args E = Ok a -> exp_id a = Some e ->
  (forall n c fs, sh_ok (shell E n c fs) = true) ->
  fst (main E w) = Raise (TypeError m) ->
  let l := locals_of E a e in
  m = "sequence item 3: expected str instance, bytes found" /\
  exists o1 o2 o3 o4 o5 tre,
    w_trace (snd (main E w))
    = w_trace w
      ++ good_attempt (op_line l DownloadSampleSheet) o1
      ++ good_attempt (op_line l SyncBcl) o2
      ++ [EvPopen sampler_command]
      ++ good_attempt (bcl2fastq_command l) o3
      ++ tre
      ++ good_attempt (op_line l SyncFastqs) o4
      ++ good_attempt (check_upload_command l) o5
      ++ [EvExec (find_reports_command l)]
    /\ Forall local_only tre.
Proof.
  intros Hp He Hok. rewrite main_run. cbv zeta.
  destruct (setup_first_try E a e w Hp He Hok)
    as [(x & w1 & -> & Hx)|(w1 & o1 & o2 & -> & Ht1)].
  { intros [= ->]. destruct Hx. }
  pose proof (demultiplex_first_try E (locals_of E a e)
                (add_event w1 (EvPopen sampler_command)) m Hok) as Hd.
  destruct (demultiplex_and_upload E _ _) as [[[]|x] w3]; [done|].
  intros [= ->]. destruct (Hd eq_refl) as (-> & o3 & o4 & o5 & tre & Ht3 & Hloc).
  split; [reflexivity|].
  exists o1, o2, o3, o4, o5, tre. split; [|done].
  cbn [snd add_event w_trace] in *. rewrite Ht3, Ht1.
  by rewrite <- !app_assoc.
Qed.

Lemma all_success_run_stops_at_the_report_copy_witness :
  let E := env_failing (run_args false false) None [] in
  fst (main E empty_world)
  = Raise (TypeError "sequence item 3: expected str instance, bytes found") /\
  exec_count (w_trace (snd (main E empty_world))) = 6.
Proof.
  assert (H : fst (main (env_failing (run_args false false) None [])
                     empty_world)
              = Raise (TypeError
                         "sequence item 3: expected str instance, bytes found"))
    by (vm_compute; reflexivity).
  split; [exact H|].
  destruct (all_success_run_stops_at_the_report_copy
              (env_failing (run_args false false) None [])
              (run_args false false) "EXP" empty_world _ eq_refl eq_refl
              (fun _ _ _ => eq_refl) H)
    as (_ & o1 & o2 & o3 & o4 & o5 & tre & Ht & Hloc).
  vm_compute. reflexivity.
Defined.

End DemuxProofs.
